(** * An embedding of the instant-messaging core of go-base

    The development follows the Go sources of [im/internal]: the model and
    protocol structs, the three gorm repositories, the connection [Hub], the
    [RouteManager] and the [IMServer] that ties them together.  Every Go
    method becomes a state transformer over one [World] that holds what the
    server object graph and its database hold. *)

From Stdlib Require Import ZArith Lia Sorting.Sorted.
From stdpp Require Import base option list sorting gmap strings.

Local Open Scope string_scope.
Local Open Scope list_scope.
Local Open Scope Z_scope.

(** ** package model *)

Definition MsgTypeText : Z := 1.

Definition MsgStatusSending : Z := 1.
Definition MsgStatusSent : Z := 2.
Definition MsgStatusDelivered : Z := 3.
Definition MsgStatusRead : Z := 4.
Definition MsgStatusFailed : Z := 5.

Definition SessionTypeSingle : Z := 1.
Definition SessionTypeGroup : Z := 2.

(** [model.Message].  The [FileInfo] pointer is left out: no path modelled
    here ever sets it. *)
Module Message.
Record t := mk {
  MsgID : string;
  FromUserID : Z;
  ToUserID : Z;
  GroupID : Z;
  Content : string;
  MsgType : Z;
  Status : Z;
  FileID : string;
  ClientTime : Z;
  ServerTime : Z;
  DeliveredTime : Z;
  ReadTime : Z;
}.
End Message.

Module Session.
Record t := mk {
  UserID : Z;
  TargetID : Z;
  SessionType : Z;
  LastMsgContent : string;
  LastMsgTime : Z;
  UnreadCount : Z;
}.
End Session.

Module GetMessagesRequest.
Record t := mk {
  UserID : Z;
  TargetID : Z;
  SessionType : Z;
  BeforeTime : Z;
  Limit : Z;
}.
End GetMessagesRequest.

(** ** package protocol *)

Definition WSMsgTypeChatMsg : string := "chat_msg".
Definition WSMsgTypeAck : string := "ack".
Definition WSMsgTypeStatusUpdate : string := "status_update".

Module WSAckMessage.
Record t := mk {
  MsgID : string;
  Status : Z;
  ServerTime : Z;
  Error : string;
}.
End WSAckMessage.

Module WSPushMessage.
Record t := mk {
  MsgID : string;
  FromUserID : Z;
  Content : string;
  MsgType : Z;
  FileID : string;
  Status : Z;
  ClientTime : Z;
  ServerTime : Z;
}.
End WSPushMessage.

Module WSStatusUpdate.
Record t := mk {
  MsgID : string;
  Status : Z;
  UpdateTime : Z;
}.
End WSStatusUpdate.

(** The [Data interface{}] field of an envelope: the dynamic types the server
    stores in it. *)
Inductive WSData :=
  | DataNil
  | DataAck (a : WSAckMessage.t)
  | DataPush (p : WSPushMessage.t)
  | DataStatus (u : WSStatusUpdate.t).

(** [protocol.WSMessage].  The server hands [json.Marshal] of such an envelope
    to the hub; the queues below hold the envelope itself, its encoding is
    not modelled. *)
Module WSMessage.
Record t := mk {
  Type_ : string;
  MsgID : string;
  Data : WSData;
  Timestamp : Z;
}.
End WSMessage.

(** ** package imgrpc *)

Module ForwardMessageRequest.
Record t := mk {
  ToUserID : Z;
  MsgID : string;
  FromUserID : Z;
  Content : string;
  MsgType : Z;
  ClientTime : Z;
  ServerTime : Z;
}.
End ForwardMessageRequest.

Module ForwardMessageResponse.
Record t := mk {
  Delivered : bool;
  Error : string;
}.
End ForwardMessageResponse.

(** ** package repository: the rows *)

Module DBMessage.
Record t := mk {
  ID : Z;
  MsgID : string;
  FromUserID : Z;
  ToUserID : Z;
  GroupID : Z;
  Content : string;
  MsgType : Z;
  Status : Z;
  FileID : string;
  ClientTime : Z;
  ServerTime : Z;
  DeliveredTime : Z;
  ReadTime : Z;
  CreatedAt : Z;
}.

(** The three column assignments [UpdateStatus] can issue. *)
Definition set_status (v : Z) (m : t) : t :=
  mk (ID m) (MsgID m) (FromUserID m) (ToUserID m) (GroupID m) (Content m)
     (MsgType m) v (FileID m) (ClientTime m) (ServerTime m)
     (DeliveredTime m) (ReadTime m) (CreatedAt m).
Definition set_delivered_time (v : Z) (m : t) : t :=
  mk (ID m) (MsgID m) (FromUserID m) (ToUserID m) (GroupID m) (Content m)
     (MsgType m) (Status m) (FileID m) (ClientTime m) (ServerTime m)
     v (ReadTime m) (CreatedAt m).
Definition set_read_time (v : Z) (m : t) : t :=
  mk (ID m) (MsgID m) (FromUserID m) (ToUserID m) (GroupID m) (Content m)
     (MsgType m) (Status m) (FileID m) (ClientTime m) (ServerTime m)
     (DeliveredTime m) v (CreatedAt m).
End DBMessage.

(** [DBSession]; the primary key is (user_id, target_id, session_type).  The
    two timestamps gorm maintains by itself (created_at, updated_at) are not
    modelled.  [unread_count + ?] is computed by the store, on integers. *)
Module DBSession.
Record t := mk {
  UserID : Z;
  TargetID : Z;
  SessionType : Z;
  LastMsgContent : string;
  LastMsgTime : Z;
  UnreadCount : Z;
}.
End DBSession.

(** [DBServer] and [DBUserRoute], without the two timestamps the store
    maintains by itself (created_at, updated_at); [LastHeartbeat] is in
    seconds. *)
Module DBServer.
Record t := mk {
  ServerID : string;
  GRPCAddr : string;
  LastHeartbeat : Z;
}.
End DBServer.

Module DBUserRoute.
Record t := mk {
  UserID : Z;
  ServerID : string;
  LastHeartbeat : Z;
}.
End DBUserRoute.

(** [repository.Server], a row of the registry as [GetActiveServers] hands
    it out. *)
Module Server.
Record t := mk {
  ServerID : string;
  GRPCAddr : string;
  LastHeartbeat : Z;
}.
End Server.

Module UserRoute.
Record t := mk {
  ServerID : string;
  GRPCAddr : string;
}.
End UserRoute.

(** ** package core: the runtime objects *)

Module RouteCache.
Record t := mk {
  GatewayID : string;
  CacheTime : Z;
}.
End RouteCache.

(** A [*Client].  [Conn] is the handle of the websocket connection; [Send] is
    the content of the buffered channel [Send chan []byte] (capacity 256,
    oldest first); the two flags record [close(c.Send)] and [c.Conn.Close()]. *)
Module Client.
Record t := mk {
  UserID : Z;
  Conn : Z;
  Send : list WSMessage.t;
  SendClosed : bool;
  ConnClosed : bool;
}.

Definition enqueue (data : WSMessage.t) (c : t) : t :=
  mk (UserID c) (Conn c) (Send c ++ [data]) (SendClosed c) (ConnClosed c).
Definition close_send (c : t) : t :=
  mk (UserID c) (Conn c) (Send c) true (ConnClosed c).
Definition close_conn (c : t) : t :=
  mk (UserID c) (Conn c) (Send c) (SendClosed c) true.
End Client.

(** Capacity of [make(chan []byte, 256)]. *)
Definition SendCap : nat := 256%nat.

(** ** The world a server runs in *)

(** What an observer of the hub sees, in order.  The log is an observation
    device: no modelled function reads it. *)
Inductive Event :=
  | EvPush (userID : Z) (data : WSMessage.t) (accepted : bool)
  | EvCloseSend (addr : nat)
  | EvCloseConn (addr : nat)
  | EvInstall (userID : Z) (addr : nat)
  | EvDelete (userID : Z).

(** [Hub.clients] is a Go map from user id to [*Client]; [objects] is the
    store those pointers point into (an address is an index). *)
Record HubState := mkHub {
  clients : gmap Z nat;
  objects : list Client.t;
}.

(** The two maps of [RouteManager]. *)
Record RouteCaches := mkCaches {
  userRoutes : gmap Z RouteCache.t;
  gatewayAddrs : gmap string string;
}.

(** The four tables, each keyed the way its primary key is; [im_messages]
    keeps its rows in insertion order (ascending surrogate id). *)
Record Tables := mkTables {
  im_messages : list DBMessage.t;
  im_sessions : gmap (Z * Z * Z) DBSession.t;
  im_servers : gmap string DBServer.t;
  im_user_routes : gmap Z DBUserRoute.t;
}.

(** [clock] is the wall clock in milliseconds.  [faults] is the fate of the
    SQL statements still to come: each statement consumes the head, [true]
    meaning that the statement fails with an I/O error; once the list is used
    up every statement executes. *)
Record World := mkWorld {
  ServerID : string;
  CacheTTL : Z;
  hub : HubState;
  rm : RouteCaches;
  db : Tables;
  clock : Z;
  faults : list bool;
  events : list Event;
}.

Definition set_hub (h : HubState) (w : World) : World :=
  mkWorld (ServerID w) (CacheTTL w) h (rm w) (db w) (clock w) (faults w) (events w).
Definition set_rm (c : RouteCaches) (w : World) : World :=
  mkWorld (ServerID w) (CacheTTL w) (hub w) c (db w) (clock w) (faults w) (events w).
Definition set_db (d : Tables) (w : World) : World :=
  mkWorld (ServerID w) (CacheTTL w) (hub w) (rm w) d (clock w) (faults w) (events w).
Definition set_clock (t : Z) (w : World) : World :=
  mkWorld (ServerID w) (CacheTTL w) (hub w) (rm w) (db w) t (faults w) (events w).
Definition set_faults (f : list bool) (w : World) : World :=
  mkWorld (ServerID w) (CacheTTL w) (hub w) (rm w) (db w) (clock w) f (events w).
Definition emit (e : Event) (w : World) : World :=
  mkWorld (ServerID w) (CacheTTL w) (hub w) (rm w) (db w) (clock w) (faults w)
          (events w ++ [e]).

Definition set_messages (l : list DBMessage.t) (w : World) : World :=
  set_db (mkTables l (im_sessions (db w)) (im_servers (db w)) (im_user_routes (db w))) w.
Definition set_sessions (m : gmap (Z * Z * Z) DBSession.t) (w : World) : World :=
  set_db (mkTables (im_messages (db w)) m (im_servers (db w)) (im_user_routes (db w))) w.
Definition set_user_routes (m : gmap Z DBUserRoute.t) (w : World) : World :=
  set_db (mkTables (im_messages (db w)) (im_sessions (db w)) (im_servers (db w)) m) w.
Definition set_servers (m : gmap string DBServer.t) (w : World) : World :=
  set_db (mkTables (im_messages (db w)) (im_sessions (db w)) m (im_user_routes (db w))) w.

(** ** Go errors and the monad of the composite methods *)

Inductive Err :=
  | ErrIO
  | ErrRecordNotFound
  | ErrDuplicateKey.

(** A Go [error]: [None] is [nil]. *)
Definition error : Type := option Err.

(** A method runs from a world to a value and a world, or panics ([None]). *)
Definition M (A : Type) : Type := World → option (A * World).

Definition ret {A} (a : A) : M A := λ w, Some (a, w).
Definition bind {A B} (m : M A) (k : A → M B) : M B :=
  λ w, match m w with
       | Some (a, w') => k a w'
       | None => None
       end.

Declare Scope go_scope.
Delimit Scope go_scope with go.
Notation "'let!' x := m 'in' k" := (bind m (λ x, k))
  (at level 10, x name, m at level 100, k at level 200) : go_scope.
Notation "'let!' ' p := m 'in' k" := (bind m (λ x, match x with p => k end))
  (at level 10, p pattern, m at level 100, k at level 200) : go_scope.
Notation "'do!' m 'in' k" := (bind m (λ _, k))
  (at level 10, m at level 100, k at level 200) : go_scope.
Local Open Scope go_scope.

(** [time.Now().UnixMilli()] and [time.Now().Unix()]. *)
Definition UnixMilli : M Z := λ w, Some (clock w, w).
Definition Unix : M Z := λ w, Some (clock w `div` 1000, w).
(** [time.Sleep(d * time.Millisecond)]. *)
Definition Sleep (d : Z) : M unit := λ w, Some (tt, set_clock (clock w + d) w).

(** One SQL statement reaches the store: [true] when it executes. *)
Definition statement : M bool :=
  λ w, match faults w with
       | [] => Some (true, w)
       | f :: fs => Some (negb f, set_faults fs w)
       end.

(** 64-bit two's complement, for the subtractions Go performs on [int64]. *)
Definition wrap64 (z : Z) : Z := (z + 2 ^ 63) `mod` 2 ^ 64 - 2 ^ 63.
Definition sub64 (a b : Z) : Z := wrap64 (a - b).

(** A Go result pair [(T, error)] of which exactly one half is set. *)
Inductive result (A : Type) :=
  | Ok (a : A)
  | Fail (e : Err).
Arguments Ok {A} a.
Arguments Fail {A} e.

(** ** What gorm does with a query *)

(** [Limit(n)]: gorm v1.25 writes a LIMIT clause only for [n >= 0]. *)
Definition sql_limit {A} (n : Z) (l : list A) : list A :=
  if decide (0 ≤ n) then take (Z.to_nat n) l else l.

(** A zero-valued field whose tag carries [default:d] is left out of the
    INSERT, so the column takes [d]. *)
Definition column_default (d v : Z) : Z := if decide (v = 0) then d else v.

Definition server_time_asc (a b : DBMessage.t) : Prop :=
  DBMessage.ServerTime a ≤ DBMessage.ServerTime b.
Definition server_time_desc (a b : DBMessage.t) : Prop :=
  DBMessage.ServerTime b ≤ DBMessage.ServerTime a.

#[global] Instance server_time_asc_dec a b : Decision (server_time_asc a b).
Proof. unfold server_time_asc. apply _. Defined.
#[global] Instance server_time_desc_dec a b : Decision (server_time_desc a b).
Proof. unfold server_time_desc. apply _. Defined.

(** [Order("server_time ASC")] and [Order("server_time DESC")].  The order a
    store gives to rows of equal [server_time] is its own business; the
    theorems below use only that the outcome is ordered and holds the same
    rows. *)
Definition order_by_server_time_asc (l : list DBMessage.t) : list DBMessage.t :=
  merge_sort server_time_asc l.
Definition order_by_server_time_desc (l : list DBMessage.t) : list DBMessage.t :=
  merge_sort server_time_desc l.

(** ** MessageRepository *)

Module MessageRepository.

Definition toModel (dbMsg : DBMessage.t) : Message.t :=
  Message.mk (DBMessage.MsgID dbMsg) (DBMessage.FromUserID dbMsg)
    (DBMessage.ToUserID dbMsg) (DBMessage.GroupID dbMsg)
    (DBMessage.Content dbMsg) (DBMessage.MsgType dbMsg)
    (DBMessage.Status dbMsg) (DBMessage.FileID dbMsg)
    (DBMessage.ClientTime dbMsg) (DBMessage.ServerTime dbMsg)
    (DBMessage.DeliveredTime dbMsg) (DBMessage.ReadTime dbMsg).

(** The [updates] map of [UpdateStatus], applied to a row. *)
Definition updates (status updateTime : Z) (m : DBMessage.t) : DBMessage.t :=
  let m := DBMessage.set_status status m in
  if decide (status = MsgStatusDelivered) then
    DBMessage.set_delivered_time updateTime m
  else if decide (status = MsgStatusRead) then
    DBMessage.set_read_time updateTime m
  else m.

(** [UPDATE im_messages SET ... WHERE msg_id = ?] *)
Definition update_where (msgID : string) (status updateTime : Z)
    (rows : list DBMessage.t) : list DBMessage.t :=
  (λ m, if decide (DBMessage.MsgID m = msgID)
        then updates status updateTime m else m) <$> rows.

Definition UpdateStatus (msgID : string) (status updateTime : Z) : M error :=
  let! ok := statement in
  if ok then
    λ w, Some (None,
               set_messages (update_where msgID status updateTime
                               (im_messages (db w))) w)
  else ret (Some ErrIO).

(** [Where("msg_id = ?", msgID).First(&dbMsg)]: the matching row of least
    id, [ErrRecordNotFound] when there is none. *)
Definition GetByMsgID (msgID : string) : M (result Message.t) :=
  let! ok := statement in
  if ok then
    λ w, match filter (λ m, DBMessage.MsgID m = msgID) (im_messages (db w)) with
         | dbMsg :: _ => Some (Ok (toModel dbMsg), w)
         | [] => Some (Fail ErrRecordNotFound, w)
         end
  else ret (Fail ErrIO).

(** The WHERE clauses [GetMessages] puts on its query. *)
Definition history_where (req : GetMessagesRequest.t) (m : DBMessage.t) : Prop :=
  (if decide (GetMessagesRequest.SessionType req = SessionTypeSingle) then
     (DBMessage.FromUserID m = GetMessagesRequest.UserID req
      ∧ DBMessage.ToUserID m = GetMessagesRequest.TargetID req)
     ∨ (DBMessage.FromUserID m = GetMessagesRequest.TargetID req
        ∧ DBMessage.ToUserID m = GetMessagesRequest.UserID req)
   else DBMessage.GroupID m = GetMessagesRequest.TargetID req)
  ∧ (if decide (0 < GetMessagesRequest.BeforeTime req) then
       DBMessage.ServerTime m < GetMessagesRequest.BeforeTime req
     else True).

#[global] Instance history_where_dec req m : Decision (history_where req m).
Proof. unfold history_where. repeat case_decide; apply _. Defined.

(** The request is taken by value; the Go code also writes the default
    limit back into the caller's struct. *)
Definition GetMessages (req : GetMessagesRequest.t) : M (result (list Message.t)) :=
  let limit := if decide (GetMessagesRequest.Limit req = 0) then 20
               else GetMessagesRequest.Limit req in
  let! ok := statement in
  if ok then
    λ w, Some (Ok (toModel <$>
                     sql_limit limit
                       (order_by_server_time_desc
                          (filter (history_where req) (im_messages (db w))))),
               w)
  else ret (Fail ErrIO).

Definition undelivered_where (userID : Z) (m : DBMessage.t) : Prop :=
  DBMessage.ToUserID m = userID ∧ DBMessage.Status m = MsgStatusSent.

#[global] Instance undelivered_where_dec userID m :
  Decision (undelivered_where userID m).
Proof. unfold undelivered_where. apply _. Defined.

Definition GetUndeliveredMessages (userID limit : Z) : M (result (list Message.t)) :=
  let! ok := statement in
  if ok then
    λ w, Some (Ok (toModel <$>
                     sql_limit limit
                       (order_by_server_time_asc
                          (filter (undelivered_where userID) (im_messages (db w))))),
               w)
  else ret (Fail ErrIO).

(** The id the store gives a new row.  Ids only grow; the model takes the
    least one above those in the table (no path reads the value). *)
Definition next_id (rows : list DBMessage.t) : Z :=
  1 + foldr (λ m acc, Z.max (DBMessage.ID m) acc) 0 rows.

(** The row [Create(dbMsg)] inserts at time [now]: the fields of [msg], the
    column defaults for a zero [msg_type] or [status], the id of the store
    and the creation time gorm stamps.  Column widths are not modelled. *)
Definition inserted (id now : Z) (msg : Message.t) : DBMessage.t :=
  DBMessage.mk id (Message.MsgID msg) (Message.FromUserID msg)
    (Message.ToUserID msg) (column_default 0 (Message.GroupID msg))
    (Message.Content msg) (column_default 1 (Message.MsgType msg))
    (column_default 1 (Message.Status msg)) (Message.FileID msg)
    (Message.ClientTime msg) (Message.ServerTime msg)
    (column_default 0 (Message.DeliveredTime msg))
    (column_default 0 (Message.ReadTime msg)) now.

(** [INSERT INTO im_messages]; the unique index on [msg_id] turns a second
    row with the same message id into a duplicate-key error. *)
Definition Save (msg : Message.t) : M error :=
  let! now := UnixMilli in
  let! ok := statement in
  if ok then
    λ w, if decide (Message.MsgID msg ∈ DBMessage.MsgID <$> im_messages (db w)) then
           Some (Some ErrDuplicateKey, w)
         else
           Some (None,
                 set_messages
                   (im_messages (db w)
                    ++ [inserted (next_id (im_messages (db w))) now msg]) w)
  else ret (Some ErrIO).

End MessageRepository.

(** ** SessionRepository *)

Module SessionRepository.

(** The row an INSERT of [dbSession] stores: gorm leaves the zero-valued
    fields that carry a default tag ([session_type], [unread_count]) to the
    column default. *)
Definition inserted (dbSession : DBSession.t) : DBSession.t :=
  DBSession.mk (DBSession.UserID dbSession) (DBSession.TargetID dbSession)
    (column_default 1 (DBSession.SessionType dbSession))
    (DBSession.LastMsgContent dbSession) (DBSession.LastMsgTime dbSession)
    (column_default 0 (DBSession.UnreadCount dbSession)).

(** [INSERT ... ON DUPLICATE KEY UPDATE].  The struct literal [dbSession]
    copies five fields of [session] and leaves [UnreadCount] at zero; that
    row is inserted, and when its key is taken the three assignments of
    [DoUpdates] are applied to the row that holds the key instead. *)
Definition UpdateSession (session : Session.t) : M error :=
  let dbSession :=
    DBSession.mk (Session.UserID session) (Session.TargetID session)
      (Session.SessionType session)
      (Session.LastMsgContent session) (Session.LastMsgTime session) 0 in
  let key := (DBSession.UserID (inserted dbSession),
              DBSession.TargetID (inserted dbSession),
              DBSession.SessionType (inserted dbSession)) in
  let! ok := statement in
  if ok then
    λ w, match im_sessions (db w) !! key with
         | None =>
             Some (None, set_sessions
                           (<[key := inserted dbSession]> (im_sessions (db w))) w)
         | Some row =>
             let row' :=
               DBSession.mk (DBSession.UserID row) (DBSession.TargetID row)
                 (DBSession.SessionType row)
                 (Session.LastMsgContent session) (Session.LastMsgTime session)
                 (DBSession.UnreadCount row + Session.UnreadCount session) in
             Some (None, set_sessions (<[key := row']> (im_sessions (db w))) w)
         end
  else ret (Some ErrIO).

Definition toSession (s : DBSession.t) : Session.t :=
  Session.mk (DBSession.UserID s) (DBSession.TargetID s) (DBSession.SessionType s)
    (DBSession.LastMsgContent s) (DBSession.LastMsgTime s) (DBSession.UnreadCount s).

Definition last_msg_time_desc (a b : DBSession.t) : Prop :=
  DBSession.LastMsgTime b ≤ DBSession.LastMsgTime a.

#[global] Instance last_msg_time_desc_dec a b : Decision (last_msg_time_desc a b).
Proof. unfold last_msg_time_desc. apply _. Defined.

(** [Where("user_id = ?").Order("last_msg_time DESC").Find]: the rows whose
    key starts with the user, newest conversation first. *)
Definition GetUserSessions (userID : Z) : M (result (list Session.t)) :=
  let! ok := statement in
  if ok then
    λ w, Some (Ok (toSession <$>
                     merge_sort last_msg_time_desc
                       ((filter (λ kv, kv.1.1.1 = userID)
                           (map_to_list (im_sessions (db w)))).*2)),
               w)
  else ret (Fail ErrIO).

(** [UPDATE im_sessions SET unread_count = 0 WHERE] the key is the given
    one. *)
Definition ClearUnread (userID targetID sessionType : Z) : M error :=
  let! ok := statement in
  if ok then
    λ w, Some (None,
               set_sessions
                 (alter (λ row,
                           DBSession.mk (DBSession.UserID row) (DBSession.TargetID row)
                             (DBSession.SessionType row) (DBSession.LastMsgContent row)
                             (DBSession.LastMsgTime row) 0)
                    (userID, targetID, sessionType) (im_sessions (db w))) w)
  else ret (Some ErrIO).

End SessionRepository.

(** ** RouteRepository *)

Module RouteRepository.

(** Update first, insert when the update reports no row.  The connection
    is opened without [clientFoundRows], so [RowsAffected] counts the rows
    the UPDATE changed: a row that already holds the values to be written
    counts for nothing, and the insert that follows meets the primary key.
    Of the columns the UPDATE sets the model has [server_id] and
    [last_heartbeat]; the time stamp gorm adds to them has the precision of
    a second, like the heartbeat, and is taken to move when the heartbeat
    does. *)
Definition RegisterUserRoute (userID : Z) (serverID : string) : M error :=
  let! now := Unix in
  let! ok := statement in
  if ok then
    let! rowsAffected :=
      (λ w, match im_user_routes (db w) !! userID with
            | Some old =>
                if decide (DBUserRoute.ServerID old = serverID
                           ∧ DBUserRoute.LastHeartbeat old = now)
                then Some (0, w)
                else
                  Some (1, set_user_routes
                             (<[userID := DBUserRoute.mk userID serverID now]>
                                (im_user_routes (db w))) w)
            | None => Some (0, w)
            end) in
    if decide (rowsAffected = 0) then
      let! ok := statement in
      if ok then
        λ w, match im_user_routes (db w) !! userID with
             | None =>
                 Some (None, set_user_routes
                               (<[userID := DBUserRoute.mk userID serverID now]>
                                  (im_user_routes (db w))) w)
             | Some _ => Some (Some ErrDuplicateKey, w)
             end
      else ret (Some ErrIO)
    else ret None
  else ret (Some ErrIO).

Definition UnregisterUserRoute (userID : Z) : M error :=
  let! ok := statement in
  if ok then
    λ w, Some (None, set_user_routes (delete userID (im_user_routes (db w))) w)
  else ret (Some ErrIO).

(** Two queries: the route row of the user, then the registry row of the
    server it names.  Neither looks at a heartbeat column. *)
Definition GetUserRoute (userID : Z) : M (result UserRoute.t) :=
  let! ok := statement in
  if ok then
    let! route := (λ w, Some (im_user_routes (db w) !! userID, w)) in
    match route with
    | None => ret (Fail ErrRecordNotFound)
    | Some route =>
        let! ok := statement in
        if ok then
          let! server :=
            (λ w, Some (im_servers (db w) !! DBUserRoute.ServerID route, w)) in
          match server with
          | None => ret (Fail ErrRecordNotFound)
          | Some server =>
              ret (Ok (UserRoute.mk (DBUserRoute.ServerID route)
                         (DBServer.GRPCAddr server)))
          end
        else ret (Fail ErrIO)
    end
  else ret (Fail ErrIO).


Definition UnregisterServer (serverID : string) : M error :=
  let! ok := statement in
  if ok then
    λ w, Some (None, set_servers (delete serverID (im_servers (db w))) w)
  else ret (Some ErrIO).

Definition touch_server (now : Z) (s : DBServer.t) : DBServer.t :=
  DBServer.mk (DBServer.ServerID s) (DBServer.GRPCAddr s) now.

(** [UPDATE im_servers SET last_heartbeat = ? WHERE server_id = ?] *)
Definition UpdateServerHeartbeat (serverID : string) : M error :=
  let! now := Unix in
  let! ok := statement in
  if ok then
    λ w, Some (None, set_servers (alter (touch_server now) serverID
                                    (im_servers (db w))) w)
  else ret (Some ErrIO).

(** [Where("last_heartbeat > ?", timeout).Find]: no ORDER BY, the rows come
    in the order of the store. *)
Definition GetActiveServers : M (result (list Server.t)) :=
  let! now := Unix in
  let timeout := sub64 now 60 in
  let! ok := statement in
  if ok then
    λ w, Some (Ok ((λ s, Server.mk (DBServer.ServerID s) (DBServer.GRPCAddr s)
                           (DBServer.LastHeartbeat s))
                     <$> filter (λ s, timeout < DBServer.LastHeartbeat s)
                           (map_to_list (im_servers (db w))).*2),
               w)
  else ret (Fail ErrIO).

Definition touch_route (now : Z) (r : DBUserRoute.t) : DBUserRoute.t :=
  DBUserRoute.mk (DBUserRoute.UserID r) (DBUserRoute.ServerID r) now.

(** [UPDATE im_user_routes SET last_heartbeat = ? WHERE user_id IN ?];
    nothing is sent for an empty list. *)
Definition BatchUpdateHeartbeat (userIDs : list Z) : M error :=
  if decide (length userIDs = 0%nat) then ret None
  else
    let! now := Unix in
    let! ok := statement in
    if ok then
      λ w, Some (None,
                 set_user_routes
                   (foldr (λ userID routes, alter (touch_route now) userID routes)
                      (im_user_routes (db w)) userIDs) w)
    else ret (Some ErrIO).

End RouteRepository.

(** ** Hub *)

Module Hub.

(** *** The Go primitives the hub is written with *)

(** [&Client{UserID: userID, Conn: conn, Send: make(chan []byte, 256)}] *)
Definition new_Client (userID conn : Z) : M nat :=
  λ w, Some (length (objects (hub w)),
             set_hub (mkHub (clients (hub w))
                        (objects (hub w) ++ [Client.mk userID conn [] false false])) w).

(** [h.clients[userID]] *)
Definition clients_get (userID : Z) : M (option nat) :=
  λ w, Some (clients (hub w) !! userID, w).

(** [h.clients[userID] = client] *)
Definition clients_set (userID : Z) (client : nat) : M unit :=
  λ w, Some (tt, emit (EvInstall userID client)
                   (set_hub (mkHub (<[userID := client]> (clients (hub w)))
                               (objects (hub w))) w)).

(** [delete(h.clients, userID)] *)
Definition clients_delete (userID : Z) : M unit :=
  λ w, Some (tt, emit (EvDelete userID)
                   (set_hub (mkHub (delete userID (clients (hub w)))
                               (objects (hub w))) w)).

Definition store (client : nat) (c : Client.t) (w : World) : World :=
  set_hub (mkHub (clients (hub w)) (<[client := c]> (objects (hub w)))) w.

(** [close(client.Send)]; closing a closed channel panics. *)
Definition close_Send (client : nat) : M unit :=
  λ w, match objects (hub w) !! client with
       | Some c =>
           if Client.SendClosed c then None
           else Some (tt, emit (EvCloseSend client)
                            (store client (Client.close_send c) w))
       | None => None
       end.

(** [client.Conn.Close()]; the error of a second close is dropped. *)
Definition Conn_Close (client : nat) : M unit :=
  λ w, match objects (hub w) !! client with
       | Some c => Some (tt, emit (EvCloseConn client)
                               (store client (Client.close_conn c) w))
       | None => None
       end.

(** [select { case client.Send <- data: true; default: false }]; a send on
    a closed channel panics. *)
Definition select_send (client : nat) (data : WSMessage.t) : M bool :=
  λ w, match objects (hub w) !! client with
       | Some c =>
           if Client.SendClosed c then None
           else if decide (length (Client.Send c) < SendCap)%nat then
             Some (true, store client (Client.enqueue data c) w)
           else Some (false, w)
       | None => None
       end.

Definition observe (e : Event) : M unit := λ w, Some (tt, emit e w).

(** *** The methods *)

(** The writer goroutine started at the end runs beside the caller; what it
    does is [writePump] below. *)
Definition Register (userID conn : Z) : M nat :=
  let! client := new_Client userID conn in
  let! oldClient := clients_get userID in
  do! match oldClient with
      | Some oldClient =>
          do! close_Send oldClient in
          Conn_Close oldClient
      | None => ret tt
      end in
  do! clients_set userID client in
  ret client.

Definition Unregister (userID : Z) : M unit :=
  let! client := clients_get userID in
  match client with
  | Some client =>
      do! close_Send client in
      do! Conn_Close client in
      clients_delete userID
  | None => ret tt
  end.

Definition SendToUser (userID : Z) (data : WSMessage.t) : M bool :=
  let! client := clients_get userID in
  match client with
  | None =>
      do! observe (EvPush userID data false) in
      ret false
  | Some client =>
      let! sent := select_send client data in
      do! observe (EvPush userID data sent) in
      ret sent
  end.

Definition HasClient (userID : Z) : M bool :=
  let! client := clients_get userID in
  ret (bool_decide (is_Some client)).


(** The keys of the map; Go ranges over a map in no fixed order, the model
    takes the order of the finite map. *)
Definition GetOnlineUsers : M (list Z) :=
  λ w, Some ((map_to_list (clients (hub w))).*1, w).




End Hub.

(** ** RouteManager *)

Module RouteManager.

Definition userRoutes_get (userID : Z) : M (option RouteCache.t) :=
  λ w, Some (userRoutes (rm w) !! userID, w).
Definition userRoutes_set (userID : Z) (c : RouteCache.t) : M unit :=
  λ w, Some (tt, set_rm (mkCaches (<[userID := c]> (userRoutes (rm w)))
                           (gatewayAddrs (rm w))) w).
Definition userRoutes_delete (userID : Z) : M unit :=
  λ w, Some (tt, set_rm (mkCaches (delete userID (userRoutes (rm w)))
                           (gatewayAddrs (rm w))) w).
(** Reading a missing key of a [map[string]string] gives the empty string. *)
Definition gatewayAddrs_get (gatewayID : string) : M string :=
  λ w, Some (default "" (gatewayAddrs (rm w) !! gatewayID), w).
Definition gatewayAddrs_set (gatewayID addr : string) : M unit :=
  λ w, Some (tt, set_rm (mkCaches (userRoutes (rm w))
                           (<[gatewayID := addr]> (gatewayAddrs (rm w)))) w).
Definition cacheTTL : M Z := λ w, Some (CacheTTL w, w).

Definition Register (userID : Z) (gatewayID : string) : M error :=
  let! err := RouteRepository.RegisterUserRoute userID gatewayID in
  match err with
  | Some e => ret (Some e)
  | None =>
      let! now := Unix in
      do! userRoutes_set userID (RouteCache.mk gatewayID now) in
      ret None
  end.

Definition Unregister (userID : Z) : M error :=
  let! err := RouteRepository.UnregisterUserRoute userID in
  match err with
  | Some e => ret (Some e)
  | None =>
      do! userRoutes_delete userID in
      ret None
  end.

(** Steps 2 and 3 of [GetUserRoute]: ask the database, fill both caches. *)
Definition GetUserRoute_db (userID : Z) : M (string * string * bool) :=
  let! r := RouteRepository.GetUserRoute userID in
  match r with
  | Fail _ => ret ("", "", false)
  | Ok userRoute =>
      let! now := Unix in
      do! userRoutes_set userID (RouteCache.mk (UserRoute.ServerID userRoute) now) in
      do! gatewayAddrs_set (UserRoute.ServerID userRoute)
            (UserRoute.GRPCAddr userRoute) in
      ret (UserRoute.ServerID userRoute, UserRoute.GRPCAddr userRoute, true)
  end.

(** Returns gatewayID, gatewayAddr, online. *)
Definition GetUserRoute (userID : Z) : M (string * string * bool) :=
  let! route := userRoutes_get userID in
  match route with
  | Some route =>
      let! now := Unix in
      let! ttl := cacheTTL in
      if decide (sub64 now (RouteCache.CacheTime route) < ttl) then
        let! addr := gatewayAddrs_get (RouteCache.GatewayID route) in
        ret (RouteCache.GatewayID route, addr, true)
      else GetUserRoute_db userID
  | None => GetUserRoute_db userID
  end.

Definition BatchUpdateHeartbeat (userIDs : list Z) : M error :=
  RouteRepository.BatchUpdateHeartbeat userIDs.

End RouteManager.

(** ** IMServer *)

(** [protocol.WSReceipt], the decoded [data] of a receipt frame. *)
Module WSReceipt.
Record t := mk {
  MsgID : string;
  Type_ : string;
  Time : Z;
}.
End WSReceipt.

(** [protocol.WSChatMessage], the decoded [data] of a [chat_msg] frame. *)
Module WSChatMessage.
Record t := mk {
  MsgID : string;
  ToUserID : Z;
  Content : string;
  MsgType : Z;
  FileID : string;
  ClientTime : Z;
}.
End WSChatMessage.

(** [model.SendMessageRequest]. *)
Module SendMessageRequest.
Record t := mk {
  FromUserID : Z;
  ToUserID : Z;
  GroupID : Z;
  Content : string;
  MsgType : Z;
  FileID : string;
}.
End SendMessageRequest.

(** ** package imgrpc: the stubs *)

(** A value of the interface [IMServerClient].  The package has no type
    that implements it: the only value there is is [nil] ([None]). *)
Definition IMServerClient : Type := option Empty_set.

(** [NewIMServerClient] returns [nil]. *)
Definition NewIMServerClient : IMServerClient := None.

(** [int32(x)]. *)
Definition wrap32 (z : Z) : Z := (z + 2 ^ 31) `mod` 2 ^ 32 - 2 ^ 31.

Definition MessageToForwardRequest (msg : Message.t) : ForwardMessageRequest.t :=
  ForwardMessageRequest.mk (Message.ToUserID msg) (Message.MsgID msg)
    (Message.FromUserID msg) (Message.Content msg) (wrap32 (Message.MsgType msg))
    (Message.ClientTime msg) (Message.ServerTime msg).

Module IMServer.

Definition notifyStatusUpdate (userID : Z) (msgID : string)
    (status updateTime : Z) : M unit :=
  let update :=
    WSMessage.mk WSMsgTypeStatusUpdate msgID
      (DataStatus (WSStatusUpdate.mk msgID status updateTime)) updateTime in
  do! Hub.SendToUser userID update in
  ret tt.

(** The [chat_msg] envelope built by [pushToLocalUser] and, with the same
    fields, by [pushOfflineMessages]. *)
Definition pushMsg (msg : Message.t) : WSMessage.t :=
  WSMessage.mk WSMsgTypeChatMsg (Message.MsgID msg)
    (DataPush (WSPushMessage.mk (Message.MsgID msg) (Message.FromUserID msg)
                 (Message.Content msg) (Message.MsgType msg)
                 (Message.FileID msg) (Message.Status msg)
                 (Message.ClientTime msg) (Message.ServerTime msg)))
    (Message.ServerTime msg).

Definition pushToLocalUser (msg : Message.t) : M unit :=
  let! delivered := Hub.SendToUser (Message.ToUserID msg) (pushMsg msg) in
  if delivered then
    let! deliveredTime := UnixMilli in
    do! MessageRepository.UpdateStatus (Message.MsgID msg)
          MsgStatusDelivered deliveredTime in
    notifyStatusUpdate (Message.FromUserID msg) (Message.MsgID msg)
      MsgStatusDelivered deliveredTime
  else ret tt.

(** The gRPC handler a peer node calls. *)
Definition ForwardMessage (req : ForwardMessageRequest.t)
    : M (ForwardMessageResponse.t * error) :=
  let msg :=
    Message.mk (ForwardMessageRequest.MsgID req)
      (ForwardMessageRequest.FromUserID req)
      (ForwardMessageRequest.ToUserID req) 0
      (ForwardMessageRequest.Content req)
      (ForwardMessageRequest.MsgType req) MsgStatusSent ""
      (ForwardMessageRequest.ClientTime req)
      (ForwardMessageRequest.ServerTime req) 0 0 in
  do! pushToLocalUser msg in
  ret (ForwardMessageResponse.mk true "", None).

Definition updateSession (msg : Message.t) : M unit :=
  do! SessionRepository.UpdateSession
        (Session.mk (Message.FromUserID msg) (Message.ToUserID msg)
           SessionTypeSingle (Message.Content msg) (Message.ServerTime msg) 0) in
  do! SessionRepository.UpdateSession
        (Session.mk (Message.ToUserID msg) (Message.FromUserID msg)
           SessionTypeSingle (Message.Content msg) (Message.ServerTime msg) 1) in
  ret tt.

Definition GetMessages (req : GetMessagesRequest.t) : M (result (list Message.t)) :=
  let req :=
    if decide (GetMessagesRequest.Limit req = 0) then
      GetMessagesRequest.mk (GetMessagesRequest.UserID req)
        (GetMessagesRequest.TargetID req) (GetMessagesRequest.SessionType req)
        (GetMessagesRequest.BeforeTime req) 20
    else req in
  MessageRepository.GetMessages req.

(** The body of the [for] loop of [MarkAsRead]; both [continue]s fall
    through to the next id. *)
Fixpoint MarkAsRead_loop (readTime : Z) (msgIDs : list string) : M unit :=
  match msgIDs with
  | [] => ret tt
  | msgID :: msgIDs =>
      let! err := MessageRepository.UpdateStatus msgID MsgStatusRead readTime in
      match err with
      | Some _ => MarkAsRead_loop readTime msgIDs
      | None =>
          let! r := MessageRepository.GetByMsgID msgID in
          match r with
          | Fail _ => MarkAsRead_loop readTime msgIDs
          | Ok msg =>
              do! notifyStatusUpdate (Message.FromUserID msg) msgID
                    MsgStatusRead readTime in
              MarkAsRead_loop readTime msgIDs
          end
      end
  end.

Definition MarkAsRead (userID : Z) (msgIDs : list string) : M error :=
  let! readTime := UnixMilli in
  do! MarkAsRead_loop readTime msgIDs in
  ret None.

(** [receipt] is [None] when the frame's [data] does not decode. *)
Definition handleDeliveredReceipt (userID : Z) (receipt : option WSReceipt.t)
    : M unit :=
  match receipt with
  | None => ret tt
  | Some receipt =>
      let! deliveredTime := UnixMilli in
      let! err := MessageRepository.UpdateStatus (WSReceipt.MsgID receipt)
                    MsgStatusDelivered deliveredTime in
      match err with
      | Some _ => ret tt
      | None =>
          let! r := MessageRepository.GetByMsgID (WSReceipt.MsgID receipt) in
          match r with
          | Fail _ => ret tt
          | Ok msg =>
              notifyStatusUpdate (Message.FromUserID msg)
                (WSReceipt.MsgID receipt) MsgStatusDelivered deliveredTime
          end
      end
  end.

Definition handleReadReceipt (userID : Z) (receipt : option WSReceipt.t)
    : M unit :=
  match receipt with
  | None => ret tt
  | Some receipt =>
      do! MarkAsRead userID [WSReceipt.MsgID receipt] in
      ret tt
  end.

(** The [for] loop of [pushOfflineMessages]; a refused push breaks out. *)
Fixpoint pushOfflineMessages_loop (userID : Z) (messages : list Message.t)
    : M unit :=
  match messages with
  | [] => ret tt
  | msg :: messages =>
      let! delivered := Hub.SendToUser userID (pushMsg msg) in
      if delivered then
        let! deliveredTime := UnixMilli in
        do! MessageRepository.UpdateStatus (Message.MsgID msg)
              MsgStatusDelivered deliveredTime in
        do! notifyStatusUpdate (Message.FromUserID msg) (Message.MsgID msg)
              MsgStatusDelivered deliveredTime in
        do! Sleep 10 in
        pushOfflineMessages_loop userID messages
      else ret tt
  end.

Definition pushOfflineMessages (userID : Z) : M unit :=
  let! r := MessageRepository.GetUndeliveredMessages userID 100 in
  match r with
  | Fail _ => ret tt
  | Ok messages =>
      if decide (length messages = 0%nat) then ret tt
      else pushOfflineMessages_loop userID messages
  end.

Definition IsUserOnline (userID : Z) : M bool := Hub.HasClient userID.

Definition GetSessions (userID : Z) : M (result (list Session.t)) :=
  SessionRepository.GetUserSessions userID.

(** [time.Now()] is read twice, for the envelope and for the body. *)
Definition sendAck (userID : Z) (msgID : string) (status : Z) (errMsg : string)
    : M unit :=
  let! timestamp := UnixMilli in
  let! serverTime := UnixMilli in
  let ack :=
    WSMessage.mk WSMsgTypeAck msgID
      (DataAck (WSAckMessage.mk msgID status serverTime errMsg)) timestamp in
  do! Hub.SendToUser userID ack in
  ret tt.

(** The handler is a stub that writes a log line. *)
Definition handleGroupMessage (fromUserID : Z) : M unit := ret tt.


Definition unregisterNode : M unit :=
  do! (λ w, RouteRepository.UnregisterServer (ServerID w) w) in
  ret tt.

(** The body of the ticker case of [heartbeatWorker]. *)
Definition heartbeatWorker_tick : M unit :=
  do! (λ w, RouteRepository.UpdateServerHeartbeat (ServerID w) w) in
  let! userIDs := Hub.GetOnlineUsers in
  if decide (0 < length userIDs)%nat then
    do! RouteManager.BatchUpdateHeartbeat userIDs in
    ret tt
  else ret tt.

(** What [onUserConnect] does itself; the handlers, the drain and the
    reader are goroutines it starts. *)
Definition onUserConnect (userID conn : Z) : M nat :=
  let! client := Hub.Register userID conn in
  do! (λ w, RouteManager.Register userID (ServerID w) w) in
  ret client.

Definition onUserDisconnect (userID : Z) : M unit :=
  do! Hub.Unregister userID in
  do! RouteManager.Unregister userID in
  ret tt.

Section delivery.
(** [err.Error()]: the text of an error is the store's. *)
Variable Error : Err → string.
(** Whether [grpc.Dial] returns a connection: the library's answer. *)
Variable dial : string → bool.

(** [client.ForwardMessage(ctx, req)]: a method call on an interface value,
    which panics when the value is [nil]. *)
Definition client_ForwardMessage (client : IMServerClient)
    (req : ForwardMessageRequest.t) : M (result ForwardMessageResponse.t) :=
  match client with
  | None => λ _, None
  | Some impl => match impl : Empty_set with end
  end.

(** [peerClients] is threaded through.  A peer that is not in the map is
    dialled and the client made for it is stored; the answer of the peer
    only goes to the log. *)
Definition forwardToRemoteGateway (addr : string) (msg : Message.t)
    (peerClients : gmap string IMServerClient) : M (gmap string IMServerClient) :=
  let forward client peerClients :=
    do! client_ForwardMessage client (MessageToForwardRequest msg) in
    ret peerClients in
  match peerClients !! addr with
  | Some client => forward client peerClients
  | None =>
      if dial addr then
        let client := NewIMServerClient in
        forward client (<[addr := client]> peerClients)
      else ret peerClients
  end.

Definition routeAndDeliver (msg : Message.t)
    (peerClients : gmap string IMServerClient)
    : M (error * gmap string IMServerClient) :=
  let! '(gatewayID, gatewayAddr, online) :=
    RouteManager.GetUserRoute (Message.ToUserID msg) in
  if negb online then ret (None, peerClients)
  else
    let! serverID := (λ w, Some (ServerID w, w)) in
    if decide (gatewayID = serverID) then
      do! pushToLocalUser msg in
      ret (None, peerClients)
    else
      let! peerClients := forwardToRemoteGateway gatewayAddr msg peerClients in
      ret (None, peerClients).

(** [chatMsg] is [None] when the frame's [data] does not decode;
    [generated] is what [util.GenerateMsgID] would return.  The message
    handlers run as goroutines of their own. *)
Definition handleChatMessage (fromUserID : Z) (chatMsg : option WSChatMessage.t)
    (generated : string) (peerClients : gmap string IMServerClient)
    : M (gmap string IMServerClient) :=
  match chatMsg with
  | None => ret peerClients
  | Some chatMsg =>
      let msgID := if decide (WSChatMessage.MsgID chatMsg = "") then generated
                   else WSChatMessage.MsgID chatMsg in
      let! serverTime := UnixMilli in
      let msg :=
        Message.mk msgID fromUserID (WSChatMessage.ToUserID chatMsg) 0
          (WSChatMessage.Content chatMsg) (WSChatMessage.MsgType chatMsg)
          MsgStatusSent (WSChatMessage.FileID chatMsg)
          (WSChatMessage.ClientTime chatMsg) serverTime 0 0 in
      let! err := MessageRepository.Save msg in
      match err with
      | Some e =>
          do! sendAck fromUserID msgID MsgStatusFailed (Error e) in
          ret peerClients
      | None =>
          do! sendAck fromUserID msgID MsgStatusSent "" in
          do! updateSession msg in
          let! '(_, peerClients) := routeAndDeliver msg peerClients in
          ret peerClients
      end
  end.

Definition SendMessage (req : SendMessageRequest.t) (generated : string)
    (peerClients : gmap string IMServerClient)
    : M (error * gmap string IMServerClient) :=
  let! serverTime := UnixMilli in
  let msg :=
    Message.mk generated (SendMessageRequest.FromUserID req)
      (SendMessageRequest.ToUserID req) (SendMessageRequest.GroupID req)
      (SendMessageRequest.Content req) (SendMessageRequest.MsgType req)
      MsgStatusSent "" 0 serverTime 0 0 in
  let! err := MessageRepository.Save msg in
  match err with
  | Some e => ret (Some e, peerClients)
  | None =>
      do! updateSession msg in
      routeAndDeliver msg peerClients
  end.

(** What the loop of [discoverPeers] does with one active server: the node
    itself and the peers that have an entry are skipped, the others are
    dialled and, when that works, the client made for them is stored under
    their server id. *)
Definition discoverPeers_server (serverID : string)
    (peerClients : gmap string IMServerClient) (server : Server.t)
    : gmap string IMServerClient :=
  if decide (Server.ServerID server = serverID) then peerClients
  else
    match peerClients !! Server.ServerID server with
    | Some _ => peerClients
    | None =>
        if dial (Server.GRPCAddr server) then
          <[Server.ServerID server := NewIMServerClient]> peerClients
        else peerClients
    end.

(** The body of the ticker case of [discoverPeers]. *)
Definition discoverPeers_tick (peerClients : gmap string IMServerClient)
    : M (gmap string IMServerClient) :=
  let! r := RouteRepository.GetActiveServers in
  match r with
  | Fail _ => ret peerClients
  | Ok servers =>
      let! serverID := (λ w, Some (ServerID w, w)) in
      ret (foldl (discoverPeers_server serverID) peerClients servers)
  end.

End delivery.

End IMServer.

(** ** GroupRepository *)

(** [model.Group] and [model.GroupMember]. *)
Module Group.
Record t := mk {
  GroupID : Z;
  GroupName : string;
  OwnerID : Z;
  AvatarURL : string;
  CreatedAt : Z;
}.
End Group.

Module GroupMember.
Record t := mk {
  GroupID : Z;
  UserID : Z;
  Role : Z;
  JoinedAt : Z;
}.
End GroupMember.

Module DBGroup.
Record t := mk {
  GroupID : Z;
  GroupName : string;
  OwnerID : Z;
  AvatarURL : string;
  CreatedAt : Z;
  UpdatedAt : Z;
}.
End DBGroup.

Module DBGroupMember.
Record t := mk {
  ID : Z;
  GroupID : Z;
  UserID : Z;
  Role : Z;
  JoinedAt : Z;
}.
End DBGroupMember.

(** The tables [im_groups], under its primary key, and [im_group_members],
    under the unique index [uk_group_user], each with the counter its
    auto-increment column draws from.  The tables are threaded through the
    methods beside the world. *)
Record GroupTables := mkGroupTables {
  im_groups : gmap Z DBGroup.t;
  group_seq : Z;
  im_group_members : gmap (Z * Z) DBGroupMember.t;
  member_seq : Z;
}.

Module GroupRepository.

(** The struct literal leaves [GroupID] at zero, so the store assigns the
    id; gorm stamps the two time columns and writes id and creation time
    back, which the method copies into the caller's [group]. *)
Definition CreateGroup (group : Group.t) (tables : GroupTables)
    : M (error * Group.t * GroupTables) :=
  let! now := UnixMilli in
  let! ok := statement in
  if ok then
    match im_groups tables !! group_seq tables with
    | Some _ => ret (Some ErrDuplicateKey, group, tables)
    | None =>
        let dbGroup :=
          DBGroup.mk (group_seq tables) (Group.GroupName group)
            (Group.OwnerID group) (Group.AvatarURL group) now now in
        ret (None,
             Group.mk (DBGroup.GroupID dbGroup) (Group.GroupName group)
               (Group.OwnerID group) (Group.AvatarURL group)
               (DBGroup.CreatedAt dbGroup),
             mkGroupTables (<[group_seq tables := dbGroup]> (im_groups tables))
               (group_seq tables + 1) (im_group_members tables)
               (member_seq tables))
    end
  else ret (Some ErrIO, group, tables).

(** [First(&dbGroup, groupID)]: the row under the primary key. *)
Definition GetGroup (groupID : Z) (tables : GroupTables) : M (result Group.t) :=
  let! ok := statement in
  if ok then
    match im_groups tables !! groupID with
    | Some dbGroup =>
        ret (Ok (Group.mk (DBGroup.GroupID dbGroup) (DBGroup.GroupName dbGroup)
                   (DBGroup.OwnerID dbGroup) (DBGroup.AvatarURL dbGroup)
                   (DBGroup.CreatedAt dbGroup)))
    | None => ret (Fail ErrRecordNotFound)
    end
  else ret (Fail ErrIO).

Definition AddMember (member : GroupMember.t) (tables : GroupTables)
    : M (error * GroupTables) :=
  let! now := UnixMilli in
  let! ok := statement in
  if ok then
    let key := (GroupMember.GroupID member, GroupMember.UserID member) in
    match im_group_members tables !! key with
    | Some _ => ret (Some ErrDuplicateKey, tables)
    | None =>
        let dbMember :=
          DBGroupMember.mk (member_seq tables) (GroupMember.GroupID member)
            (GroupMember.UserID member)
            (column_default 0 (GroupMember.Role member)) now in
        ret (None,
             mkGroupTables (im_groups tables) (group_seq tables)
               (<[key := dbMember]> (im_group_members tables))
               (member_seq tables + 1))
    end
  else ret (Some ErrIO, tables).

Definition RemoveMember (groupID userID : Z) (tables : GroupTables)
    : M (error * GroupTables) :=
  let! ok := statement in
  if ok then
    ret (None,
         mkGroupTables (im_groups tables) (group_seq tables)
           (delete (groupID, userID) (im_group_members tables))
           (member_seq tables))
  else ret (Some ErrIO, tables).

(** [Where("group_id = ?").Find]: no ORDER BY, the rows come in the order
    of the store. *)
Definition GetMembers (groupID : Z) (tables : GroupTables)
    : M (result (list GroupMember.t)) :=
  let! ok := statement in
  if ok then
    ret (Ok ((λ m, GroupMember.mk (DBGroupMember.GroupID m) (DBGroupMember.UserID m)
                     (DBGroupMember.Role m) (DBGroupMember.JoinedAt m))
               <$> (filter (λ kv, kv.1.1 = groupID)
                      (map_to_list (im_group_members tables))).*2))
  else ret (Fail ErrIO).

(** [Count(&count)] and [count > 0]. *)
Definition IsMember (groupID userID : Z) (tables : GroupTables) : M (bool * error) :=
  let! ok := statement in
  if ok then
    let count :=
      Z.of_nat (length (filter (λ kv, kv.1 = (groupID, userID))
                          (map_to_list (im_group_members tables)))) in
    ret (bool_decide (0 < count), None)
  else ret (false, Some ErrIO).

End GroupRepository.

(** * The vocabulary of the properties *)

(** ** Reading the store *)

(** The rows of [im_messages] that carry a message id. *)
Definition rows_of (msgID : string) (w : World) : list DBMessage.t :=
  filter (λ m, DBMessage.MsgID m = msgID) (im_messages (db w)).

(** The persisted status and delivery time of a message, when it has a row. *)
Definition status_of (msgID : string) (w : World) : option Z :=
  DBMessage.Status <$> head (rows_of msgID w).
Definition delivered_time_of (msgID : string) (w : World) : option Z :=
  DBMessage.DeliveredTime <$> head (rows_of msgID w).

(** The unique index [uk_msg_id]. *)
Definition uk_msg_id (w : World) : Prop :=
  NoDup (DBMessage.MsgID <$> im_messages (db w)).

(** The status of a message did not move backward between two worlds. *)
Definition not_backward (msgID : string) (w w' : World) : Prop :=
  ∀ before after,
    status_of msgID w = Some before → status_of msgID w' = Some after →
    before ≤ after.

(** The persisted status after each of a series of [UpdateStatus] calls
    (status, time) for one message. *)
Fixpoint status_history (msgID : string) (calls : list (Z * Z))
    : M (list (option Z)) :=
  match calls with
  | [] => ret []
  | (status, updateTime) :: calls =>
      do! MessageRepository.UpdateStatus msgID status updateTime in
      let! s := (λ w, Some (status_of msgID w, w)) in
      let! rest := status_history msgID calls in
      ret (s :: rest)
  end.

(** ** The hub *)

(** Every installed pointer is valid, points to a client of that user, and
    that client's queue is open. *)
Definition clients_open (h : HubState) : Prop :=
  ∀ u a, clients h !! u = Some a →
    ∃ c, objects h !! a = Some c ∧ Client.UserID c = u ∧ Client.SendClosed c = false.

(** A client whose queue is open is the one installed for its user. *)
Definition open_installed (h : HubState) : Prop :=
  ∀ a c, objects h !! a = Some c → Client.SendClosed c = false →
    clients h !! Client.UserID c = Some a.

Definition hub_inv (w : World) : Prop :=
  clients_open (hub w) ∧ open_installed (hub w).

(** Whether the queue of [userID] takes one more payload. *)
Definition queue_accepts (userID : Z) (w : World) : bool :=
  match clients (hub w) !! userID with
  | Some a =>
      match objects (hub w) !! a with
      | Some c => bool_decide (length (Client.Send c) < SendCap)%nat
      | None => false
      end
  | None => false
  end.

(** The queue of [userID], empty when nobody is installed. *)
Definition queue_of (userID : Z) (w : World) : list WSMessage.t :=
  match clients (hub w) !! userID with
  | Some a => default [] (Client.Send <$> objects (hub w) !! a)
  | None => []
  end.

(** ** Sessions and routes *)

(** The unread count stored for a session key, when the row exists. *)
Definition unread_of (userID targetID sessionType : Z) (w : World) : option Z :=
  DBSession.UnreadCount <$> im_sessions (db w) !! (userID, targetID, sessionType).

(** The cache entry of a user is there and younger than the TTL. *)
Definition cache_fresh (userID : Z) (w : World) : Prop :=
  ∃ route, userRoutes (rm w) !! userID = Some route
         ∧ sub64 (clock w `div` 1000) (RouteCache.CacheTime route) < CacheTTL w.

(** What the two tables say about a user: the server of the route row and
    the address of its registry row, when both rows exist. *)
Definition route_rows (userID : Z) (w : World) : option (string * string) :=
  route ← im_user_routes (db w) !! userID;
  server ← im_servers (db w) !! DBUserRoute.ServerID route;
  Some (DBUserRoute.ServerID route, DBServer.GRPCAddr server).

(** A registry row whose heartbeat is 60 seconds old or older. *)
Definition server_dead (server : DBServer.t) (w : World) : Prop :=
  60 ≤ clock w `div` 1000 - DBServer.LastHeartbeat server.



(** No two client objects with an open queue belong to the same user. *)
Definition at_most_one_client (h : HubState) : Prop :=
  ∀ a b ca cb,
    objects h !! a = Some ca → objects h !! b = Some cb →
    Client.SendClosed ca = false → Client.SendClosed cb = false →
    Client.UserID ca = Client.UserID cb → a = b.

(** ** History and drain *)

(** The messages a history request asks for, in the words of the
    specification: the two directions of a single chat or the group, below
    [before_time] when that is positive. *)
Definition history_wanted (req : GetMessagesRequest.t) (m : DBMessage.t) : Prop :=
  (GetMessagesRequest.SessionType req = SessionTypeSingle →
     (DBMessage.FromUserID m = GetMessagesRequest.UserID req
      ∧ DBMessage.ToUserID m = GetMessagesRequest.TargetID req)
     ∨ (DBMessage.FromUserID m = GetMessagesRequest.TargetID req
        ∧ DBMessage.ToUserID m = GetMessagesRequest.UserID req))
  ∧ (GetMessagesRequest.SessionType req = SessionTypeGroup →
       DBMessage.GroupID m = GetMessagesRequest.TargetID req)
  ∧ (0 < GetMessagesRequest.BeforeTime req →
       DBMessage.ServerTime m < GetMessagesRequest.BeforeTime req).

(** The page size of a request: 20 stands in for 0. *)
Definition page_size (req : GetMessagesRequest.t) : Z :=
  if decide (GetMessagesRequest.Limit req = 0) then 20
  else GetMessagesRequest.Limit req.

(** The [chat_msg] pushes to one user in a stretch of the log, in order,
    each with the answer of the queue. *)
Fixpoint chat_pushes (userID : Z) (evs : list Event) : list (WSMessage.t * bool) :=
  match evs with
  | [] => []
  | EvPush u data accepted :: evs =>
      if decide (u = userID ∧ WSMessage.Type_ data = WSMsgTypeChatMsg) then
        (data, accepted) :: chat_pushes userID evs
      else chat_pushes userID evs
  | _ :: evs => chat_pushes userID evs
  end.


(** ** The drain, in the words of the specification *)

(** Undelivered for a user: [to_user_id] is the user and [status] is sent,
    which the specification numbers 2. *)
Definition undelivered_for (userID : Z) (m : DBMessage.t) : Prop :=
  DBMessage.ToUserID m = userID ∧ DBMessage.Status m = 2.

#[global] Instance undelivered_for_dec userID m : Decision (undelivered_for userID m).
Proof. unfold undelivered_for. apply _. Defined.




(** ** Further vocabulary *)

(** A message as it reads back from the store: the column defaults stand in
    for a zero message type or status. *)
Definition as_stored (msg : Message.t) : Message.t :=
  MessageRepository.toModel (MessageRepository.inserted 0 0 msg).

Definition read_time_of (msgID : string) (w : World) : option Z :=
  DBMessage.ReadTime <$> head (rows_of msgID w).

(** Every session row sits under the key its own columns spell. *)
Definition sessions_keyed (w : World) : Prop :=
  ∀ k row, im_sessions (db w) !! k = Some row →
    k = (DBSession.UserID row, DBSession.TargetID row, DBSession.SessionType row).

(** The clock shows a time of the Unix era that fits an [int64]. *)
Definition clock_sane (w : World) : Prop := 0 ≤ clock w < 2 ^ 63.

(** The [Server] value [GetActiveServers] makes of a registry row. *)
Definition server_of_row (row : DBServer.t) : Server.t :=
  Server.mk (DBServer.ServerID row) (DBServer.GRPCAddr row)
    (DBServer.LastHeartbeat row).

(** Every registry row sits under its own [server_id]. *)
Definition servers_keyed (w : World) : Prop :=
  ∀ k row, im_servers (db w) !! k = Some row → DBServer.ServerID row = k.

(** [userID] has a client installed in the hub of this node. *)
Definition installed (userID : Z) (w : World) : Prop :=
  is_Some (clients (hub w) !! userID).

#[global] Instance installed_dec userID w : Decision (installed userID w).
Proof. unfold installed. apply _. Defined.


(** ** Frames and messages of the send pipeline *)

(** The acknowledgement the sender of a chat frame gets. *)
Definition ack_frame (msgID : string) (status : Z) (errMsg : string) (t : Z)
    : WSMessage.t :=
  WSMessage.mk WSMsgTypeAck msgID
    (DataAck (WSAckMessage.mk msgID status t errMsg)) t.

(** The status update the sender of a message gets. *)
Definition status_frame (msgID : string) (status t : Z) : WSMessage.t :=
  WSMessage.mk WSMsgTypeStatusUpdate msgID
    (DataStatus (WSStatusUpdate.mk msgID status t)) t.

(** The message the server makes of a chat frame that carries an id. *)
Definition chat_message (fromUserID : Z) (chatMsg : WSChatMessage.t)
    (serverTime : Z) : Message.t :=
  Message.mk (WSChatMessage.MsgID chatMsg) fromUserID
    (WSChatMessage.ToUserID chatMsg) 0 (WSChatMessage.Content chatMsg)
    (WSChatMessage.MsgType chatMsg) MsgStatusSent (WSChatMessage.FileID chatMsg)
    (WSChatMessage.ClientTime chatMsg) serverTime 0 0.

(** The message [SendMessage] makes of a request. *)
Definition system_message (req : SendMessageRequest.t) (msgID : string)
    (serverTime : Z) : Message.t :=
  Message.mk msgID (SendMessageRequest.FromUserID req)
    (SendMessageRequest.ToUserID req) (SendMessageRequest.GroupID req)
    (SendMessageRequest.Content req) (SendMessageRequest.MsgType req)
    MsgStatusSent "" 0 serverTime 0 0.

(** The message a peer rebuilds from a forward request: the group, the
    file id and the status of the original are not carried over. *)
Definition forwarded (msg : Message.t) : Message.t :=
  Message.mk (Message.MsgID msg) (Message.FromUserID msg) (Message.ToUserID msg) 0
    (Message.Content msg) (wrap32 (Message.MsgType msg)) MsgStatusSent ""
    (Message.ClientTime msg) (Message.ServerTime msg) 0 0.

(** No lookup of [userID] on this node finds a route: nothing fresh in the
    cache and no pair of rows in the tables. *)
Definition unroutable (userID : Z) (w : World) : Prop :=
  ¬ cache_fresh userID w ∧ route_rows userID w = None.

(** The cache of this node says that [userID] is on this node. *)
Definition cached_here (userID : Z) (w : World) : Prop :=
  ∃ route, userRoutes (rm w) !! userID = Some route
         ∧ sub64 (clock w `div` 1000) (RouteCache.CacheTime route) < CacheTTL w
         ∧ RouteCache.GatewayID route = ServerID w.

(** ** Groups *)

(** Every member row sits under the pair its own columns spell. *)
Definition members_keyed (tables : GroupTables) : Prop :=
  ∀ k row, im_group_members tables !! k = Some row →
    k = (DBGroupMember.GroupID row, DBGroupMember.UserID row).

(** [userID] has a member row in [groupID]. *)
Definition member_of (groupID userID : Z) (tables : GroupTables) : Prop :=
  is_Some (im_group_members tables !! (groupID, userID)).

(** * Example worlds *)

(** A single node [s1] with nothing connected and empty tables. *)
Definition world0 : World :=
  mkWorld "s1" 30 (mkHub ∅ []) (mkCaches ∅ ∅) (mkTables [] ∅ ∅ ∅) 5000 [] [].

(** Message [m1] from user 1 to user 2, stamped 2000 by the server. *)
Definition row_m1 (status deliveredTime readTime : Z) : DBMessage.t :=
  DBMessage.mk 1 "m1" 1 2 0 "hi" MsgTypeText status "" 1000 2000
    deliveredTime readTime 2000.

(** [m1] has been delivered at 3000 and read at 4000. *)
Definition world_read : World :=
  set_messages [row_m1 MsgStatusRead 3000 4000] world0.

(** [m1] waits in status sent. *)
Definition world_sent : World :=
  set_messages [row_m1 MsgStatusSent 0 0] world0.

Definition receipt_m1 : WSReceipt.t := WSReceipt.mk "m1" "delivered" 0.

Definition forward_m1 : ForwardMessageRequest.t :=
  ForwardMessageRequest.mk 2 "m1" 1 "hi" MsgTypeText 1000 2000.

(** User 2 is installed, with a send queue that is full. *)
Definition world_full : World :=
  set_hub (mkHub {[ 2 := 0%nat ]}
             [Client.mk 2 7 (replicate SendCap
                               (WSMessage.mk "pong" "" DataNil 0)) false false])
    world_sent.

(** The message [m1] of the end-to-end scenarios, as the send pipeline
    builds it. *)
Definition msg_m1 : Message.t :=
  Message.mk "m1" 1 2 0 "hi" MsgTypeText MsgStatusSent "" 1000 2000 0 0.

(** Node [s2] registered at second 100 and crashed; its registry row is
    still there at second 5000, and so is the route of user 2, whom it
    served. *)
Definition server_s2 : DBServer.t := DBServer.mk "s2" "10.0.0.2:50051" 100.

Definition world_crashed : World :=
  set_clock 5000000
    (set_db (mkTables [] ∅ {[ "s2" := server_s2 ]}
               {[ 2 := DBUserRoute.mk 2 "s2" 100 ]}) world0).

(** User 2 connects to the empty hub on connection 7, then again on
    connection 8. *)
Definition world_connected : World :=
  set_hub (mkHub {[ 2 := 0%nat ]} [Client.mk 2 7 [] false false]) world0.

(** Four messages: 1 to 2 at 2000, 2 to 1 at 2500, 3 to 2 at 2600, 1 to 2 at
    3000; the last two still in status sent. *)
Definition world_history : World :=
  set_messages
    [ DBMessage.mk 1 "m1" 1 2 0 "hi" MsgTypeText MsgStatusRead "" 1000 2000 2100 2200 2000;
      DBMessage.mk 2 "m2" 2 1 0 "yo" MsgTypeText MsgStatusDelivered "" 2400 2500 2550 0 2500;
      DBMessage.mk 3 "m3" 3 2 0 "hey" MsgTypeText MsgStatusSent "" 2600 2600 0 0 2600;
      DBMessage.mk 4 "m4" 1 2 0 "bye" MsgTypeText MsgStatusSent "" 2900 3000 0 0 3000 ]
    world0.

(** The conversation of user 2 with user 1, nothing before, limit 0. *)
Definition history_req : GetMessagesRequest.t :=
  GetMessagesRequest.mk 2 1 SessionTypeSingle 0 0.

(** User 2 connects while [m3] and [m4] wait for them; the send queue of
    the new client has one free slot left. *)
Definition world_drain : World :=
  set_hub (mkHub {[ 2 := 0%nat ]}
             [Client.mk 2 7 (replicate 255 (WSMessage.mk "pong" "" DataNil 0))
                false false])
    world_history.

(** Users 1 and 2 have talked before: both session rows exist, user 2 has
    three unread messages from user 1. *)
Definition world_sessions : World :=
  set_sessions
    {[ (1, 2, 1) := DBSession.mk 1 2 1 "old" 1500 0;
       (2, 1, 1) := DBSession.mk 2 1 1 "old" 1500 3;
       (1, 3, 1) := DBSession.mk 1 3 1 "newer" 9000 1 ]}
    world0.

(** Node [s1] restarts at second 5000 while the registry still holds its
    old row and that of [s2], whose last heartbeat is at second 100.  Users
    2 and 3 have route rows to [s2] and [s1]; user 3 and user 4 are
    connected here, user 4 without a route row. *)
Definition world_registry : World :=
  set_clock 5000000
    (set_hub (mkHub {[ 3 := 0%nat; 4 := 1%nat ]}
                [Client.mk 3 7 [] false false; Client.mk 4 8 [] false false])
       (set_db (mkTables [] ∅
                  {[ "s1" := DBServer.mk "s1" "10.0.0.1:50051" 4990;
                     "s2" := server_s2 ]}
                  {[ 2 := DBUserRoute.mk 2 "s2" 100;
                     3 := DBUserRoute.mk 3 "s1" 4000 ]}) world0)).

(** User 2 is connected to [s1] and routed there, in the table and in the
    cache of the node. *)
Definition world_routed : World :=
  set_db (mkTables [] ∅ {[ "s1" := DBServer.mk "s1" "10.0.0.1:50051" 5 ]}
            {[ 2 := DBUserRoute.mk 2 "s1" 5 ]})
    (set_rm (mkCaches {[ 2 := RouteCache.mk "s1" 5 ]} ∅) world_connected).

(** Users 2 and 3 are connected; the queue of user 2 is full, that of user
    3 is empty. *)
Definition world_broadcast : World :=
  set_hub (mkHub {[ 2 := 0%nat; 3 := 1%nat ]}
             [Client.mk 2 7 (replicate SendCap (WSMessage.mk "pong" "" DataNil 0))
                false false;
              Client.mk 3 8 [] false false])
    world0.


(** The texts of the store's errors, and two answers of the dialler. *)
Definition error_text (e : Err) : string :=
  match e with
  | ErrIO => "i/o timeout"
  | ErrRecordNotFound => "record not found"
  | ErrDuplicateKey => "Duplicate entry"
  end.
Definition dial_fails (addr : string) : bool := false.
Definition dial_works (addr : string) : bool := true.

(** The chat frame user 1 sends to user 2 with the id [m1]. *)
Definition chat_m1 : WSChatMessage.t := WSChatMessage.mk "m1" 2 "hi" MsgTypeText "" 1000.

(** The registry as node [s1] sees it at second 5000: itself and the peer
    [s3], both with a recent heartbeat. *)
Definition world_peers : World :=
  set_clock 5000000
    (set_db (mkTables [] ∅
               {[ "s1" := DBServer.mk "s1" "10.0.0.1:50051" 4990;
                  "s3" := DBServer.mk "s3" "10.0.0.3:50051" 4995 ]} ∅) world0).

(** An image message from user 1 to user 2 that carries a file id. *)
Definition msg_photo : Message.t :=
  Message.mk "m8" 1 2 0 "photo" 2 MsgStatusSent "f42" 1000 2000 0 0.

(** A system message for user 2 whose request names a file. *)
Definition req_welcome : SendMessageRequest.t :=
  SendMessageRequest.mk 0 2 0 "welcome" MsgTypeText "f1".

(** User 2 is connected with an empty queue while [m3] and [m4] wait. *)
Definition world_backlog : World :=
  set_hub (mkHub {[ 2 := 0%nat ]} [Client.mk 2 7 [] false false]) world_history.

(** Group 1 with user 5 in it; the next group gets the id 2. *)
Definition tables_g1 : GroupTables :=
  mkGroupTables {[ 1 := DBGroup.mk 1 "team" 5 "" 1000 1000 ]} 2
    {[ (1, 5) := DBGroupMember.mk 1 1 5 2 1000 ]} 2.


(** * Properties *)

(** ** Running the monad *)

Lemma bind_Some {A B} (m : M A) (k : A → M B) w a w' :
  m w = Some (a, w') → bind m k w = k a w'.
Proof. unfold bind. by intros ->. Qed.

(** Run the first action of a sequence with a known outcome. *)
Tactic Notation "step" uconstr(H) := rewrite (bind_Some _ _ _ _ _ H).


Lemma statement_ok w : faults w = [] → statement w = Some (true, w).
Proof. unfold statement. by intros ->. Qed.

Lemma statement_total w : ∃ ok w', statement w = Some (ok, w')
  ∧ hub w' = hub w ∧ rm w' = rm w ∧ db w' = db w ∧ clock w' = clock w
  ∧ events w' = events w ∧ CacheTTL w' = CacheTTL w ∧ ServerID w' = ServerID w
  ∧ (faults w = [] → faults w' = [] ∧ ok = true).
Proof.
  unfold statement. destruct (faults w) as [|f fs] eqn:E.
  - exists true, w. by rewrite E.
  - exists (negb f), (set_faults fs w). repeat split; done.
Qed.

(** ** MessageRepository.UpdateStatus on the table *)

Section update_where.
Context (msgID : string) (status updateTime : Z).

Lemma updates_MsgID m :
  DBMessage.MsgID (MessageRepository.updates status updateTime m) = DBMessage.MsgID m.
Proof. unfold MessageRepository.updates. by repeat case_decide. Qed.

Lemma updates_Status m :
  DBMessage.Status (MessageRepository.updates status updateTime m) = status.
Proof. unfold MessageRepository.updates. by repeat case_decide. Qed.

Lemma update_where_MsgID rows :
  DBMessage.MsgID <$> MessageRepository.update_where msgID status updateTime rows
  = DBMessage.MsgID <$> rows.
Proof.
  unfold MessageRepository.update_where. rewrite <- list_fmap_compose.
  apply list_fmap_ext. intros i m _. simpl.
  case_decide; [apply updates_MsgID | done].
Qed.

Lemma update_where_filter_eq rows :
  filter (λ m, DBMessage.MsgID m = msgID)
    (MessageRepository.update_where msgID status updateTime rows)
  = MessageRepository.updates status updateTime
      <$> filter (λ m, DBMessage.MsgID m = msgID) rows.
Proof.
  induction rows as [|m rows IH]; [done|].
  unfold MessageRepository.update_where in *. rewrite fmap_cons.
  destruct (decide (DBMessage.MsgID m = msgID)) as [E|E].
  - rewrite !filter_cons_True by (by rewrite ?updates_MsgID).
    by rewrite fmap_cons, IH.
  - by rewrite !filter_cons_False.
Qed.

Lemma update_where_filter_ne other rows :
  other ≠ msgID →
  filter (λ m, DBMessage.MsgID m = other)
    (MessageRepository.update_where msgID status updateTime rows)
  = filter (λ m, DBMessage.MsgID m = other) rows.
Proof.
  intros Hne. induction rows as [|m rows IH]; [done|].
  unfold MessageRepository.update_where in *. rewrite fmap_cons.
  destruct (decide (DBMessage.MsgID m = msgID)) as [E|E].
  - rewrite !filter_cons_False by (rewrite ?updates_MsgID; congruence). done.
  - destruct (decide (DBMessage.MsgID m = other)).
    + rewrite !filter_cons_True by done. by rewrite IH.
    + by rewrite !filter_cons_False.
Qed.

Lemma update_where_absent rows :
  filter (λ m, DBMessage.MsgID m = msgID) rows = [] →
  MessageRepository.update_where msgID status updateTime rows = rows.
Proof.
  intros Hnone. unfold MessageRepository.update_where.
  rewrite <- (list_fmap_id rows) at 2. apply list_fmap_ext.
  intros i m Hm. simpl. case_decide as E; [|done].
  exfalso. assert (m ∈ filter (λ m, DBMessage.MsgID m = msgID) rows) as Hin.
  { apply list_elem_of_filter. split; [done|]. by eapply list_elem_of_lookup_2. }
  rewrite Hnone in Hin. by apply not_elem_of_nil in Hin.
Qed.
End update_where.

(** [UpdateStatus] never panics; when its statement executes it returns
    [nil] and rewrites the rows of the message, otherwise it returns the
    I/O error and leaves the table alone. *)
Lemma UpdateStatus_run msgID status updateTime w :
  ∃ ok w0, statement w = Some (ok, w0) ∧
    MessageRepository.UpdateStatus msgID status updateTime w =
      Some (if ok then None else Some ErrIO,
            if ok then
              set_messages (MessageRepository.update_where msgID status updateTime
                              (im_messages (db w0))) w0
            else w0).
Proof.
  destruct (statement_total w) as (ok & w0 & Hs & _).
  exists ok, w0. split; [done|].
  unfold MessageRepository.UpdateStatus. step Hs.
  by destruct ok.
Qed.

Lemma UpdateStatus_exec msgID status updateTime w :
  faults w = [] →
  MessageRepository.UpdateStatus msgID status updateTime w =
    Some (None, set_messages (MessageRepository.update_where msgID status updateTime
                                (im_messages (db w))) w).
Proof.
  intros Hf. unfold MessageRepository.UpdateStatus.
  by step (statement_ok w Hf).
Qed.

Lemma rows_of_UpdateStatus msgID status updateTime w :
  rows_of msgID
    (set_messages (MessageRepository.update_where msgID status updateTime
                     (im_messages (db w))) w)
  = MessageRepository.updates status updateTime <$> rows_of msgID w.
Proof. unfold rows_of. simpl. apply update_where_filter_eq. Qed.


Lemma status_of_UpdateStatus msgID status updateTime w :
  is_Some (status_of msgID w) →
  status_of msgID
    (set_messages (MessageRepository.update_where msgID status updateTime
                     (im_messages (db w))) w)
  = Some status.
Proof.
  unfold status_of. rewrite rows_of_UpdateStatus.
  destruct (rows_of msgID w) as [|m l]; simpl.
  - by intros [? ?].
  - intros _. by rewrite updates_Status.
Qed.

(** ** C1: status and [UpdateStatus] *)

(** C1, as stated, fails: [m1], stored as sent, is marked read; a delivered
    update that arrives afterwards is carried out as well and takes the
    status from 4 back to 3. *)
Lemma UpdateStatus_moves_backward :
  ∃ w1 w2,
    MessageRepository.UpdateStatus "m1" MsgStatusRead 4000 world_sent
    = Some (None, w1)
    ∧ MessageRepository.UpdateStatus "m1" MsgStatusDelivered 9000 w1
      = Some (None, w2)
    ∧ status_of "m1" world_sent = Some MsgStatusSent
    ∧ status_of "m1" w1 = Some MsgStatusRead
    ∧ status_of "m1" w2 = Some MsgStatusDelivered
    ∧ ¬ not_backward "m1" w1 w2.
Proof.
  eexists _, _. split; [reflexivity|]. split; [reflexivity|].
  split; [reflexivity|]. split; [reflexivity|]. split; [reflexivity|].
  intros H. specialize (H 4 3 eq_refl eq_refl). lia.
Qed.

(** C1 (amended): [UpdateStatus] overwrites.  When its statements execute,
    the persisted status of an existing message after each call of a series
    is the status that call asked for, whatever was stored before: the
    operation never refuses, and the status keeps from moving backward only
    as far as the callers ask for statuses in ascending order. *)
Theorem UpdateStatus_overwrites_status msgID calls w s0 :
  faults w = [] →
  status_of msgID w = Some s0 →
  ∃ w', status_history msgID calls w = Some (Some <$> calls.*1, w')
      ∧ faults w' = []
      ∧ status_of msgID w' = Some (default s0 (last calls.*1)).
Proof.
  revert w s0. induction calls as [|[status t] calls IH]; intros w s0 Hf Hs.
  - exists w. by rewrite Hs.
  - simpl status_history.
    step (UpdateStatus_exec msgID status t w Hf).
    set (w1 := set_messages _ w).
    assert (status_of msgID w1 = Some status) as Hs1.
    { apply status_of_UpdateStatus. by rewrite Hs. }
    destruct (IH w1 status Hf Hs1) as (w' & Hrun & Hf' & Hlast).
    exists w'. unfold bind at 1. rewrite Hs1.
    step Hrun. split; [done|]. split; [done|].
    rewrite Hlast. rewrite fmap_cons. simpl fst.
    destruct (calls.*1) as [|c l]; [done|]. rewrite last_cons_cons.
    destruct (last (c :: l)) eqn:E; [done|]. by apply last_None in E.
Qed.

(** The read message [m1] and the calls delivered, then read, then
    delivered again. *)
Lemma UpdateStatus_overwrites_status_witness :
  faults world_read = []
  ∧ status_of "m1" world_read = Some 4
  ∧ ∃ w', status_history "m1" [(3, 6000); (4, 7000); (3, 8000)] world_read
          = Some ([Some 3; Some 4; Some 3], w')
        ∧ faults w' = []
        ∧ status_of "m1" w' = Some 3.
Proof.
  split; [reflexivity|]. split; [reflexivity|].
  exact (UpdateStatus_overwrites_status "m1" [(3, 6000); (4, 7000); (3, 8000)]
           world_read 4 eq_refl eq_refl).
Defined.

(** ** The hub invariant *)

Lemma hub_inv_same_hub w w' : hub w' = hub w → hub_inv w → hub_inv w'.
Proof. unfold hub_inv. by intros ->. Qed.

Lemma hub_inv_enqueue w a c data :
  hub_inv w → objects (hub w) !! a = Some c →
  hub_inv (Hub.store a (Client.enqueue data c) w).
Proof.
  intros [Hopen Hinst] Hc. split.
  - intros u b Hb. simpl in *. destruct (Hopen u b Hb) as (cb & Hcb & Hu & Hcl).
    destruct (decide (b = a)) as [->|Hne].
    + exists (Client.enqueue data c). rewrite list_lookup_insert_eq
        by (by eapply lookup_lt_Some). by simplify_eq.
    + exists cb. by rewrite list_lookup_insert_ne.
  - intros b cb Hb Hcl. simpl in *.
    destruct (decide (a = b)) as [->|Hne].
    + rewrite list_lookup_insert_eq in Hb by (by eapply lookup_lt_Some).
      simplify_eq. simpl in *. by apply Hinst.
    + rewrite list_lookup_insert_ne in Hb by done. by apply Hinst.
Qed.

(** [SendToUser] under the invariant: it does not panic, answers whether
    the queue accepted, logs the push, and touches nothing but that queue. *)
Lemma SendToUser_run userID data w :
  hub_inv w →
  ∃ w', Hub.SendToUser userID data w = Some (queue_accepts userID w, w')
      ∧ hub_inv w'
      ∧ db w' = db w ∧ rm w' = rm w ∧ faults w' = faults w ∧ clock w' = clock w
      ∧ CacheTTL w' = CacheTTL w ∧ ServerID w' = ServerID w
      ∧ clients (hub w') = clients (hub w)
      ∧ events w' = events w ++ [EvPush userID data (queue_accepts userID w)]
      ∧ (queue_accepts userID w = false → hub w' = hub w)
      ∧ (queue_accepts userID w = true →
           queue_of userID w' = queue_of userID w ++ [data]).
Proof.
  intros Hinv. unfold Hub.SendToUser, queue_accepts, queue_of, bind, Hub.clients_get.
  destruct (clients (hub w) !! userID) as [a|] eqn:Ha.
  - destruct (proj1 Hinv _ _ Ha) as (c & Hc & Hu & Hcl).
    unfold Hub.select_send. rewrite Hc, Hcl. simpl.
    case_bool_decide as Hlen.
    + rewrite decide_True by done. simpl. eexists. split; [reflexivity|].
      split; [by apply hub_inv_enqueue|]. simpl. rewrite Ha.
      rewrite list_lookup_insert_eq by (by eapply lookup_lt_Some).
      repeat (split; [done|]). by intros _.
    + rewrite decide_False by done. simpl. eexists. split; [reflexivity|].
      simpl. rewrite Ha, Hc. repeat (split; [done|]). by intros [=].
  - simpl. eexists. split; [reflexivity|]. simpl. rewrite Ha.
    repeat (split; [done|]). by intros [=].
Qed.

Lemma notifyStatusUpdate_run userID msgID status updateTime w :
  hub_inv w →
  ∃ w', IMServer.notifyStatusUpdate userID msgID status updateTime w = Some (tt, w')
      ∧ hub_inv w'
      ∧ db w' = db w ∧ rm w' = rm w ∧ faults w' = faults w ∧ clock w' = clock w
      ∧ clients (hub w') = clients (hub w)
      ∧ ∃ accepted,
          events w' = events w ++
            [EvPush userID
               (WSMessage.mk WSMsgTypeStatusUpdate msgID
                  (DataStatus (WSStatusUpdate.mk msgID status updateTime)) updateTime)
               accepted].
Proof.
  intros Hinv. unfold IMServer.notifyStatusUpdate.
  destruct (SendToUser_run userID
              (WSMessage.mk WSMsgTypeStatusUpdate msgID
                 (DataStatus (WSStatusUpdate.mk msgID status updateTime)) updateTime)
              w Hinv) as (w' & Hrun & Hinv' & ? & ? & ? & ? & ? & ? & ? & Hev & _).
  exists w'. step Hrun. unfold ret.
  repeat (split; [done|]). by eexists.
Qed.

Lemma GetByMsgID_run msgID w :
  ∃ r w', MessageRepository.GetByMsgID msgID w = Some (r, w')
      ∧ hub w' = hub w ∧ db w' = db w ∧ rm w' = rm w ∧ clock w' = clock w
      ∧ events w' = events w
      ∧ (faults w = [] → faults w' = [] ∧
           r = match rows_of msgID w with
               | dbMsg :: _ => Ok (MessageRepository.toModel dbMsg)
               | [] => Fail ErrRecordNotFound
               end).
Proof.
  destruct (statement_total w) as (ok & w0 & Hs & Hh & Hr & Hd & Hc & He & _ & _ & Hf).
  unfold MessageRepository.GetByMsgID. step Hs.
  destruct ok.
  - unfold rows_of. rewrite <- Hd.
    destruct (filter _ (im_messages (db w0))) as [|m l] eqn:E;
      eexists _, w0; (split; [reflexivity|]); repeat (split; [done|]);
      intros Hf0; by destruct (Hf Hf0).
  - eexists _, w0. split; [reflexivity|]. repeat (split; [done|]).
    intros Hf0. by destruct (Hf Hf0).
Qed.

Lemma UpdateStatus_total msgID status updateTime w :
  ∃ err w', MessageRepository.UpdateStatus msgID status updateTime w = Some (err, w')
      ∧ hub w' = hub w ∧ rm w' = rm w ∧ clock w' = clock w
      ∧ events w' = events w.
Proof.
  destruct (UpdateStatus_run msgID status updateTime w) as (ok & w0 & Hs & Hrun).
  destruct (statement_total w) as (ok' & w0' & Hs' & Hh & Hr & Hd & Hc & He & _).
  rewrite Hs in Hs'. simplify_eq. eexists _, _. split; [exact Hrun|].
  by destruct ok'.
Qed.

Lemma set_messages_same w : set_messages (im_messages (db w)) w = w.
Proof. by destruct w as [? ? ? ? [] ? ? ?]. Qed.

(** ** C10: a message id without a row *)

Lemma MarkAsRead_loop_total readTime msgIDs w :
  hub_inv w →
  ∃ w', IMServer.MarkAsRead_loop readTime msgIDs w = Some (tt, w') ∧ hub_inv w'.
Proof.
  revert w. induction msgIDs as [|msgID msgIDs IH]; intros w Hinv.
  - by exists w.
  - simpl.
    destruct (UpdateStatus_total msgID MsgStatusRead readTime w)
      as (err & w1 & Hu & Hh1 & _).
    step Hu.
    assert (hub_inv w1) as Hinv1 by (by eapply hub_inv_same_hub).
    destruct err as [e|]; [by apply IH|].
    destruct (GetByMsgID_run msgID w1) as (r & w2 & Hg & Hh2 & _).
    step Hg.
    assert (hub_inv w2) as Hinv2 by (by eapply hub_inv_same_hub).
    destruct r as [msg|e]; [|by apply IH].
    destruct (notifyStatusUpdate_run (Message.FromUserID msg) msgID MsgStatusRead
                readTime w2 Hinv2) as (w3 & Hn & Hinv3 & _).
    step Hn. by apply IH.
Qed.

(** C10: at a world whose hub is sound, [UpdateStatus] for a message id that
    has no row, once its statement executes, returns [nil] and changes
    nothing (no row is affected); and [MarkAsRead] returns [nil] for every
    list of ids, be the ids unknown and be the statements failing. *)
Theorem MarkAsRead_never_reports_missing userID msgIDs msgID status updateTime w :
  hub_inv w →
  (rows_of msgID w = [] → faults w = [] →
     MessageRepository.UpdateStatus msgID status updateTime w = Some (None, w))
  ∧ ∃ w', IMServer.MarkAsRead userID msgIDs w = Some (None, w').
Proof.
  intros Hinv. split.
  - intros Hnone Hf. rewrite UpdateStatus_exec by done.
    unfold rows_of in Hnone. rewrite update_where_absent by done.
    by rewrite set_messages_same.
  - unfold IMServer.MarkAsRead, bind, UnixMilli.
    destruct (MarkAsRead_loop_total (clock w) msgIDs w Hinv) as (w' & -> & _).
    by exists w'.
Qed.

Lemma hub_inv_world0 : hub_inv world0.
Proof.
  split.
  - intros u a H. simpl in H. by rewrite lookup_empty in H.
  - intros a c H. simpl in H. by rewrite lookup_nil in H.
Qed.

Lemma hub_inv_world_sent : hub_inv world_sent.
Proof. exact hub_inv_world0. Qed.

(** No row carries [m9] in [world_sent]: the update succeeds and leaves the
    world as it is, and marking [m9] and [m1] read returns [nil]. *)
Lemma MarkAsRead_never_reports_missing_witness :
  hub_inv world_sent
  ∧ rows_of "m9" world_sent = []
  ∧ faults world_sent = []
  ∧ MessageRepository.UpdateStatus "m9" MsgStatusRead 7000 world_sent
    = Some (None, world_sent)
  ∧ ∃ w', IMServer.MarkAsRead 2 ["m9"; "m1"] world_sent = Some (None, w').
Proof.
  destruct (MarkAsRead_never_reports_missing 2 ["m9"; "m1"] "m9" MsgStatusRead 7000
              world_sent hub_inv_world_sent) as [Hupdate Hmark].
  split; [exact hub_inv_world_sent|].
  split; [reflexivity|]. split; [reflexivity|].
  split; [exact (Hupdate eq_refl eq_refl) | exact Hmark].
Defined.

(** ** C5: a delivered receipt, twice *)

Lemma rows_of_same_db msgID w w' : db w = db w' → rows_of msgID w = rows_of msgID w'.
Proof. unfold rows_of. by intros ->. Qed.

Lemma updates_delivered_twice t1 t2 m :
  MessageRepository.updates MsgStatusDelivered t2
    (MessageRepository.updates MsgStatusDelivered t1 m)
  = MessageRepository.updates MsgStatusDelivered t2 m.
Proof. by destruct m. Qed.

Lemma update_where_delivered_twice msgID t1 t2 rows :
  MessageRepository.update_where msgID MsgStatusDelivered t2
    (MessageRepository.update_where msgID MsgStatusDelivered t1 rows)
  = MessageRepository.update_where msgID MsgStatusDelivered t2 rows.
Proof.
  unfold MessageRepository.update_where. rewrite <- list_fmap_compose.
  apply list_fmap_ext. intros i m _. simpl.
  destruct (decide (DBMessage.MsgID m = msgID)) as [E|E].
  - rewrite decide_True by (by rewrite updates_MsgID).
    apply updates_delivered_twice.
  - by rewrite decide_False.
Qed.

Lemma delivered_time_of_updates msgID t w :
  is_Some (status_of msgID w) →
  delivered_time_of msgID
    (set_messages (MessageRepository.update_where msgID MsgStatusDelivered t
                     (im_messages (db w))) w)
  = Some t.
Proof.
  unfold status_of, delivered_time_of. rewrite rows_of_UpdateStatus.
  destruct (rows_of msgID w) as [|m l]; simpl; [by intros [? ?]|done].
Qed.

(** One delivered receipt that decodes, at a sound hub with a working
    store: the rows of the message are rewritten with the clock's time. *)
Lemma handleDeliveredReceipt_run userID receipt w :
  hub_inv w → faults w = [] →
  ∃ w1, IMServer.handleDeliveredReceipt userID (Some receipt) w = Some (tt, w1)
      ∧ hub_inv w1 ∧ faults w1 = [] ∧ clock w1 = clock w
      ∧ db w1 = db (set_messages
                      (MessageRepository.update_where (WSReceipt.MsgID receipt)
                         MsgStatusDelivered (clock w) (im_messages (db w))) w).
Proof.
  intros Hinv Hf. unfold IMServer.handleDeliveredReceipt.
  unfold bind at 1. unfold UnixMilli.
  step (UpdateStatus_exec _ _ _ w Hf).
  set (w0 := set_messages _ w).
  assert (hub_inv w0) as Hinv0 by done.
  destruct (GetByMsgID_run (WSReceipt.MsgID receipt) w0)
    as (r & w1 & Hg & Hh & Hd & _ & Hc & _ & Hf1).
  destruct (Hf1 Hf) as [Hf1' _].
  step Hg.
  assert (hub_inv w1) as Hinv1 by (by eapply hub_inv_same_hub).
  destruct r as [msg|e].
  - destruct (notifyStatusUpdate_run (Message.FromUserID msg)
                (WSReceipt.MsgID receipt) MsgStatusDelivered (clock w) w1 Hinv1)
      as (w2 & Hn & Hinv2 & Hd2 & _ & Hf2 & Hc2 & _).
    exists w2. split; [done|]. split; [done|].
    split; [congruence|]. subst w0. simpl in *. split; congruence.
  - exists w1. by unfold ret.
Qed.

(** C5, as stated, fails: two delivered receipts for [m1], handled at 5000
    and at 6000, leave a delivery time of 6000 where one left 5000. *)
Lemma delivered_receipt_twice_moves_time :
  ∃ w1 w2,
    IMServer.handleDeliveredReceipt 2 (Some receipt_m1) world_sent = Some (tt, w1)
    ∧ IMServer.handleDeliveredReceipt 2 (Some receipt_m1) (set_clock 6000 w1)
      = Some (tt, w2)
    ∧ delivered_time_of "m1" w1 = Some 5000
    ∧ delivered_time_of "m1" w2 = Some 6000
    ∧ im_messages (db w2) ≠ im_messages (db w1).
Proof.
  eexists _, _. split; [reflexivity|]. split; [reflexivity|].
  split; [reflexivity|]. split; [reflexivity|]. by intros [=].
Qed.

(** C5 (amended): a repeated delivered receipt leaves the status at
    delivered, as the first one did, but writes the delivery time again,
    with the clock of the later handling; the tables after two receipts are
    those one receipt handled at the later time alone would leave. *)
Theorem delivered_receipt_repeated userID receipt w t2 :
  hub_inv w → faults w = [] →
  is_Some (status_of (WSReceipt.MsgID receipt) w) →
  ∃ w1 w2 w2',
    IMServer.handleDeliveredReceipt userID (Some receipt) w = Some (tt, w1)
    ∧ IMServer.handleDeliveredReceipt userID (Some receipt) (set_clock t2 w1)
      = Some (tt, w2)
    ∧ IMServer.handleDeliveredReceipt userID (Some receipt) (set_clock t2 w)
      = Some (tt, w2')
    ∧ status_of (WSReceipt.MsgID receipt) w1 = Some MsgStatusDelivered
    ∧ status_of (WSReceipt.MsgID receipt) w2 = Some MsgStatusDelivered
    ∧ delivered_time_of (WSReceipt.MsgID receipt) w1 = Some (clock w)
    ∧ delivered_time_of (WSReceipt.MsgID receipt) w2 = Some t2
    ∧ db w2 = db w2'.
Proof.
  intros Hinv Hf Hex.
  destruct (handleDeliveredReceipt_run userID receipt w Hinv Hf)
    as (w1 & H1 & Hinv1 & Hf1 & Hc1 & Hd1).
  destruct (handleDeliveredReceipt_run userID receipt (set_clock t2 w1) Hinv1 Hf1)
    as (w2 & H2 & _ & _ & _ & Hd2).
  destruct (handleDeliveredReceipt_run userID receipt (set_clock t2 w) Hinv Hf)
    as (w2' & H2' & _ & _ & _ & Hd2').
  exists w1, w2, w2'. repeat (split; [done|]).
  simpl in Hd1, Hd2, Hd2'.
  assert (status_of (WSReceipt.MsgID receipt) w1 = Some MsgStatusDelivered) as Hs1.
  { unfold status_of. rewrite (rows_of_same_db _ w1 (set_messages
      (MessageRepository.update_where (WSReceipt.MsgID receipt) MsgStatusDelivered
         (clock w) (im_messages (db w))) w)) by done.
    by apply status_of_UpdateStatus. }
  split; [done|]. split.
  { unfold status_of. rewrite (rows_of_same_db _ w2 (set_messages
      (MessageRepository.update_where (WSReceipt.MsgID receipt) MsgStatusDelivered
         t2 (im_messages (db w1))) w1)) by done.
    apply status_of_UpdateStatus. by rewrite Hs1. }
  split.
  { unfold delivered_time_of. rewrite (rows_of_same_db _ w1 (set_messages
      (MessageRepository.update_where (WSReceipt.MsgID receipt) MsgStatusDelivered
         (clock w) (im_messages (db w))) w)) by done.
    by apply delivered_time_of_updates. }
  split.
  { unfold delivered_time_of. rewrite (rows_of_same_db _ w2 (set_messages
      (MessageRepository.update_where (WSReceipt.MsgID receipt) MsgStatusDelivered
         t2 (im_messages (db w1))) w1)) by done.
    apply delivered_time_of_updates. by rewrite Hs1. }
  rewrite Hd2, Hd2', Hd1. simpl. by rewrite update_where_delivered_twice.
Qed.

Lemma delivered_receipt_repeated_witness :
  hub_inv world_sent ∧ faults world_sent = []
  ∧ is_Some (status_of "m1" world_sent)
  ∧ ∃ w1 w2 w2',
    IMServer.handleDeliveredReceipt 2 (Some receipt_m1) world_sent = Some (tt, w1)
    ∧ IMServer.handleDeliveredReceipt 2 (Some receipt_m1) (set_clock 6000 w1)
      = Some (tt, w2)
    ∧ IMServer.handleDeliveredReceipt 2 (Some receipt_m1) (set_clock 6000 world_sent)
      = Some (tt, w2')
    ∧ status_of "m1" w1 = Some MsgStatusDelivered
    ∧ status_of "m1" w2 = Some MsgStatusDelivered
    ∧ delivered_time_of "m1" w1 = Some 5000
    ∧ delivered_time_of "m1" w2 = Some 6000
    ∧ db w2 = db w2'.
Proof.
  split; [exact hub_inv_world_sent|]. split; [reflexivity|].
  split; [by eexists|].
  exact (delivered_receipt_repeated 2 receipt_m1 world_sent 6000
           hub_inv_world_sent eq_refl (ex_intro _ 2 eq_refl)).
Defined.

(** ** C2: the answer of [ForwardMessage] *)

Lemma pushToLocalUser_run msg w :
  hub_inv w →
  ∃ w', IMServer.pushToLocalUser msg w = Some (tt, w') ∧ hub_inv w'
      ∧ (queue_accepts (Message.ToUserID msg) w = false →
           db w' = db w ∧ hub w' = hub w
           ∧ events w' = events w ++
               [EvPush (Message.ToUserID msg) (IMServer.pushMsg msg) false]).
Proof.
  intros Hinv. unfold IMServer.pushToLocalUser.
  destruct (SendToUser_run (Message.ToUserID msg) (IMServer.pushMsg msg) w Hinv)
    as (w1 & Hs & Hinv1 & Hd1 & _ & _ & _ & _ & _ & _ & He1 & Hh1 & _).
  step Hs.
  destruct (queue_accepts (Message.ToUserID msg) w) eqn:Hacc.
  - unfold bind at 1. unfold UnixMilli.
    destruct (UpdateStatus_total (Message.MsgID msg) MsgStatusDelivered (clock w1) w1)
      as (err & w2 & Hu & Hh2 & _).
    step Hu.
    assert (hub_inv w2) as Hinv2 by (by eapply hub_inv_same_hub).
    destruct (notifyStatusUpdate_run (Message.FromUserID msg) (Message.MsgID msg)
                MsgStatusDelivered (clock w1) w2 Hinv2) as (w3 & Hn & Hinv3 & _).
    exists w3. by rewrite Hn.
  - exists w1. split; [done|]. split; [done|]. intros _. by rewrite Hh1.
Qed.

(** C2 fails on the code: the handler answers [Delivered: true] whatever
    became of the push.  At a sound hub it always returns, and its answer
    is the constant one also when the queue of the recipient did not accept
    (the recipient is absent or the queue is full); then nothing was
    enqueued and no row was touched. *)
Theorem ForwardMessage_always_delivered req w :
  hub_inv w →
  ∃ w', IMServer.ForwardMessage req w
        = Some ((ForwardMessageResponse.mk true "", None), w')
      ∧ (queue_accepts (ForwardMessageRequest.ToUserID req) w = false →
           db w' = db w ∧ hub w' = hub w
           ∧ ∃ data, events w' = events w ++
               [EvPush (ForwardMessageRequest.ToUserID req) data false]).
Proof.
  intros Hinv. unfold IMServer.ForwardMessage.
  match goal with |- context [IMServer.pushToLocalUser ?m] =>
    destruct (pushToLocalUser_run m w Hinv) as (w' & Hp & _ & Hrefused) end.
  exists w'. step Hp. split; [done|].
  intros Hacc. destruct (Hrefused Hacc) as (? & ? & ?). eauto.
Qed.

(** The failing inputs: [m1] forwarded for user 2 to a node where user 2 is
    not connected, and to a node where the queue of user 2 is full. *)
Lemma ForwardMessage_always_delivered_witness :
  hub_inv world0
  ∧ queue_accepts 2 world0 = false
  ∧ ∃ w', IMServer.ForwardMessage forward_m1 world0
          = Some ((ForwardMessageResponse.mk true "", None), w')
        ∧ (queue_accepts 2 world0 = false →
             db w' = db world0 ∧ hub w' = hub world0
             ∧ ∃ data, events w' = events world0 ++ [EvPush 2 data false]).
Proof.
  split; [exact hub_inv_world0|]. split; [reflexivity|].
  exact (ForwardMessage_always_delivered forward_m1 world0 hub_inv_world0).
Defined.

Example ForwardMessage_full_queue :
  queue_accepts 2 world_full = false
  ∧ ∃ w', IMServer.ForwardMessage forward_m1 world_full
          = Some ((ForwardMessageResponse.mk true "", None), w')
        ∧ status_of "m1" w' = Some MsgStatusSent
        ∧ length (queue_of 2 w') = SendCap.
Proof.
  split; [by vm_compute|]. eexists. split; [by vm_compute|].
  split; by vm_compute.
Qed.

(** ** C3: the unread count of the two session rows *)

(** One upsert whose statement executes. *)
Lemma UpdateSession_exec session w :
  faults w = [] →
  let key := (Session.UserID session, Session.TargetID session,
              column_default 1 (Session.SessionType session)) in
  ∃ w', SessionRepository.UpdateSession session w = Some (None, w')
      ∧ faults w' = [] ∧ hub w' = hub w
      ∧ unread_of key.1.1 key.1.2 key.2 w' =
          Some (match unread_of key.1.1 key.1.2 key.2 w with
                | None => 0
                | Some n => n + Session.UnreadCount session
                end)
      ∧ ∀ k, k ≠ key → im_sessions (db w') !! k = im_sessions (db w) !! k.
Proof.
  intros Hf key. unfold SessionRepository.UpdateSession.
  step (statement_ok w Hf).
  subst key. unfold unread_of. simpl.
  destruct (im_sessions (db w) !! _) as [row|] eqn:E; simpl;
    (eexists; split; [reflexivity|]); simpl;
    rewrite lookup_insert_eq; repeat (split; [done|]);
    intros k Hk; by rewrite lookup_insert_ne.
Qed.

(** C3 fails on the code for the first message of a conversation.  When the
    recipient has no session row for the sender yet, the row that
    [updateSession] creates carries an unread count of 0: the inserted row is
    built without the unread count of the upsert, which only the update of an
    existing row adds. *)
Theorem updateSession_first_message_unread msg w :
  faults w = [] →
  Message.FromUserID msg ≠ Message.ToUserID msg →
  unread_of (Message.ToUserID msg) (Message.FromUserID msg) SessionTypeSingle w = None →
  ∃ w', IMServer.updateSession msg w = Some (tt, w')
      ∧ unread_of (Message.ToUserID msg) (Message.FromUserID msg) SessionTypeSingle w'
        = Some 0.
Proof.
  intros Hf Hne Hnone. unfold IMServer.updateSession.
  destruct (UpdateSession_exec
              (Session.mk (Message.FromUserID msg) (Message.ToUserID msg)
                 SessionTypeSingle (Message.Content msg) (Message.ServerTime msg) 0)
              w Hf) as (w1 & H1 & Hf1 & _ & _ & Hother).
  step H1.
  destruct (UpdateSession_exec
              (Session.mk (Message.ToUserID msg) (Message.FromUserID msg)
                 SessionTypeSingle (Message.Content msg) (Message.ServerTime msg) 1)
              w1 Hf1) as (w2 & H2 & _ & _ & Hunread & _).
  step H2. exists w2. split; [done|].
  simpl in Hunread, Hother. change (column_default 1 SessionTypeSingle) with 1 in *.
  change SessionTypeSingle with 1 in *.
  rewrite Hunread. unfold unread_of in *. rewrite Hother by congruence.
  by rewrite Hnone.
Qed.

(** The failing input: the first message from user 1 to user 2, no session
    row existing.  Before the upsert user 2 has no unread message from 1
    (no row); after it the row exists and still says 0. *)
Lemma updateSession_first_message_unread_witness :
  faults world_sent = []
  ∧ unread_of 2 1 SessionTypeSingle world_sent = None
  ∧ ∃ w', IMServer.updateSession msg_m1 world_sent = Some (tt, w')
        ∧ unread_of 2 1 SessionTypeSingle w' = Some 0.
Proof.
  split; [reflexivity|]. split; [reflexivity|].
  refine (updateSession_first_message_unread msg_m1 world_sent eq_refl _ eq_refl).
  simpl. lia.
Defined.

(** What does hold: with both rows in place, the recipient's count grows by
    one and the sender's stays. *)
Lemma updateSession_existing_rows msg w a b :
  faults w = [] →
  Message.FromUserID msg ≠ Message.ToUserID msg →
  unread_of (Message.FromUserID msg) (Message.ToUserID msg) SessionTypeSingle w = Some a →
  unread_of (Message.ToUserID msg) (Message.FromUserID msg) SessionTypeSingle w = Some b →
  ∃ w', IMServer.updateSession msg w = Some (tt, w')
      ∧ unread_of (Message.FromUserID msg) (Message.ToUserID msg) SessionTypeSingle w'
        = Some a
      ∧ unread_of (Message.ToUserID msg) (Message.FromUserID msg) SessionTypeSingle w'
        = Some (b + 1).
Proof.
  intros Hf Hne Ha Hb. unfold IMServer.updateSession.
  destruct (UpdateSession_exec
              (Session.mk (Message.FromUserID msg) (Message.ToUserID msg)
                 SessionTypeSingle (Message.Content msg) (Message.ServerTime msg) 0)
              w Hf) as (w1 & H1 & Hf1 & _ & Hsender & Hother).
  step H1.
  destruct (UpdateSession_exec
              (Session.mk (Message.ToUserID msg) (Message.FromUserID msg)
                 SessionTypeSingle (Message.Content msg) (Message.ServerTime msg) 1)
              w1 Hf1) as (w2 & H2 & _ & _ & Hunread & Hother2).
  step H2. exists w2. split; [done|].
  simpl in Hunread, Hother, Hsender, Hother2.
  change (column_default 1 SessionTypeSingle) with 1 in *.
  change SessionTypeSingle with 1 in *. split.
  - unfold unread_of in *. rewrite Hother2 by congruence.
    rewrite Hsender, Ha. f_equal. lia.
  - rewrite Hunread. unfold unread_of in *. rewrite Hother by congruence.
    by rewrite Hb.
Qed.

(** ** The route manager *)

Lemma RouteRepository_GetUserRoute_exec userID w :
  faults w = [] →
  RouteRepository.GetUserRoute userID w =
    Some (match route_rows userID w with
          | Some (serverID, addr) => Ok (UserRoute.mk serverID addr)
          | None => Fail ErrRecordNotFound
          end, w).
Proof.
  intros Hf. unfold RouteRepository.GetUserRoute, route_rows.
  step (statement_ok w Hf). unfold bind at 1.
  destruct (im_user_routes (db w) !! userID) as [route|]; simpl; [|done].
  step (statement_ok w Hf). unfold bind at 1.
  by destruct (im_servers (db w) !! DBUserRoute.ServerID route).
Qed.

(** A lookup that goes to the database. *)
Lemma GetUserRoute_db_exec userID w :
  faults w = [] →
  RouteManager.GetUserRoute_db userID w =
    Some (match route_rows userID w with
          | Some (serverID, addr) =>
              ((serverID, addr, true),
               set_rm (mkCaches
                         (<[userID := RouteCache.mk serverID (clock w `div` 1000)]>
                            (userRoutes (rm w)))
                         (<[serverID := addr]> (gatewayAddrs (rm w)))) w)
          | None => (("", "", false), w)
          end).
Proof.
  intros Hf. unfold RouteManager.GetUserRoute_db.
  step (RouteRepository_GetUserRoute_exec userID w Hf).
  by destruct (route_rows userID w) as [[serverID addr]|].
Qed.

Lemma GetUserRoute_miss userID w :
  ¬ cache_fresh userID w →
  RouteManager.GetUserRoute userID w = RouteManager.GetUserRoute_db userID w.
Proof.
  intros Hstale. unfold RouteManager.GetUserRoute, bind, RouteManager.userRoutes_get.
  destruct (userRoutes (rm w) !! userID) as [route|] eqn:E; [|done].
  unfold Unix, RouteManager.cacheTTL. case_decide as Hlt; [|done].
  exfalso. apply Hstale. by exists route.
Qed.

Lemma GetUserRoute_hit userID w route :
  userRoutes (rm w) !! userID = Some route →
  sub64 (clock w `div` 1000) (RouteCache.CacheTime route) < CacheTTL w →
  RouteManager.GetUserRoute userID w =
    Some ((RouteCache.GatewayID route,
           default "" (gatewayAddrs (rm w) !! RouteCache.GatewayID route), true), w).
Proof.
  intros E Hlt. unfold RouteManager.GetUserRoute, bind, RouteManager.userRoutes_get.
  rewrite E. unfold Unix, RouteManager.cacheTTL. by rewrite decide_True.
Qed.

(** ** C4: a route that points at a dead server *)

(** C4, as stated, fails: the lookup reports user 2 online on the dead
    server. *)
Lemma lookup_of_dead_server_route :
  im_user_routes (db world_crashed) !! 2 = Some (DBUserRoute.mk 2 "s2" 100)
  ∧ im_servers (db world_crashed) !! "s2" = Some server_s2
  ∧ server_dead server_s2 world_crashed
  ∧ ∃ w', RouteManager.GetUserRoute 2 world_crashed
          = Some (("s2", "10.0.0.2:50051", true), w').
Proof.
  split; [by vm_compute|]. split; [by vm_compute|].
  split; [by vm_compute|]. eexists. by vm_compute.
Qed.

(** C4 (amended): the lookup never reads a heartbeat.  With a working store,
    a user whose route row names a server that still has its registry row,
    however old that row's heartbeat, is reported online; a lookup that
    goes to the database names that server and its address.  A lookup that
    goes to the database reports the user offline exactly when the route
    row or the registry row it names is missing. *)
Theorem lookup_ignores_heartbeat userID w :
  faults w = [] →
  (∀ route server,
     im_user_routes (db w) !! userID = Some route →
     im_servers (db w) !! DBUserRoute.ServerID route = Some server →
     ∃ gatewayID addr w',
       RouteManager.GetUserRoute userID w = Some ((gatewayID, addr, true), w')
       ∧ (¬ cache_fresh userID w →
            gatewayID = DBUserRoute.ServerID route
            ∧ addr = DBServer.GRPCAddr server))
  ∧ (¬ cache_fresh userID w →
     ∃ r w', RouteManager.GetUserRoute userID w = Some (r, w')
       ∧ (r.2 = false ↔ route_rows userID w = None)).
Proof.
  intros Hf. split.
  - intros route server Hroute Hserver.
    assert (route_rows userID w
            = Some (DBUserRoute.ServerID route, DBServer.GRPCAddr server)) as Hrows.
    { unfold route_rows. rewrite Hroute. simpl. by rewrite Hserver. }
    assert (cache_fresh userID w ∨ ¬ cache_fresh userID w) as [(c & Hc & Hlt)|Hstale].
    { unfold cache_fresh. destruct (userRoutes (rm w) !! userID) as [c|].
      - destruct (decide (sub64 (clock w `div` 1000) (RouteCache.CacheTime c)
                          < CacheTTL w)); [left; by exists c|].
        right. intros (c' & [= <-] & ?). done.
      - right. by intros (c' & [=] & _). }
    + eexists _, _, w. split; [by apply GetUserRoute_hit|].
      intros Hn. exfalso. apply Hn. by exists c.
    + rewrite GetUserRoute_miss by done. rewrite GetUserRoute_db_exec by done.
      rewrite Hrows. eexists _, _, _. split; [done|]. done.
  - intros Hstale. rewrite GetUserRoute_miss by done.
    rewrite GetUserRoute_db_exec by done.
    destruct (route_rows userID w) as [[serverID addr]|];
      eexists _, _; (split; [reflexivity|]); simpl; split; done.
Qed.

Lemma world_crashed_cache_empty : ¬ cache_fresh 2 world_crashed.
Proof. intros (c & Hc & _). by vm_compute in Hc. Qed.

(** The crashed node of [world_crashed]: every hypothesis holds there, the
    server is dead, and user 2 is reported online at its address. *)
Lemma lookup_ignores_heartbeat_witness :
  faults world_crashed = []
  ∧ im_user_routes (db world_crashed) !! 2 = Some (DBUserRoute.mk 2 "s2" 100)
  ∧ im_servers (db world_crashed) !! "s2" = Some server_s2
  ∧ ¬ cache_fresh 2 world_crashed
  ∧ server_dead server_s2 world_crashed
  ∧ ∃ gatewayID addr w',
      RouteManager.GetUserRoute 2 world_crashed = Some ((gatewayID, addr, true), w')
      ∧ gatewayID = "s2" ∧ addr = "10.0.0.2:50051".
Proof.
  assert (im_user_routes (db world_crashed) !! 2 = Some (DBUserRoute.mk 2 "s2" 100))
    as Hroute by (by vm_compute).
  assert (im_servers (db world_crashed) !! "s2" = Some server_s2)
    as Hserver by (by vm_compute).
  split; [reflexivity|]. split; [exact Hroute|]. split; [exact Hserver|].
  split; [exact world_crashed_cache_empty|]. split; [by vm_compute|].
  destruct (proj1 (lookup_ignores_heartbeat 2 world_crashed eq_refl)
              (DBUserRoute.mk 2 "s2" 100) server_s2 Hroute Hserver)
    as (gatewayID & addr & w' & Hrun & Hdb).
  exists gatewayID, addr, w'. split; [exact Hrun|].
  exact (Hdb world_crashed_cache_empty).
Defined.

(** ** C9: the address of a freshly registered route *)






Lemma RegisterUserRoute_succeeds userID serverID w :
  faults w = [] →
  (∀ old, im_user_routes (db w) !! userID = Some old →
     ¬ (DBUserRoute.ServerID old = serverID
        ∧ DBUserRoute.LastHeartbeat old = clock w `div` 1000)) →
  ∃ w', RouteRepository.RegisterUserRoute userID serverID w = Some (None, w').
Proof.
  intros Hf Hnew. unfold RouteRepository.RegisterUserRoute.
  unfold bind at 1. unfold Unix.
  step (statement_ok w Hf). unfold bind at 1.
  destruct (im_user_routes (db w) !! userID) as [old|] eqn:E.
  - rewrite (decide_False (P := _ ∧ _)) by (by apply Hnew).
    rewrite decide_False by done. by eexists.
  - rewrite decide_True by done.
    step (statement_ok w Hf). rewrite E. by eexists.
Qed.

(** With a working store [Register] does succeed, unless the route row
    already holds the server and the heartbeat of this second. *)
Lemma Register_succeeds userID gatewayID w :
  faults w = [] →
  (∀ old, im_user_routes (db w) !! userID = Some old →
     ¬ (DBUserRoute.ServerID old = gatewayID
        ∧ DBUserRoute.LastHeartbeat old = clock w `div` 1000)) →
  ∃ w', RouteManager.Register userID gatewayID w = Some (None, w').
Proof.
  intros Hf Hnew. unfold RouteManager.Register.
  destruct (RegisterUserRoute_succeeds userID gatewayID w Hf Hnew) as (w1 & H1).
  step H1. by eexists.
Qed.

(** ** C8: one client per user *)

Lemma hub_inv_at_most_one w : hub_inv w → at_most_one_client (hub w).
Proof.
  intros [_ Hinst] a b ca cb Ha Hb Hoa Hob Hu.
  pose proof (Hinst a ca Ha Hoa) as H1. pose proof (Hinst b cb Hb Hob) as H2.
  rewrite Hu in H1. congruence.
Qed.

(** [Register] for a user nobody is installed for. *)
Lemma Register_fresh userID conn w :
  clients (hub w) !! userID = None →
  Hub.Register userID conn w =
    Some (length (objects (hub w)),
          emit (EvInstall userID (length (objects (hub w))))
            (set_hub (mkHub (<[userID := length (objects (hub w))]> (clients (hub w)))
                        (objects (hub w) ++ [Client.mk userID conn [] false false]))
               w)).
Proof.
  intros Hnone. unfold Hub.Register, bind, Hub.new_Client, Hub.clients_get.
  simpl. by rewrite Hnone.
Qed.

(** [Register] for a user whose installed client [old] is open. *)
Lemma Register_evict userID conn w old oc :
  clients (hub w) !! userID = Some old →
  objects (hub w) !! old = Some oc →
  Client.SendClosed oc = false →
  Hub.Register userID conn w =
    Some (length (objects (hub w)),
          emit (EvInstall userID (length (objects (hub w))))
            (set_hub
               (mkHub (<[userID := length (objects (hub w))]> (clients (hub w)))
                  (<[old := Client.close_conn (Client.close_send oc)]>
                     (objects (hub w) ++ [Client.mk userID conn [] false false])))
               (emit (EvCloseConn old) (emit (EvCloseSend old) w)))).
Proof.
  intros Hold Hoc Hopen.
  unfold Hub.Register, bind, Hub.new_Client, Hub.clients_get. simpl. rewrite Hold.
  unfold Hub.close_Send. simpl.
  rewrite (lookup_app_l_Some _ _ _ _ Hoc), Hopen. simpl.
  unfold Hub.Conn_Close. simpl.
  rewrite list_lookup_insert_eq
    by (rewrite length_app; apply lookup_lt_Some in Hoc; lia).
  simpl. by rewrite list_insert_insert_eq.
Qed.

Lemma hub_inv_Register_fresh userID conn w :
  hub_inv w → clients (hub w) !! userID = None →
  hub_inv (emit (EvInstall userID (length (objects (hub w))))
             (set_hub (mkHub (<[userID := length (objects (hub w))]> (clients (hub w)))
                         (objects (hub w) ++ [Client.mk userID conn [] false false]))
                w)).
Proof.
  intros [Hopen Hinst] Hnone. split; simpl.
  - intros u a Ha. simpl in *.
    destruct (decide (userID = u)) as [<-|Hne].
    + rewrite lookup_insert_eq in Ha. simplify_eq.
      eexists. split; [apply list_lookup_middle; done|done].
    + rewrite lookup_insert_ne in Ha by done.
      destruct (Hopen u a Ha) as (c & Hc & ?). exists c.
      split; [by apply lookup_app_l_Some|done].
  - intros a c Ha Hopen_c. simpl in *.
    apply lookup_app_Some in Ha as [Ha|[Hlen Ha]].
    + pose proof (Hinst a c Ha Hopen_c) as Hin.
      rewrite lookup_insert_ne; [done|]. intros ->. by rewrite Hnone in Hin.
    + apply list_lookup_singleton_Some in Ha as [Hidx <-]. simpl.
      rewrite lookup_insert_eq. f_equal. lia.
Qed.

Lemma hub_inv_Register_evict userID conn w old oc ev1 ev2 ev3 :
  hub_inv w →
  clients (hub w) !! userID = Some old →
  objects (hub w) !! old = Some oc →
  hub_inv (emit ev3
             (set_hub
                (mkHub (<[userID := length (objects (hub w))]> (clients (hub w)))
                   (<[old := Client.close_conn (Client.close_send oc)]>
                      (objects (hub w) ++ [Client.mk userID conn [] false false])))
                (emit ev2 (emit ev1 w)))).
Proof.
  intros [Hopen Hinst] Hold Hoc.
  assert (old < length (objects (hub w)))%nat as Hlt by (by eapply lookup_lt_Some).
  split; simpl.
  - intros u a Ha. simpl in *.
    destruct (decide (userID = u)) as [<-|Hne].
    + rewrite lookup_insert_eq in Ha. simplify_eq.
      eexists. split;
        [rewrite list_lookup_insert_ne by lia; by apply list_lookup_middle|done].
    + rewrite lookup_insert_ne in Ha by done.
      destruct (Hopen u a Ha) as (c & Hc & Hu & Hcl). exists c.
      split; [|done]. rewrite list_lookup_insert_ne.
      * by apply lookup_app_l_Some.
      * intros <-. destruct (Hopen userID old Hold) as (c' & Hc' & Hu' & _).
        congruence.
  - intros a c Ha Hopen_c. simpl in *.
    destruct (decide (old = a)) as [<-|Hne].
    + rewrite list_lookup_insert_eq in Ha by (rewrite length_app; lia).
      by simplify_eq.
    + rewrite list_lookup_insert_ne in Ha by done.
      apply lookup_app_Some in Ha as [Ha|[Hlen Ha]].
      * pose proof (Hinst a c Ha Hopen_c) as Hin.
        rewrite lookup_insert_ne; [done|]. intros ->. congruence.
      * apply list_lookup_singleton_Some in Ha as [Hidx <-]. simpl.
        rewrite lookup_insert_eq. f_equal. lia.
Qed.

(** C8: [Register] keeps the hub sound, so that no user ever has two open
    clients, and installs the new client for the user.  When a client of
    that user was installed, the log shows its queue closed, then its
    connection closed, then the installation of the new client, and the old
    object is left with both closed. *)
Theorem Register_replaces_prior_client userID conn w :
  hub_inv w →
  let client := length (objects (hub w)) in
  ∃ w', Hub.Register userID conn w = Some (client, w')
      ∧ hub_inv w'
      ∧ at_most_one_client (hub w')
      ∧ clients (hub w') = <[userID := client]> (clients (hub w))
      ∧ objects (hub w') !! client = Some (Client.mk userID conn [] false false)
      ∧ match clients (hub w) !! userID with
        | Some oldClient =>
            events w' = events w ++
              [EvCloseSend oldClient; EvCloseConn oldClient; EvInstall userID client]
            ∧ oldClient ≠ client
            ∧ ∃ c, objects (hub w') !! oldClient = Some c
                 ∧ Client.SendClosed c = true ∧ Client.ConnClosed c = true
        | None => events w' = events w ++ [EvInstall userID client]
        end.
Proof.
  intros Hinv client.
  destruct (clients (hub w) !! userID) as [old|] eqn:Hold.
  - destruct (proj1 Hinv _ _ Hold) as (oc & Hoc & Hu & Hopen).
    assert (old < length (objects (hub w)))%nat as Hlt by (by eapply lookup_lt_Some).
    rewrite (Register_evict userID conn w old oc Hold Hoc Hopen).
    eexists. split; [reflexivity|].
    assert (hub_inv (emit (EvInstall userID client)
             (set_hub
                (mkHub (<[userID := client]> (clients (hub w)))
                   (<[old := Client.close_conn (Client.close_send oc)]>
                      (objects (hub w) ++ [Client.mk userID conn [] false false])))
                (emit (EvCloseConn old) (emit (EvCloseSend old) w))))) as Hinv'
      by (by apply hub_inv_Register_evict).
    split; [exact Hinv'|]. split; [by apply hub_inv_at_most_one|].
    simpl. split; [done|]. split.
    { rewrite list_lookup_insert_ne by (subst client; lia).
      by apply list_lookup_middle. }
    split; [by rewrite <- !app_assoc|]. split; [subst client; lia|].
    eexists. split; [apply list_lookup_insert_eq; rewrite length_app; lia|done].
  - rewrite (Register_fresh userID conn w Hold).
    eexists. split; [reflexivity|].
    assert (hub_inv (emit (EvInstall userID client)
             (set_hub (mkHub (<[userID := client]> (clients (hub w)))
                         (objects (hub w) ++ [Client.mk userID conn [] false false]))
                w))) as Hinv' by (by apply hub_inv_Register_fresh).
    split; [exact Hinv'|]. split; [by apply hub_inv_at_most_one|].
    simpl. split; [done|]. split; [by apply list_lookup_middle|done].
Qed.

(** [Unregister] keeps the hub sound as well: the client of the user, if
    any, is closed and taken out of the map. *)
Lemma Unregister_run userID w :
  hub_inv w →
  ∃ w', Hub.Unregister userID w = Some (tt, w') ∧ hub_inv w'
      ∧ clients (hub w') !! userID = None
      ∧ match clients (hub w) !! userID with
        | Some client =>
            events w' = events w ++
              [EvCloseSend client; EvCloseConn client; EvDelete userID]
        | None => w' = w
        end.
Proof.
  intros Hinv. unfold Hub.Unregister, bind, Hub.clients_get.
  destruct (clients (hub w) !! userID) as [a|] eqn:Ha; [|by exists w].
  destruct Hinv as [Hopen Hinst].
  destruct (Hopen _ _ Ha) as (c & Hc & Hu & Hcl).
  assert (a < length (objects (hub w)))%nat as Hlt by (by eapply lookup_lt_Some).
  unfold Hub.close_Send. rewrite Hc, Hcl. simpl.
  unfold Hub.Conn_Close. simpl. rewrite list_lookup_insert_eq by done. simpl.
  eexists. split; [reflexivity|]. simpl. rewrite list_insert_insert_eq.
  split; [|split; [apply lookup_delete_eq|by rewrite <- !app_assoc]].
  split; simpl.
  - intros u b Hb. simpl in *. destruct (decide (userID = u)) as [<-|Hne].
    + by rewrite lookup_delete_eq in Hb.
    + rewrite lookup_delete_ne in Hb by done.
      destruct (Hopen u b Hb) as (cb & Hcb & Hub & Hclb). exists cb.
      split; [|done]. rewrite list_lookup_insert_ne; [done|].
      intros <-. congruence.
  - intros b cb Hb Hopen_b. simpl in *. destruct (decide (a = b)) as [<-|Hne].
    + rewrite list_lookup_insert_eq in Hb by done. by simplify_eq.
    + rewrite list_lookup_insert_ne in Hb by done.
      pose proof (Hinst b cb Hb Hopen_b) as Hin.
      rewrite lookup_delete_ne; [done|]. intros ->. congruence.
Qed.

Lemma hub_inv_world_connected : hub_inv world_connected.
Proof.
  split.
  - intros u a H. simpl in H. apply lookup_singleton_Some in H as [<- <-].
    by eexists.
  - intros a c H Hopen. simpl in H.
    apply list_lookup_singleton_Some in H as [-> <-]. by vm_compute.
Qed.

Lemma Register_replaces_prior_client_witness :
  hub_inv world_connected
  ∧ clients (hub world_connected) !! 2 = Some 0%nat
  ∧ ∃ w', Hub.Register 2 8 world_connected = Some (1%nat, w')
        ∧ hub_inv w'
        ∧ clients (hub w') !! 2 = Some 1%nat
        ∧ events w' = [EvCloseSend 0; EvCloseConn 0; EvInstall 2 1]
        ∧ objects (hub w') !! 0%nat = Some (Client.mk 2 7 [] true true)
        ∧ objects (hub w') !! 1%nat = Some (Client.mk 2 8 [] false false).
Proof.
  split; [exact hub_inv_world_connected|]. split; [by vm_compute|].
  destruct (Register_replaces_prior_client 2 8 world_connected
              hub_inv_world_connected)
    as (w' & Hrun & Hinv' & _ & _ & _ & _).
  exists w'. split; [exact Hrun|]. split; [exact Hinv'|].
  assert (Some (1%nat, w') = Hub.Register 2 8 world_connected) as Hw by (by symmetry).
  vm_compute in Hw. injection Hw as ->. repeat split; by vm_compute.
Defined.

(** ** Ordering by server time *)

#[global] Instance server_time_asc_total : Total server_time_asc.
Proof. intros a b. unfold server_time_asc. lia. Qed.
#[global] Instance server_time_asc_trans : Transitive server_time_asc.
Proof. intros a b c. unfold server_time_asc. lia. Qed.
#[global] Instance server_time_desc_total : Total server_time_desc.
Proof. intros a b. unfold server_time_desc. lia. Qed.
#[global] Instance server_time_desc_trans : Transitive server_time_desc.
Proof. intros a b c. unfold server_time_desc. lia. Qed.

Lemma sql_limit_nonneg {A} n (l : list A) : 0 ≤ n → sql_limit n l = take (Z.to_nat n) l.
Proof. intros. unfold sql_limit. by rewrite decide_True. Qed.

(** ** C7: the history query *)

#[global] Instance history_wanted_dec req m : Decision (history_wanted req m).
Proof. unfold history_wanted. apply _. Defined.

Lemma history_where_wanted req m :
  GetMessagesRequest.SessionType req = SessionTypeSingle
  ∨ GetMessagesRequest.SessionType req = SessionTypeGroup →
  MessageRepository.history_where req m ↔ history_wanted req m.
Proof.
  unfold MessageRepository.history_where, history_wanted,
    SessionTypeSingle, SessionTypeGroup.
  intros Htype. repeat case_decide; intuition lia.
Qed.

Lemma IMServer_GetMessages_exec req w :
  faults w = [] →
  IMServer.GetMessages req w =
    Some (Ok (MessageRepository.toModel <$>
                sql_limit (page_size req)
                  (order_by_server_time_desc
                     (filter (MessageRepository.history_where req)
                        (im_messages (db w))))), w).
Proof.
  intros Hf. unfold IMServer.GetMessages, MessageRepository.GetMessages, page_size.
  step (statement_ok w Hf).
  destruct (decide (GetMessagesRequest.Limit req = 0)) as [E|E]; simpl.
  - done.
  - by rewrite decide_False.
Qed.

(** C7: with a working store, the answer to a single-chat or group history
    request with a limit that is not negative is a page cut from the front
    of a list [ordered] that holds exactly the wanted rows, in descending
    order of server time; the page is made of the first [limit] of them,
    the first 20 when the request says 0. *)
Theorem GetMessages_history req w :
  faults w = [] →
  GetMessagesRequest.SessionType req = SessionTypeSingle
  ∨ GetMessagesRequest.SessionType req = SessionTypeGroup →
  0 ≤ GetMessagesRequest.Limit req →
  ∃ ordered,
    ordered ≡ₚ filter (history_wanted req) (im_messages (db w))
    ∧ StronglySorted server_time_desc ordered
    ∧ IMServer.GetMessages req w =
        Some (Ok (MessageRepository.toModel <$>
                    take (Z.to_nat (if decide (GetMessagesRequest.Limit req = 0)
                                    then 20 else GetMessagesRequest.Limit req))
                      ordered), w).
Proof.
  intros Hf Htype Hlimit.
  exists (order_by_server_time_desc
            (filter (MessageRepository.history_where req) (im_messages (db w)))).
  split; [|split].
  - unfold order_by_server_time_desc. rewrite merge_sort_Permutation.
    erewrite list_filter_iff; [done|]. intros m. by apply history_where_wanted.
  - apply (StronglySorted_merge_sort _).
  - rewrite IMServer_GetMessages_exec by done.
    rewrite sql_limit_nonneg; [done|]. unfold page_size. case_decide; lia.
Qed.

Lemma GetMessages_history_witness :
  faults world_history = []
  ∧ GetMessagesRequest.SessionType history_req = SessionTypeSingle
  ∧ 0 ≤ GetMessagesRequest.Limit history_req
  ∧ ∃ ordered,
      ordered ≡ₚ filter (history_wanted history_req) (im_messages (db world_history))
      ∧ StronglySorted server_time_desc ordered
      ∧ IMServer.GetMessages history_req world_history =
          Some (Ok (MessageRepository.toModel <$> take 20 ordered), world_history).
Proof.
  split; [reflexivity|]. split; [reflexivity|]. split; [by vm_compute|].
  exact (GetMessages_history history_req world_history eq_refl
           (or_introl eq_refl) (Z.le_refl 0)).
Defined.

Example GetMessages_history_run :
  (Message.MsgID <$>
     match IMServer.GetMessages history_req world_history with
     | Some (Ok l, _) => l
     | _ => []
     end) = ["m4"; "m2"; "m1"].
Proof. by vm_compute. Qed.

(** ** C6: the offline drain *)



Lemma filter_none {A} (P : A → Prop) `{∀ x, Decision (P x)} (l : list A) :
  (∀ x, x ∈ l → ¬ P x) → filter P l = [].
Proof.
  induction l as [|a l IH]; intros Hall; [done|].
  rewrite filter_cons_False by (apply Hall; by left).
  apply IH. intros x Hx. apply Hall. by right.
Qed.



Lemma GetUndeliveredMessages_exec userID limit w w0 :
  statement w = Some (true, w0) →
  MessageRepository.GetUndeliveredMessages userID limit w =
    Some (Ok (MessageRepository.toModel <$>
                sql_limit limit
                  (order_by_server_time_asc
                     (filter (MessageRepository.undelivered_where userID)
                        (im_messages (db w))))), w0).
Proof.
  intros Hs. unfold MessageRepository.GetUndeliveredMessages.
  step Hs.
  destruct (statement_total w) as (ok & w0' & Hs' & _ & _ & Hd & _).
  rewrite Hs in Hs'. simplify_eq. by rewrite Hd.
Qed.








(** The same drain, run: [m3] goes out and is marked delivered, its sender
    (not connected here) is not reached, and the push of [m4] finds the
    queue full; [m4] stays as it was. *)
Example pushOfflineMessages_drain_run :
  ∃ w', IMServer.pushOfflineMessages 2 world_drain = Some (tt, w')
      ∧ chat_pushes 2 (events w') =
          [(WSMessage.mk "chat_msg" "m3"
              (DataPush (WSPushMessage.mk "m3" 3 "hey" 1 "" 2 2600 2600)) 2600,
            true);
           (WSMessage.mk "chat_msg" "m4"
              (DataPush (WSPushMessage.mk "m4" 1 "bye" 1 "" 2 2900 3000)) 3000,
            false)]
      ∧ status_of "m3" w' = Some 3
      ∧ status_of "m4" w' = Some 2
      ∧ length (queue_of 2 w') = SendCap.
Proof.
  eexists. split; [by vm_compute|]. repeat split; by vm_compute.
Qed.


(** * Further properties of the modelled code *)

(** ** Saving a message *)

Lemma rows_of_nil_iff msgID w :
  rows_of msgID w = [] ↔ msgID ∉ DBMessage.MsgID <$> im_messages (db w).
Proof.
  unfold rows_of. split.
  - intros Hnil Hin. apply list_elem_of_fmap in Hin as (m & -> & Hm).
    by apply (filter_nil_not_elem_of _ _ m Hnil).
  - intros Hnotin. apply filter_none. intros m Hm Heq.
    apply Hnotin. rewrite <- Heq. by apply list_elem_of_fmap_2.
Qed.

Lemma Save_exec msg w :
  faults w = [] →
  MessageRepository.Save msg w =
    Some (if decide (Message.MsgID msg ∈ DBMessage.MsgID <$> im_messages (db w))
          then (Some ErrDuplicateKey, w)
          else (None,
                set_messages
                  (im_messages (db w)
                   ++ [MessageRepository.inserted
                         (MessageRepository.next_id (im_messages (db w)))
                         (clock w) msg]) w)).
Proof.
  intros Hf. unfold MessageRepository.Save. unfold bind at 1. unfold UnixMilli.
  step (statement_ok w Hf). by case_decide.
Qed.

(** X1: saving a message whose id is already stored fails with the
    duplicate-key error and leaves the world as it was; any other message is
    appended, and then the table still honours the unique message id and
    the rows of all other ids are as before. *)
Theorem Save_unique_msg_id msg w :
  faults w = [] → uk_msg_id w →
  (rows_of (Message.MsgID msg) w ≠ [] →
     MessageRepository.Save msg w = Some (Some ErrDuplicateKey, w))
  ∧ (rows_of (Message.MsgID msg) w = [] →
     ∃ w', MessageRepository.Save msg w = Some (None, w')
         ∧ uk_msg_id w'
         ∧ length (im_messages (db w')) = S (length (im_messages (db w)))
         ∧ ∀ other, other ≠ Message.MsgID msg → rows_of other w' = rows_of other w).
Proof.
  intros Hf Huk. rewrite Save_exec by done. split.
  - intros Hrows. rewrite decide_True; [done|].
    destruct (decide (Message.MsgID msg ∈ DBMessage.MsgID <$> im_messages (db w)));
      [done|]. exfalso. by apply Hrows, rows_of_nil_iff.
  - intros Hrows. apply rows_of_nil_iff in Hrows.
    rewrite decide_False by done. eexists. split; [reflexivity|].
    split; [|split].
    + unfold uk_msg_id. simpl. rewrite fmap_app. apply NoDup_app.
      split; [done|]. split; [|apply NoDup_singleton].
      intros x Hx Hin. simpl in Hin. apply list_elem_of_singleton in Hin.
      by subst x.
    + simpl. rewrite length_app. simpl. lia.
    + intros other Hne. unfold rows_of. simpl. rewrite filter_app.
      rewrite (filter_cons_False _ _ []) by (simpl; congruence).
      by rewrite app_nil_r.
Qed.

Lemma Save_unique_msg_id_witness :
  faults world_sent = [] ∧ uk_msg_id world_sent
  ∧ MessageRepository.Save msg_m1 world_sent = Some (Some ErrDuplicateKey, world_sent)
  ∧ ∃ w', MessageRepository.Save msg_m1 world0 = Some (None, w')
        ∧ uk_msg_id w'.
Proof.
  assert (uk_msg_id world_sent) as Huk
    by (unfold uk_msg_id; simpl; by apply (bool_decide_unpack _)).
  assert (uk_msg_id world0) as Huk0 by (unfold uk_msg_id; simpl; constructor).
  split; [reflexivity|]. split; [exact Huk|]. split.
  - apply (proj1 (Save_unique_msg_id msg_m1 world_sent eq_refl Huk)).
    by vm_compute.
  - destruct (proj2 (Save_unique_msg_id msg_m1 world0 eq_refl Huk0) eq_refl)
      as (w' & Hrun & Huk' & _).
    by exists w'.
Defined.

(** X2: a message that was saved reads back by its id as it was handed
    in, but for the column defaults: a zero type or status comes back as
    1.  A message of nonzero type and status comes back unchanged. *)
Theorem Save_then_GetByMsgID msg w w' :
  faults w = [] →
  MessageRepository.Save msg w = Some (None, w') →
  MessageRepository.GetByMsgID (Message.MsgID msg) w' = Some (Ok (as_stored msg), w')
  ∧ (Message.MsgType msg ≠ 0 → Message.Status msg ≠ 0 → as_stored msg = msg).
Proof.
  intros Hf Hsave. rewrite Save_exec in Hsave by done.
  split.
  - case_decide as Hin; [by inversion Hsave|]. inversion Hsave; subst w'; clear Hsave.
    unfold MessageRepository.GetByMsgID.
    assert (faults (set_messages
                      (im_messages (db w)
                       ++ [MessageRepository.inserted
                             (MessageRepository.next_id (im_messages (db w)))
                             (clock w) msg]) w) = []) as Hf' by done.
    step (statement_ok _ Hf'). simpl. rewrite filter_app.
    apply rows_of_nil_iff in Hin. unfold rows_of in Hin. rewrite Hin. simpl.
    by rewrite filter_cons_True by done.
  - intros Htype Hstatus. destruct msg.
    unfold as_stored, MessageRepository.toModel, MessageRepository.inserted,
      column_default.
    simpl in *. repeat case_decide; congruence.
Qed.

(** A message of type 0, as a client may send it. *)
Lemma Save_then_GetByMsgID_witness :
  ∃ w', MessageRepository.Save
          (Message.mk "m7" 1 2 0 "hi" 0 MsgStatusSent "" 1000 2000 0 0) world_sent
        = Some (None, w')
      ∧ MessageRepository.GetByMsgID "m7" w'
        = Some (Ok (Message.mk "m7" 1 2 0 "hi" 1 MsgStatusSent "" 1000 2000 0 0), w').
Proof.
  eexists. split; [reflexivity|].
  refine (proj1 (Save_then_GetByMsgID
                   (Message.mk "m7" 1 2 0 "hi" 0 MsgStatusSent "" 1000 2000 0 0)
                   world_sent _ eq_refl eq_refl)).
Defined.

(** ** Marking messages read *)

Lemma updates_read_twice t m :
  MessageRepository.updates MsgStatusRead t (MessageRepository.updates MsgStatusRead t m)
  = MessageRepository.updates MsgStatusRead t m.
Proof. by destruct m. Qed.

(** The rows of one id after a run of read updates over a list of ids. *)
Lemma rows_after_read_updates t msgIDs msgID rows :
  filter (λ m, DBMessage.MsgID m = msgID)
    (foldl (λ rows i, MessageRepository.update_where i MsgStatusRead t rows)
       rows msgIDs)
  = if decide (msgID ∈ msgIDs) then
      MessageRepository.updates MsgStatusRead t
        <$> filter (λ m, DBMessage.MsgID m = msgID) rows
    else filter (λ m, DBMessage.MsgID m = msgID) rows.
Proof.
  revert rows. induction msgIDs as [|i msgIDs IH]; intros rows; [done|].
  simpl. rewrite IH. destruct (decide (i = msgID)) as [->|Hne].
  - rewrite update_where_filter_eq. rewrite (decide_True (P := msgID ∈ msgID :: msgIDs))
      by (by left).
    case_decide; [|done]. rewrite <- list_fmap_compose.
    apply list_fmap_ext. intros ? m _. apply updates_read_twice.
  - rewrite update_where_filter_ne by done.
    destruct (decide (msgID ∈ msgIDs)) as [Hin|Hnotin].
    + rewrite decide_True; [done|by right].
    + rewrite decide_False; [done|]. intros Hin.
      apply elem_of_cons in Hin as [?|?]; congruence.
Qed.

Lemma MarkAsRead_loop_run readTime msgIDs w :
  hub_inv w → faults w = [] →
  ∃ w', IMServer.MarkAsRead_loop readTime msgIDs w = Some (tt, w')
      ∧ hub_inv w' ∧ faults w' = [] ∧ rm w' = rm w ∧ clock w' = clock w
      ∧ im_sessions (db w') = im_sessions (db w)
      ∧ im_servers (db w') = im_servers (db w)
      ∧ im_user_routes (db w') = im_user_routes (db w)
      ∧ im_messages (db w') =
          foldl (λ rows i, MessageRepository.update_where i MsgStatusRead readTime rows)
            (im_messages (db w)) msgIDs.
Proof.
  revert w. induction msgIDs as [|msgID msgIDs IH]; intros w Hinv Hf.
  - by exists w.
  - simpl IMServer.MarkAsRead_loop.
    step (UpdateStatus_exec msgID MsgStatusRead readTime w Hf).
    set (w1 := set_messages _ w).
    assert (hub_inv w1) as Hinv1 by done.
    destruct (GetByMsgID_run msgID w1) as (r & w2 & Hg & Hh2 & Hd2 & Hr2 & Hc2 & _ & Hf2).
    destruct (Hf2 Hf) as [Hf2' _]. step Hg.
    assert (hub_inv w2) as Hinv2 by (by eapply hub_inv_same_hub).
    assert (∃ w3, (match r with
                   | Ok msg =>
                       do! IMServer.notifyStatusUpdate (Message.FromUserID msg) msgID
                             MsgStatusRead readTime in
                       IMServer.MarkAsRead_loop readTime msgIDs
                   | Fail _ => IMServer.MarkAsRead_loop readTime msgIDs
                   end) w2 = IMServer.MarkAsRead_loop readTime msgIDs w3
                 ∧ hub_inv w3 ∧ faults w3 = [] ∧ rm w3 = rm w2
                 ∧ clock w3 = clock w2 ∧ db w3 = db w2)
      as (w3 & -> & Hinv3 & Hf3 & Hr3 & Hc3 & Hd3).
    { destruct r as [msg|e]; [|by exists w2].
      destruct (notifyStatusUpdate_run (Message.FromUserID msg) msgID MsgStatusRead
                  readTime w2 Hinv2) as (w3 & Hn & Hinv3 & Hd3 & Hr3 & Hf3 & Hc3 & _).
      exists w3. step Hn. repeat (split; [done || congruence|]). done. }
    destruct (IH w3 Hinv3 Hf3) as (w' & Hrun & Hinv' & Hf' & Hr' & Hc' & Hs' & Hsv' & Hur' & Hm').
    exists w'. split; [done|]. split; [done|]. split; [done|].
    rewrite Hr', Hc', Hs', Hsv', Hur', Hm', Hr3, Hc3, Hd3, Hr2, Hc2, Hd2.
    by subst w1.
Qed.

(** X3: with a sound hub and a working store, [MarkAsRead] returns [nil]
    and sets status read and the read time, the time of the call, on the
    rows of every listed id, leaving their delivery time; the rows of
    messages that are not listed stay as they are, and so does the whole
    session table: no unread count is reset. *)
Theorem MarkAsRead_effect userID msgIDs w :
  hub_inv w → faults w = [] →
  ∃ w', IMServer.MarkAsRead userID msgIDs w = Some (None, w')
      ∧ im_sessions (db w') = im_sessions (db w)
      ∧ (∀ msgID, msgID ∉ msgIDs → rows_of msgID w' = rows_of msgID w)
      ∧ (∀ msgID, msgID ∈ msgIDs →
           rows_of msgID w' =
             MessageRepository.updates MsgStatusRead (clock w) <$> rows_of msgID w)
      ∧ (∀ msgID, msgID ∈ msgIDs → is_Some (status_of msgID w) →
           status_of msgID w' = Some MsgStatusRead
           ∧ read_time_of msgID w' = Some (clock w)
           ∧ delivered_time_of msgID w' = delivered_time_of msgID w).
Proof.
  intros Hinv Hf. unfold IMServer.MarkAsRead. unfold bind at 1. unfold UnixMilli.
  destruct (MarkAsRead_loop_run (clock w) msgIDs w Hinv Hf)
    as (w' & Hrun & _ & _ & _ & _ & Hs & _ & _ & Hm).
  exists w'. step Hrun. split; [done|]. split; [done|].
  assert (∀ msgID, rows_of msgID w' =
            if decide (msgID ∈ msgIDs) then
              MessageRepository.updates MsgStatusRead (clock w) <$> rows_of msgID w
            else rows_of msgID w) as Hrows.
  { intros msgID. unfold rows_of. rewrite Hm. apply rows_after_read_updates. }
  split; [|split].
  - intros msgID Hnotin. rewrite Hrows. by rewrite decide_False.
  - intros msgID Hin. rewrite Hrows. by rewrite decide_True.
  - intros msgID Hin Hex. unfold status_of, read_time_of, delivered_time_of in *.
    rewrite Hrows, decide_True by done.
    destruct (rows_of msgID w) as [|m l]; [by destruct Hex|]. simpl.
    by destruct m.
Qed.

Lemma MarkAsRead_effect_witness :
  hub_inv world_history ∧ faults world_history = []
  ∧ ∃ w', IMServer.MarkAsRead 1 ["m2"; "m9"] world_history = Some (None, w')
        ∧ status_of "m2" w' = Some MsgStatusRead
        ∧ read_time_of "m2" w' = Some 5000
        ∧ delivered_time_of "m2" w' = Some 2550
        ∧ rows_of "m4" w' = rows_of "m4" world_history
        ∧ im_sessions (db w') = im_sessions (db world_history).
Proof.
  split; [exact hub_inv_world0|]. split; [reflexivity|].
  destruct (MarkAsRead_effect 1 ["m2"; "m9"] world_history hub_inv_world0 eq_refl)
    as (w' & Hrun & Hs & Hother & _ & Hlisted).
  exists w'. split; [exact Hrun|].
  destruct (Hlisted "m2") as (H1 & H2 & H3); [by left|by eexists|].
  split; [exact H1|]. split; [exact H2|]. split; [exact H3|].
  split; [|exact Hs]. apply Hother. by apply (bool_decide_unpack _).
Defined.

(** ** Sessions *)

(** One upsert, looked at as a row: the row under the key carries the last
    message of the upsert, the key discipline is kept, other rows stay. *)
Lemma UpdateSession_row session w :
  faults w = [] → sessions_keyed w →
  let key := (Session.UserID session, Session.TargetID session,
              column_default 1 (Session.SessionType session)) in
  ∃ w' row, SessionRepository.UpdateSession session w = Some (None, w')
      ∧ faults w' = [] ∧ sessions_keyed w'
      ∧ im_sessions (db w') !! key = Some row
      ∧ DBSession.LastMsgContent row = Session.LastMsgContent session
      ∧ DBSession.LastMsgTime row = Session.LastMsgTime session
      ∧ ∀ k, k ≠ key → im_sessions (db w') !! k = im_sessions (db w) !! k.
Proof.
  intros Hf Hkeyed key. unfold SessionRepository.UpdateSession.
  step (statement_ok w Hf). subst key. simpl.
  destruct (im_sessions (db w) !! _) as [old|] eqn:E; simpl;
    (eexists _, _; split; [reflexivity|]); simpl;
    (split; [done|]); (split; [|rewrite lookup_insert_eq;
       split; [reflexivity|]; split; [done|]; split; [done|];
       intros k Hk; by rewrite lookup_insert_ne]).
  - intros k row Hrow. simpl in Hrow. destruct (decide (k = (Session.UserID session,
      Session.TargetID session, column_default 1 (Session.SessionType session))))
      as [->|Hne].
    + rewrite lookup_insert_eq in Hrow. simplify_eq. simpl.
      by apply Hkeyed in E.
    + rewrite lookup_insert_ne in Hrow by done. by apply Hkeyed.
  - intros k row Hrow. simpl in Hrow. destruct (decide (k = (Session.UserID session,
      Session.TargetID session, column_default 1 (Session.SessionType session))))
      as [->|Hne].
    + rewrite lookup_insert_eq in Hrow. by simplify_eq.
    + rewrite lookup_insert_ne in Hrow by done. by apply Hkeyed.
Qed.

Lemma ClearUnread_exec userID targetID sessionType w :
  faults w = [] →
  ∃ w', SessionRepository.ClearUnread userID targetID sessionType w = Some (None, w')
      ∧ faults w' = []
      ∧ unread_of userID targetID sessionType w'
        = (λ _, 0) <$> unread_of userID targetID sessionType w
      ∧ (unread_of userID targetID sessionType w = None → w' = w)
      ∧ ∀ k, k ≠ (userID, targetID, sessionType) →
          im_sessions (db w') !! k = im_sessions (db w) !! k.
Proof.
  intros Hf. unfold SessionRepository.ClearUnread. step (statement_ok w Hf).
  eexists. split; [reflexivity|]. split; [done|]. unfold unread_of. simpl.
  split; [|split].
  - rewrite lookup_alter_eq. by destruct (im_sessions (db w) !! _).
  - intros Hnone. rewrite alter_id.
    + by destruct w as [? ? ? ? [] ? ? ?].
    + intros row Hrow. by rewrite Hrow in Hnone.
  - intros k Hk. by rewrite lookup_alter_ne.
Qed.

(** X4: [ClearUnread] sets the unread count of the one session to 0 and
    touches no other row; where the session has no row it changes nothing.
    A message that arrives after the clearing makes the count 1. *)
Theorem ClearUnread_then_message msg w :
  faults w = [] →
  Message.FromUserID msg ≠ Message.ToUserID msg →
  ∃ w1 w2,
    SessionRepository.ClearUnread (Message.ToUserID msg) (Message.FromUserID msg)
      SessionTypeSingle w = Some (None, w1)
    ∧ IMServer.updateSession msg w1 = Some (tt, w2)
    ∧ (∀ k, k ≠ (Message.ToUserID msg, Message.FromUserID msg, SessionTypeSingle) →
         im_sessions (db w1) !! k = im_sessions (db w) !! k)
    ∧ (unread_of (Message.ToUserID msg) (Message.FromUserID msg) SessionTypeSingle w
       = None → w1 = w)
    ∧ (is_Some (unread_of (Message.ToUserID msg) (Message.FromUserID msg)
                  SessionTypeSingle w) →
       unread_of (Message.ToUserID msg) (Message.FromUserID msg) SessionTypeSingle w1
       = Some 0
       ∧ unread_of (Message.ToUserID msg) (Message.FromUserID msg) SessionTypeSingle w2
         = Some 1).
Proof.
  intros Hf Hne.
  destruct (ClearUnread_exec (Message.ToUserID msg) (Message.FromUserID msg)
              SessionTypeSingle w Hf) as (w1 & Hclear & Hf1 & Hzero & Hnone & Hother).
  exists w1.
  destruct (UpdateSession_exec
              (Session.mk (Message.FromUserID msg) (Message.ToUserID msg)
                 SessionTypeSingle (Message.Content msg) (Message.ServerTime msg) 0)
              w1 Hf1) as (w1' & H1 & Hf1' & _ & _ & Hother1).
  destruct (UpdateSession_exec
              (Session.mk (Message.ToUserID msg) (Message.FromUserID msg)
                 SessionTypeSingle (Message.Content msg) (Message.ServerTime msg) 1)
              w1' Hf1') as (w2 & H2 & _ & _ & Hunread & _).
  exists w2. split; [done|]. split.
  { unfold IMServer.updateSession. step H1. by step H2. }
  split; [done|]. split; [done|].
  intros [n Hn]. rewrite Hn in Hzero. split; [done|].
  simpl in Hunread, Hother1. change (column_default 1 SessionTypeSingle) with 1 in *.
  change SessionTypeSingle with 1 in *.
  rewrite Hunread. unfold unread_of in *. rewrite Hother1 by congruence.
  rewrite Hzero. done.
Qed.

Lemma ClearUnread_then_message_witness :
  faults world_sessions = []
  ∧ unread_of 2 1 SessionTypeSingle world_sessions = Some 3
  ∧ ∃ w1 w2,
      SessionRepository.ClearUnread 2 1 SessionTypeSingle world_sessions = Some (None, w1)
      ∧ IMServer.updateSession msg_m1 w1 = Some (tt, w2)
      ∧ unread_of 2 1 SessionTypeSingle w1 = Some 0
      ∧ unread_of 2 1 SessionTypeSingle w2 = Some 1.
Proof.
  split; [reflexivity|]. split; [by vm_compute|].
  assert (Message.FromUserID msg_m1 ≠ Message.ToUserID msg_m1) as Hne by (simpl; lia).
  destruct (ClearUnread_then_message msg_m1 world_sessions eq_refl Hne)
    as (w1 & w2 & Hclear & Hupd & _ & _ & Hcount).
  exists w1, w2. split; [exact Hclear|]. split; [exact Hupd|].
  apply Hcount. exists 3. by vm_compute.
Defined.

Lemma updateSession_rows msg w :
  faults w = [] → sessions_keyed w →
  ∃ w' sender recipient,
    IMServer.updateSession msg w = Some (tt, w')
    ∧ faults w' = [] ∧ sessions_keyed w'
    ∧ im_sessions (db w') !! (Message.FromUserID msg, Message.ToUserID msg, 1)
      = Some sender
    ∧ im_sessions (db w') !! (Message.ToUserID msg, Message.FromUserID msg, 1)
      = Some recipient
    ∧ DBSession.LastMsgContent sender = Message.Content msg
    ∧ DBSession.LastMsgTime sender = Message.ServerTime msg
    ∧ DBSession.LastMsgContent recipient = Message.Content msg
    ∧ DBSession.LastMsgTime recipient = Message.ServerTime msg.
Proof.
  intros Hf Hkeyed. unfold IMServer.updateSession.
  destruct (UpdateSession_row
              (Session.mk (Message.FromUserID msg) (Message.ToUserID msg)
                 SessionTypeSingle (Message.Content msg) (Message.ServerTime msg) 0)
              w Hf Hkeyed)
    as (w1 & r1 & H1 & Hf1 & Hk1 & Hrow1 & Hc1 & Ht1 & _).
  destruct (UpdateSession_row
              (Session.mk (Message.ToUserID msg) (Message.FromUserID msg)
                 SessionTypeSingle (Message.Content msg) (Message.ServerTime msg) 1)
              w1 Hf1 Hk1)
    as (w2 & r2 & H2 & Hf2 & Hk2 & Hrow2 & Hc2 & Ht2 & Hother2).
  simpl in *. change (column_default 1 SessionTypeSingle) with 1 in *.
  step H1. step H2.
  destruct (decide (Message.FromUserID msg = Message.ToUserID msg)) as [Heq|Hne].
  - exists w2, r2, r2. rewrite Heq in *. by repeat (split; [done|]).
  - exists w2, r1, r2. split; [done|]. split; [done|]. split; [done|].
    split; [rewrite Hother2 by congruence; done|]. by repeat (split; [done|]).
Qed.

Lemma GetUserSessions_exec userID w :
  faults w = [] →
  SessionRepository.GetUserSessions userID w =
    Some (Ok (SessionRepository.toSession <$>
                merge_sort SessionRepository.last_msg_time_desc
                  ((filter (λ kv, kv.1.1.1 = userID)
                      (map_to_list (im_sessions (db w)))).*2)), w).
Proof.
  intros Hf. unfold SessionRepository.GetUserSessions.
  by step (statement_ok w Hf).
Qed.

#[global] Instance last_msg_time_desc_total :
  Total SessionRepository.last_msg_time_desc.
Proof. intros a b. unfold SessionRepository.last_msg_time_desc. lia. Qed.
#[global] Instance last_msg_time_desc_trans :
  Transitive SessionRepository.last_msg_time_desc.
Proof. intros a b c. unfold SessionRepository.last_msg_time_desc. lia. Qed.

(** X5: after the session upsert of a message the session list of the
    sender, and that of the recipient, holds the conversation with the
    other side, carrying the content and time of that message.  The list
    is made of rows of the asking user only, the most recent conversation
    first. *)
Theorem GetUserSessions_after_message msg w :
  faults w = [] → sessions_keyed w →
  ∃ w' mine theirs,
    IMServer.updateSession msg w = Some (tt, w')
    ∧ IMServer.GetSessions (Message.FromUserID msg) w'
      = Some (Ok (SessionRepository.toSession <$> mine), w')
    ∧ IMServer.GetSessions (Message.ToUserID msg) w'
      = Some (Ok (SessionRepository.toSession <$> theirs), w')
    ∧ StronglySorted SessionRepository.last_msg_time_desc mine
    ∧ StronglySorted SessionRepository.last_msg_time_desc theirs
    ∧ (∀ r, r ∈ mine → DBSession.UserID r = Message.FromUserID msg)
    ∧ (∀ r, r ∈ theirs → DBSession.UserID r = Message.ToUserID msg)
    ∧ (∃ r, r ∈ mine
          ∧ DBSession.TargetID r = Message.ToUserID msg
          ∧ DBSession.SessionType r = SessionTypeSingle
          ∧ DBSession.LastMsgContent r = Message.Content msg
          ∧ DBSession.LastMsgTime r = Message.ServerTime msg)
    ∧ (∃ r, r ∈ theirs
          ∧ DBSession.TargetID r = Message.FromUserID msg
          ∧ DBSession.SessionType r = SessionTypeSingle
          ∧ DBSession.LastMsgContent r = Message.Content msg
          ∧ DBSession.LastMsgTime r = Message.ServerTime msg).
Proof.
  intros Hf Hkeyed.
  destruct (updateSession_rows msg w Hf Hkeyed)
    as (w' & sender & recipient & Hrun & Hf' & Hk' & Hs & Hr & Hsc & Hst & Hrc & Hrt).
  assert (∀ userID r,
            r ∈ merge_sort SessionRepository.last_msg_time_desc
                  ((filter (λ kv, kv.1.1.1 = userID)
                      (map_to_list (im_sessions (db w')))).*2)
            ↔ ∃ k, im_sessions (db w') !! k = Some r ∧ k.1.1 = userID) as Hmem.
  { intros userID r. rewrite merge_sort_Permutation.
    rewrite list_elem_of_fmap. split.
    - intros ([k r'] & -> & Hin). apply list_elem_of_filter in Hin as [Hu Hin].
      apply elem_of_map_to_list in Hin. by exists k.
    - intros (k & Hrow & Hu). exists (k, r). split; [done|].
      apply list_elem_of_filter. split; [done|]. by apply elem_of_map_to_list. }
  exists w',
    (merge_sort SessionRepository.last_msg_time_desc
       ((filter (λ kv, kv.1.1.1 = Message.FromUserID msg)
           (map_to_list (im_sessions (db w')))).*2)),
    (merge_sort SessionRepository.last_msg_time_desc
       ((filter (λ kv, kv.1.1.1 = Message.ToUserID msg)
           (map_to_list (im_sessions (db w')))).*2)).
  split; [done|].
  unfold IMServer.GetSessions. rewrite !GetUserSessions_exec by done.
  split; [reflexivity|]. split; [reflexivity|].
  split; [apply (StronglySorted_merge_sort _)|].
  split; [apply (StronglySorted_merge_sort _)|].
  split; [|split; [|split]].
  - intros r (k & Hrow & Hu)%Hmem. apply Hk' in Hrow. by subst k.
  - intros r (k & Hrow & Hu)%Hmem. apply Hk' in Hrow. by subst k.
  - exists sender. split; [apply Hmem; by eexists|].
    pose proof (Hk' _ _ Hs) as Hkey. by simplify_eq.
  - exists recipient. split; [apply Hmem; by eexists|].
    pose proof (Hk' _ _ Hr) as Hkey. by simplify_eq.
Qed.

Lemma sessions_keyed_world_sessions : sessions_keyed world_sessions.
Proof.
  intros k row Hrow. simpl in Hrow.
  apply lookup_insert_Some in Hrow as [[<- <-]|[_ Hrow]]; [done|].
  apply lookup_insert_Some in Hrow as [[<- <-]|[_ Hrow]]; [done|].
  apply lookup_singleton_Some in Hrow as [<- <-]. done.
Qed.

Lemma GetUserSessions_after_message_witness :
  faults world_sessions = [] ∧ sessions_keyed world_sessions
  ∧ ∃ w', IMServer.updateSession msg_m1 world_sessions = Some (tt, w')
        ∧ IMServer.GetSessions 1 w'
          = Some (Ok [Session.mk 1 3 1 "newer" 9000 1; Session.mk 1 2 1 "hi" 2000 0], w').
Proof.
  split; [reflexivity|]. split; [exact sessions_keyed_world_sessions|].
  destruct (GetUserSessions_after_message msg_m1 world_sessions eq_refl
              sessions_keyed_world_sessions) as (w' & mine & theirs & Hrun & _).
  exists w'. split; [exact Hrun|].
  assert (Some (tt, w') = IMServer.updateSession msg_m1 world_sessions) as Hw
    by (by symmetry).
  vm_compute in Hw. injection Hw as ->. by vm_compute.
Defined.

(** ** The registry of nodes *)

Lemma wrap64_small z : - 2 ^ 63 ≤ z < 2 ^ 63 → wrap64 z = z.
Proof. intros Hz. unfold wrap64. rewrite Z.mod_small; lia. Qed.

Lemma Unix_sane w : clock_sane w → 0 ≤ clock w `div` 1000 < 2 ^ 63.
Proof.
  intros [H0 H1]. split; [by apply Z.div_pos|].
  apply Z.le_lt_trans with (clock w); [|done].
  apply Z.div_le_upper_bound; lia.
Qed.

Lemma GetActiveServers_exec w :
  faults w = [] → clock_sane w →
  RouteRepository.GetActiveServers w =
    Some (Ok (server_of_row <$>
                filter (λ s, clock w `div` 1000 - 60 < DBServer.LastHeartbeat s)
                  (map_to_list (im_servers (db w))).*2), w).
Proof.
  intros Hf Hsane. unfold RouteRepository.GetActiveServers, bind, Unix.
  rewrite (statement_ok w Hf). unfold sub64.
  rewrite wrap64_small; [done|]. pose proof (Unix_sane w Hsane). lia.
Qed.

Lemma active_rows_mem w s :
  s ∈ server_of_row <$>
        filter (λ s, clock w `div` 1000 - 60 < DBServer.LastHeartbeat s)
          (map_to_list (im_servers (db w))).*2
  ↔ ∃ k row, im_servers (db w) !! k = Some row
             ∧ ¬ server_dead row w ∧ s = server_of_row row.
Proof.
  rewrite list_elem_of_fmap. split.
  - intros (row & -> & Hin). apply list_elem_of_filter in Hin as [Hlive Hin].
    apply list_elem_of_fmap in Hin as ([k row'] & -> & Hin).
    apply elem_of_map_to_list in Hin. exists k, row'.
    split; [done|]. split; [|done]. unfold server_dead. simpl in *. lia.
  - intros (k & row & Hrow & Hlive & ->). exists row. split; [done|].
    apply list_elem_of_filter. split; [unfold server_dead in Hlive; lia|].
    apply list_elem_of_fmap. exists (k, row). split; [done|].
    by apply elem_of_map_to_list.
Qed.










Lemma cache_fresh_dec userID w : cache_fresh userID w ∨ ¬ cache_fresh userID w.
Proof.
  unfold cache_fresh. destruct (userRoutes (rm w) !! userID) as [c|].
  - destruct (decide (sub64 (clock w `div` 1000) (RouteCache.CacheTime c)
                      < CacheTTL w)); [left; by exists c|].
    right. intros (c' & [= <-] & ?). done.
  - right. by intros (c' & [=] & _).
Qed.

Lemma cache_fresh_same w w' userID :
  rm w' = rm w → clock w' = clock w → CacheTTL w' = CacheTTL w →
  cache_fresh userID w' ↔ cache_fresh userID w.
Proof. intros Hrm Hclock Httl. unfold cache_fresh. by rewrite Hrm, Hclock, Httl. Qed.

(** X8: unregistering the node deletes its registry row and nothing else.
    The route rows of its users stay, so a lookup that goes to the store
    now reports such a user offline, while a node that still has a fresh
    cache entry for the user keeps reporting them online. *)
Theorem unregisterNode_leaves_routes w :
  faults w = [] →
  ∃ w', IMServer.unregisterNode w = Some (tt, w')
    ∧ im_servers (db w') !! ServerID w = None
    ∧ (∀ k, k ≠ ServerID w → im_servers (db w') !! k = im_servers (db w) !! k)
    ∧ im_user_routes (db w') = im_user_routes (db w)
    ∧ hub w' = hub w ∧ rm w' = rm w
    ∧ (∀ userID route,
         im_user_routes (db w) !! userID = Some route →
         DBUserRoute.ServerID route = ServerID w →
         ¬ cache_fresh userID w →
         RouteManager.GetUserRoute userID w' = Some (("", "", false), w'))
    ∧ (∀ userID, cache_fresh userID w →
         ∃ gatewayID addr,
           RouteManager.GetUserRoute userID w' = Some ((gatewayID, addr, true), w')).
Proof.
  intros Hf. unfold IMServer.unregisterNode, RouteRepository.UnregisterServer, bind.
  rewrite (statement_ok w Hf). simpl.
  set (w' := set_servers (delete (ServerID w) (im_servers (db w))) w).
  exists w'. split; [done|].
  split; [simpl; by rewrite lookup_delete_eq|].
  split; [intros k Hk; simpl; by rewrite lookup_delete_ne|].
  do 3 (split; [done|]). split.
  - intros userID route Hroute Hid Hstale.
    rewrite GetUserRoute_miss by (by rewrite (cache_fresh_same w w')).
    rewrite GetUserRoute_db_exec by done.
    assert (route_rows userID w' = None) as ->; [|done].
    unfold route_rows. simpl. rewrite Hroute. simpl.
    by rewrite Hid, lookup_delete_eq.
  - intros userID (c & Hc & Hlt). eexists _, _. by apply GetUserRoute_hit.
Qed.

Lemma unregisterNode_leaves_routes_witness :
  faults world_registry = []
  ∧ ∃ w', IMServer.unregisterNode world_registry = Some (tt, w')
        ∧ im_user_routes (db w') !! 3 = Some (DBUserRoute.mk 3 "s1" 4000)
        ∧ RouteManager.GetUserRoute 3 w' = Some (("", "", false), w').
Proof.
  split; [reflexivity|].
  destruct (unregisterNode_leaves_routes world_registry eq_refl)
    as (w' & Hrun & _ & _ & Hroutes & _ & _ & Hoff & _).
  exists w'. split; [exact Hrun|]. split; [rewrite Hroutes; by vm_compute|].
  apply (Hoff 3 (DBUserRoute.mk 3 "s1" 4000)); [by vm_compute|reflexivity|].
  intros (c & Hc & _). by vm_compute in Hc.
Defined.

(** ** Heartbeats *)

Lemma foldr_alter_lookup {A} (f : A → A) (l : list Z) (m : gmap Z A) k :
  (∀ x, f (f x) = f x) →
  foldr (λ u m, alter f u m) m l !! k
  = (if decide (k ∈ l) then f else id) <$> m !! k.
Proof.
  intros Hidem. induction l as [|a l IH]; cbn [foldr].
  - rewrite decide_False by apply not_elem_of_nil. by destruct (m !! k).
  - destruct (decide (a = k)) as [->|Hne].
    + rewrite lookup_alter_eq, IH.
      destruct (decide (k ∈ k :: l)) as [_|Hn];
        [|exfalso; apply Hn, elem_of_cons; by left].
      destruct (m !! k) as [x|]; [|done]. simpl.
      destruct (decide (k ∈ l)); simpl; by rewrite ?Hidem.
    + rewrite lookup_alter_ne, IH by done.
      destruct (decide (k ∈ l)) as [Hin|Hnin],
               (decide (k ∈ a :: l)) as [Hin'|Hnin']; try done.
      * exfalso. apply Hnin', elem_of_cons. by right.
      * apply elem_of_cons in Hin' as [?|?]; [congruence|done].
Qed.

Lemma online_users_installed w u :
  u ∈ (map_to_list (clients (hub w))).*1 ↔ installed u w.
Proof.
  unfold installed. rewrite list_elem_of_fmap. split.
  - intros ([k a] & -> & Hin). apply elem_of_map_to_list in Hin. by exists a.
  - intros [a Ha]. exists (u, a). split; [done|]. by apply elem_of_map_to_list.
Qed.

(** X9: one tick of the heartbeat worker, with a working store, stamps the
    time of now on the registry row of the node and on the route row of
    every user installed in its hub, whichever server that row names.  It
    creates no row: a node or a user without a row stays without one, and
    every other row, the caches and the hub are left as they were. *)
Theorem heartbeatWorker_tick_refreshes w :
  faults w = [] →
  ∃ w', IMServer.heartbeatWorker_tick w = Some (tt, w')
    ∧ hub w' = hub w ∧ rm w' = rm w ∧ events w' = events w
    ∧ im_messages (db w') = im_messages (db w)
    ∧ im_sessions (db w') = im_sessions (db w)
    ∧ (∀ k, im_servers (db w') !! k
            = (if decide (k = ServerID w)
               then RouteRepository.touch_server (clock w `div` 1000) else id)
              <$> im_servers (db w) !! k)
    ∧ (∀ u, im_user_routes (db w') !! u
            = (if decide (installed u w)
               then RouteRepository.touch_route (clock w `div` 1000) else id)
              <$> im_user_routes (db w) !! u).
Proof.
  intros Hf.
  unfold IMServer.heartbeatWorker_tick, RouteRepository.UpdateServerHeartbeat,
    Hub.GetOnlineUsers, RouteManager.BatchUpdateHeartbeat,
    RouteRepository.BatchUpdateHeartbeat, bind, Unix.
  rewrite (statement_ok w Hf). simpl.
  set (now := clock w `div` 1000).
  set (w1 := set_servers _ w).
  assert (∀ k, im_servers (db w1) !! k
               = (if decide (k = ServerID w)
                  then RouteRepository.touch_server now else id)
                 <$> im_servers (db w) !! k) as Hservers.
  { intros k. simpl. case_decide as Hk.
    - subst k. by rewrite lookup_alter_eq.
    - rewrite lookup_alter_ne by done. by destruct (im_servers (db w) !! k). }
  destruct (decide (0 < length (map_to_list (clients (hub w))).*1)%nat) as [Hsome|Hnone].
  - rewrite decide_False by lia. simpl.
    assert (statement w1 = Some (true, w1)) as -> by (by apply statement_ok).
    simpl. eexists. split; [reflexivity|]. do 5 (split; [done|]).
    split; [exact Hservers|]. intros u. simpl.
    rewrite foldr_alter_lookup by done.
    destruct (decide (installed u w)) as [Hin|Hout].
    + by rewrite decide_True by (by apply online_users_installed).
    + by rewrite decide_False by (by rewrite online_users_installed).
  - exists w1. split; [done|]. do 5 (split; [done|]).
    split; [exact Hservers|]. intros u. simpl.
    rewrite decide_False; [by destruct (im_user_routes (db w) !! u)|].
    intros Hin%online_users_installed.
    destruct ((map_to_list (clients (hub w))).*1); [by apply elem_of_nil in Hin|].
    simpl in Hnone. lia.
Qed.

Lemma heartbeatWorker_tick_refreshes_witness :
  faults world_registry = []
  ∧ ∃ w', IMServer.heartbeatWorker_tick world_registry = Some (tt, w')
        ∧ im_user_routes (db w') !! 3 = Some (DBUserRoute.mk 3 "s1" 5000)
        ∧ im_user_routes (db w') !! 4 = None
        ∧ im_user_routes (db w') !! 2 = Some (DBUserRoute.mk 2 "s2" 100).
Proof.
  split; [reflexivity|].
  destruct (heartbeatWorker_tick_refreshes world_registry eq_refl)
    as (w' & Hrun & _ & _ & _ & _ & _ & _ & Hroutes).
  exists w'. split; [exact Hrun|]. rewrite !Hroutes. by vm_compute.
Defined.

(** ** The route cache *)



(** ** Disconnecting *)

Lemma Hub_Unregister_frame userID w w' :
  Hub.Unregister userID w = Some (tt, w') →
  db w' = db w ∧ rm w' = rm w ∧ faults w' = faults w ∧ clock w' = clock w
  ∧ CacheTTL w' = CacheTTL w ∧ ServerID w' = ServerID w
  ∧ ∀ u, u ≠ userID → clients (hub w') !! u = clients (hub w) !! u.
Proof.
  unfold Hub.Unregister, bind, Hub.clients_get, Hub.close_Send, Hub.Conn_Close,
    Hub.clients_delete, ret.
  destruct (clients (hub w) !! userID) as [a|]; [|by intros [= <-]].
  destruct (objects (hub w) !! a) as [c|] eqn:Hc; [|done].
  destruct (Client.SendClosed c); [done|]. simpl.
  destruct (<[a:=Client.close_send c]> (objects (hub w)) !! a); [|done].
  intros [= <-]. simpl. do 6 (split; [done|]).
  intros u Hu. by rewrite lookup_delete_ne.
Qed.

Lemma HasClient_exec userID w :
  Hub.HasClient userID w = Some (bool_decide (installed userID w), w).
Proof. done. Qed.

(** X11: when a user disconnects and the store takes the delete, the user
    is gone from the hub, from the route table and from the cache of the
    node: the node reports them offline and a lookup finds no route.  The
    clients of the other users stay installed. *)
Theorem onUserDisconnect_offline userID w :
  hub_inv w → faults w = [] →
  ∃ w', IMServer.onUserDisconnect userID w = Some (tt, w')
    ∧ hub_inv w'
    ∧ IMServer.IsUserOnline userID w' = Some (false, w')
    ∧ im_user_routes (db w') !! userID = None
    ∧ RouteManager.GetUserRoute userID w' = Some (("", "", false), w')
    ∧ (∀ u, u ≠ userID →
         clients (hub w') !! u = clients (hub w) !! u
         ∧ im_user_routes (db w') !! u = im_user_routes (db w) !! u
         ∧ userRoutes (rm w') !! u = userRoutes (rm w) !! u).
Proof.
  intros Hinv Hf.
  destruct (Unregister_run userID w Hinv) as (w1 & Hrun & Hinv1 & Hgone & _).
  destruct (Hub_Unregister_frame _ _ _ Hrun)
    as (Hdb & Hrm & Hf1 & Hclock & Httl & Hid & Hothers).
  unfold IMServer.onUserDisconnect. step Hrun.
  unfold RouteManager.Unregister, RouteRepository.UnregisterUserRoute,
    RouteManager.userRoutes_delete, bind, ret.
  rewrite (statement_ok w1) by congruence. simpl.
  set (w' := set_rm _ _).
  assert (¬ cache_fresh userID w') as Hstale.
  { intros (c & Hc & _). simpl in Hc. by rewrite lookup_delete_eq in Hc. }
  exists w'. split; [done|]. split; [by apply (hub_inv_same_hub w1)|].
  split.
  { unfold IMServer.IsUserOnline. rewrite HasClient_exec.
    rewrite bool_decide_eq_false_2; [done|].
    intros [a Ha]. simpl in Ha. congruence. }
  split; [simpl; by rewrite lookup_delete_eq|].
  split.
  { rewrite GetUserRoute_miss by done.
    rewrite GetUserRoute_db_exec by (simpl; congruence).
    assert (route_rows userID w' = None) as ->; [|done].
    unfold route_rows. simpl. by rewrite lookup_delete_eq. }
  intros u Hu. split; [by apply Hothers|]. simpl.
  rewrite !lookup_delete_ne by done. by rewrite Hdb, Hrm.
Qed.

Lemma hub_inv_world_routed : hub_inv world_routed.
Proof. apply (hub_inv_same_hub world_connected); [done|]. exact hub_inv_world_connected. Qed.

Lemma onUserDisconnect_offline_witness :
  hub_inv world_routed ∧ faults world_routed = []
  ∧ IMServer.IsUserOnline 2 world_routed = Some (true, world_routed)
  ∧ ∃ w', IMServer.onUserDisconnect 2 world_routed = Some (tt, w')
        ∧ IMServer.IsUserOnline 2 w' = Some (false, w')
        ∧ RouteManager.GetUserRoute 2 w' = Some (("", "", false), w').
Proof.
  split; [exact hub_inv_world_routed|]. split; [reflexivity|].
  split; [by vm_compute|].
  destruct (onUserDisconnect_offline 2 world_routed hub_inv_world_routed eq_refl)
    as (w' & Hrun & _ & Hoff & _ & Hroute & _).
  exists w'. split; [exact Hrun|]. split; [exact Hoff|exact Hroute].
Defined.

(** X12: when the delete of the route row fails, the error is dropped and
    the cache entry of the node is left in place.  The user is gone from
    the hub, yet their route row is still in the table, and while the cache
    entry is fresh the node keeps answering lookups for them with "online"
    on the cached gateway. *)
Theorem onUserDisconnect_store_failure userID fs route w :
  hub_inv w → faults w = true :: fs →
  userRoutes (rm w) !! userID = Some route →
  sub64 (clock w `div` 1000) (RouteCache.CacheTime route) < CacheTTL w →
  ∃ w', IMServer.onUserDisconnect userID w = Some (tt, w')
    ∧ IMServer.IsUserOnline userID w' = Some (false, w')
    ∧ im_user_routes (db w') = im_user_routes (db w)
    ∧ RouteManager.GetUserRoute userID w'
      = Some ((RouteCache.GatewayID route,
               default "" (gatewayAddrs (rm w) !! RouteCache.GatewayID route),
               true), w').
Proof.
  intros Hinv Hf Hroute Hfresh.
  destruct (Unregister_run userID w Hinv) as (w1 & Hrun & Hinv1 & Hgone & _).
  destruct (Hub_Unregister_frame _ _ _ Hrun)
    as (Hdb & Hrm & Hf1 & Hclock & Httl & Hid & Hothers).
  unfold IMServer.onUserDisconnect. step Hrun.
  unfold RouteManager.Unregister, RouteRepository.UnregisterUserRoute, bind, ret,
    statement.
  rewrite Hf1, Hf. simpl.
  eexists. split; [reflexivity|]. split.
  { unfold IMServer.IsUserOnline. rewrite HasClient_exec.
    rewrite bool_decide_eq_false_2; [done|].
    intros [a Ha]. simpl in Ha. congruence. }
  split; [simpl; by rewrite Hdb|].
  erewrite GetUserRoute_hit.
  - simpl. by rewrite Hrm.
  - simpl. by rewrite Hrm.
  - simpl. by rewrite Hclock, Httl.
Qed.

Lemma onUserDisconnect_store_failure_witness :
  hub_inv (set_faults [true] world_routed)
  ∧ faults (set_faults [true] world_routed) = [true]
  ∧ ∃ w', IMServer.onUserDisconnect 2 (set_faults [true] world_routed) = Some (tt, w')
        ∧ IMServer.IsUserOnline 2 w' = Some (false, w')
        ∧ RouteManager.GetUserRoute 2 w' = Some (("s1", "", true), w').
Proof.
  assert (hub_inv (set_faults [true] world_routed)) as Hinv.
  { apply (hub_inv_same_hub world_routed); [done|]. exact hub_inv_world_routed. }
  split; [exact Hinv|]. split; [reflexivity|].
  destruct (onUserDisconnect_store_failure 2 [] (RouteCache.mk "s1" 5)
              (set_faults [true] world_routed) Hinv eq_refl)
    as (w' & Hrun & Hoff & _ & Hroute); [by vm_compute|by vm_compute|].
  exists w'. split; [exact Hrun|]. split; [exact Hoff|exact Hroute].
Defined.

(** ** The broadcast loop of the hub *)


Lemma other_user_other_client w u v a b :
  hub_inv w → u ≠ v →
  clients (hub w) !! u = Some a → clients (hub w) !! v = Some b → a ≠ b.
Proof.
  intros [Hopen _] Hne Ha Hb ->.
  destruct (Hopen _ _ Ha) as (c & Hc & Hu & _).
  destruct (Hopen _ _ Hb) as (c' & Hc' & Hv & _). congruence.
Qed.




Lemma hub_inv_world_broadcast : hub_inv world_broadcast.
Proof.
  split.
  - intros u a H. simpl in H.
    apply lookup_insert_Some in H as [[<- <-]|[_ H]]; [by eexists|].
    apply lookup_singleton_Some in H as [<- <-]. by eexists.
  - intros a c H Hopen. simpl in H.
    destruct a as [|[|a]]; simpl in H; [| |done]; by injection H as <-.
Qed.


(** ** Who is online *)

(** X14: the list of online users holds, once each, exactly the users for
    whom the node answers "online", and those are the users a push is
    attempted for: a push to anyone else is refused and leaves the hub as
    it was. *)
Theorem GetOnlineUsers_are_installed w :
  hub_inv w →
  ∃ users,
    Hub.GetOnlineUsers w = Some (users, w)
    ∧ NoDup users
    ∧ (∀ u, u ∈ users ↔ IMServer.IsUserOnline u w = Some (true, w))
    ∧ (∀ u data, u ∉ users →
         ∃ w', Hub.SendToUser u data w = Some (false, w') ∧ hub w' = hub w).
Proof.
  intros Hinv. eexists. split; [reflexivity|].
  split; [apply NoDup_fst_map_to_list|]. split.
  - intros u. rewrite online_users_installed.
    unfold IMServer.IsUserOnline. rewrite HasClient_exec. split.
    + intros Hin. by rewrite bool_decide_eq_true_2.
    + intros [= Hb]. by apply bool_decide_eq_true_1 in Hb.
  - intros u data Hnin. rewrite online_users_installed in Hnin.
    destruct (SendToUser_run u data w Hinv)
      as (w' & Hrun & _ & _ & _ & _ & _ & _ & _ & _ & _ & Hsame & _).
    assert (queue_accepts u w = false) as Hq.
    { unfold queue_accepts. destruct (clients (hub w) !! u) as [a|] eqn:Ha; [|done].
      exfalso. apply Hnin. by exists a. }
    exists w'. rewrite Hrun, Hq. split; [done|]. by apply Hsame.
Qed.

Lemma GetOnlineUsers_are_installed_witness :
  hub_inv world_broadcast
  ∧ ∃ users, Hub.GetOnlineUsers world_broadcast = Some (users, world_broadcast)
           ∧ 3 ∈ users ∧ 4 ∉ users.
Proof.
  split; [exact hub_inv_world_broadcast|].
  destruct (GetOnlineUsers_are_installed world_broadcast hub_inv_world_broadcast)
    as (users & Hrun & _ & Hmem & _).
  exists users. split; [exact Hrun|]. split.
  - apply Hmem. by vm_compute.
  - intros Hin%Hmem. by vm_compute in Hin.
Defined.

(** ** The send pipeline *)

Lemma SendToUser_others userID data w r w' :
  hub_inv w → Hub.SendToUser userID data w = Some (r, w') →
  ∀ v, v ≠ userID →
    queue_of v w' = queue_of v w ∧ queue_accepts v w' = queue_accepts v w.
Proof.
  intros Hinv. unfold Hub.SendToUser, bind, Hub.clients_get, Hub.select_send,
    Hub.observe, ret.
  destruct (clients (hub w) !! userID) as [a|] eqn:Ha; [|by intros [= <- <-]].
  destruct (proj1 Hinv _ _ Ha) as (c & Hc & Hu & Hcl). rewrite Hc, Hcl.
  case_decide; intros [= <- <-] v Hv; [|done].
  unfold queue_of, queue_accepts. simpl.
  destruct (clients (hub w) !! v) as [b|] eqn:Hb; [|done].
  rewrite list_lookup_insert_ne; [done|].
  by eapply (other_user_other_client w userID v).
Qed.

Lemma sendAck_run userID msgID status errMsg w :
  hub_inv w →
  ∃ w', IMServer.sendAck userID msgID status errMsg w = Some (tt, w')
      ∧ hub_inv w'
      ∧ db w' = db w ∧ rm w' = rm w ∧ faults w' = faults w ∧ clock w' = clock w
      ∧ CacheTTL w' = CacheTTL w ∧ ServerID w' = ServerID w
      ∧ clients (hub w') = clients (hub w)
      ∧ events w' = events w ++
          [EvPush userID (ack_frame msgID status errMsg (clock w))
             (queue_accepts userID w)]
      ∧ ∀ v, v ≠ userID →
          queue_of v w' = queue_of v w ∧ queue_accepts v w' = queue_accepts v w.
Proof.
  intros Hinv. unfold IMServer.sendAck. unfold bind at 1 2. unfold UnixMilli.
  destruct (SendToUser_run userID (ack_frame msgID status errMsg (clock w)) w Hinv)
    as (w' & Hrun & Hinv' & ? & ? & ? & ? & ? & ? & ? & Hev & _).
  pose proof (SendToUser_others _ _ _ _ _ Hinv Hrun) as Hothers.
  exists w'. unfold ack_frame in Hrun. step Hrun. unfold ret.
  by repeat (split; [done|]).
Qed.

Lemma updateSession_frame msg w :
  faults w = [] →
  ∃ w', IMServer.updateSession msg w = Some (tt, w')
      ∧ faults w' = [] ∧ hub w' = hub w ∧ rm w' = rm w ∧ clock w' = clock w
      ∧ events w' = events w ∧ CacheTTL w' = CacheTTL w ∧ ServerID w' = ServerID w
      ∧ im_messages (db w') = im_messages (db w)
      ∧ im_servers (db w') = im_servers (db w)
      ∧ im_user_routes (db w') = im_user_routes (db w).
Proof.
  intros Hf. unfold IMServer.updateSession, SessionRepository.UpdateSession, bind.
  rewrite (statement_ok w Hf).
  destruct (im_sessions (db w) !! _) as [row|]; simpl;
    rewrite statement_ok by done; simpl;
    match goal with
    | |- context [match ?m !! ?k with _ => _ end] => destruct (m !! k) as [row'|]
    end; simpl;
    eexists; (split; [reflexivity|]); by repeat (split; [done|]).
Qed.

Lemma pushToLocalUser_accepted msg w :
  hub_inv w → faults w = [] →
  queue_accepts (Message.ToUserID msg) w = true →
  ∃ w' accepted,
    IMServer.pushToLocalUser msg w = Some (tt, w')
    ∧ hub_inv w' ∧ faults w' = [] ∧ rm w' = rm w
    ∧ db w' = db (set_messages
                    (MessageRepository.update_where (Message.MsgID msg)
                       MsgStatusDelivered (clock w) (im_messages (db w))) w)
    ∧ events w' = events w ++
        [EvPush (Message.ToUserID msg) (IMServer.pushMsg msg) true;
         EvPush (Message.FromUserID msg)
           (status_frame (Message.MsgID msg) MsgStatusDelivered (clock w)) accepted].
Proof.
  intros Hinv Hf Hacc. unfold IMServer.pushToLocalUser.
  destruct (SendToUser_run (Message.ToUserID msg) (IMServer.pushMsg msg) w Hinv)
    as (w1 & Hs & Hinv1 & Hd1 & Hrm1 & Hf1 & Hc1 & _ & _ & _ & He1 & _).
  rewrite Hacc in Hs, He1. step Hs.
  unfold bind at 1. unfold UnixMilli.
  rewrite (bind_Some _ _ _ _ _
             (UpdateStatus_exec (Message.MsgID msg) MsgStatusDelivered (clock w1) w1
                ltac:(congruence))).
  set (w2 := set_messages _ w1).
  assert (hub_inv w2) as Hinv2 by (by apply (hub_inv_same_hub w1)).
  destruct (notifyStatusUpdate_run (Message.FromUserID msg) (Message.MsgID msg)
              MsgStatusDelivered (clock w1) w2 Hinv2)
    as (w3 & Hn & Hinv3 & Hd3 & Hrm3 & Hf3 & _ & _ & accepted & He3).
  exists w3, accepted. split; [done|]. split; [done|].
  split; [rewrite Hf3; simpl; congruence|]. split; [rewrite Hrm3; simpl; congruence|].
  split.
  - rewrite Hd3. unfold w2, set_messages. simpl. by rewrite Hd1, Hc1.
  - rewrite He3. simpl. rewrite He1, <- app_assoc. unfold status_frame.
    by rewrite Hc1.
Qed.

Section pipeline.
Variable Error : Err → string.
Variable dial : string → bool.

Lemma routeAndDeliver_offline msg peerClients w :
  faults w = [] → unroutable (Message.ToUserID msg) w →
  IMServer.routeAndDeliver dial msg peerClients w = Some ((None, peerClients), w).
Proof.
  intros Hf [Hstale Hrows]. unfold IMServer.routeAndDeliver, bind.
  rewrite GetUserRoute_miss by done. rewrite GetUserRoute_db_exec by done.
  by rewrite Hrows.
Qed.

Lemma routeAndDeliver_local msg peerClients w :
  cached_here (Message.ToUserID msg) w →
  IMServer.routeAndDeliver dial msg peerClients w =
    match IMServer.pushToLocalUser msg w with
    | Some (_, w') => Some ((None, peerClients), w')
    | None => None
    end.
Proof.
  intros (route & Hroute & Hfresh & Hhere). unfold IMServer.routeAndDeliver, bind.
  rewrite (GetUserRoute_hit _ _ _ Hroute Hfresh). simpl.
  rewrite decide_True by done.
  by destruct (IMServer.pushToLocalUser msg w) as [[[] w']|].
Qed.

Lemma handleChatMessage_saved fromUserID chatMsg generated peerClients w :
  hub_inv w → faults w = [] →
  WSChatMessage.MsgID chatMsg ≠ "" →
  rows_of (WSChatMessage.MsgID chatMsg) w = [] →
  let msg := chat_message fromUserID chatMsg (clock w) in
  ∃ w3,
    IMServer.handleChatMessage Error dial fromUserID (Some chatMsg) generated
      peerClients w
    = match IMServer.routeAndDeliver dial msg peerClients w3 with
      | Some ((_, peerClients), w') => Some (peerClients, w')
      | None => None
      end
    ∧ hub_inv w3 ∧ faults w3 = [] ∧ rm w3 = rm w ∧ clock w3 = clock w
    ∧ CacheTTL w3 = CacheTTL w ∧ ServerID w3 = ServerID w
    ∧ im_messages (db w3)
      = im_messages (db w)
        ++ [MessageRepository.inserted
              (MessageRepository.next_id (im_messages (db w))) (clock w) msg]
    ∧ im_servers (db w3) = im_servers (db w)
    ∧ im_user_routes (db w3) = im_user_routes (db w)
    ∧ events w3 = events w ++
        [EvPush fromUserID
           (ack_frame (WSChatMessage.MsgID chatMsg) MsgStatusSent "" (clock w))
           (queue_accepts fromUserID w)]
    ∧ ∀ v, v ≠ fromUserID → queue_accepts v w3 = queue_accepts v w.
Proof.
  intros Hinv Hf Hid Hfresh msg. unfold IMServer.handleChatMessage.
  rewrite decide_False by done. unfold bind at 1. unfold UnixMilli.
  fold (chat_message fromUserID chatMsg (clock w)). fold msg.
  pose proof (Save_exec msg w Hf) as Hsave.
  rewrite decide_False in Hsave by (by apply rows_of_nil_iff).
  step Hsave. set (w1 := set_messages _ w).
  assert (hub_inv w1) as Hinv1 by (by apply (hub_inv_same_hub w)).
  destruct (sendAck_run fromUserID (WSChatMessage.MsgID chatMsg) MsgStatusSent "" w1 Hinv1)
    as (w2 & Hack & Hinv2 & Hd2 & Hrm2 & Hf2 & Hc2 & Httl2 & Hid2 & _ & He2 & Hq2).
  step Hack.
  destruct (updateSession_frame msg w2) as
    (w3 & Hupd & Hf3 & Hh3 & Hrm3 & Hc3 & He3 & Httl3 & Hid3 & Hm3 & Hs3 & Hr3);
    [by rewrite Hf2|].
  step Hupd. exists w3. split.
  { unfold bind. by destruct (IMServer.routeAndDeliver dial msg peerClients w3)
      as [[[? ?] ?]|]. }
  split; [by apply (hub_inv_same_hub w2)|]. split; [done|].
  split; [by rewrite Hrm3, Hrm2|]. split; [by rewrite Hc3, Hc2|].
  split; [by rewrite Httl3, Httl2|]. split; [by rewrite Hid3, Hid2|].
  split; [by rewrite Hm3, Hd2|].
  split; [by rewrite Hs3, Hd2|]. split; [by rewrite Hr3, Hd2|].
  split; [by rewrite He3, He2|].
  intros v Hv. destruct (Hq2 v Hv) as [_ Hq]. unfold queue_accepts in *.
  by rewrite Hh3.
Qed.

(** X15: a chat frame whose message id is already stored is not stored a
    second time and is not delivered.  The tables, the sessions among them,
    stay as they were, the recipient gets nothing, and the one frame that
    leaves the node is an acknowledgement for the sender with status
    "failed" and the text of the duplicate-key error. *)
Theorem handleChatMessage_duplicate_id fromUserID chatMsg generated peerClients w :
  hub_inv w → faults w = [] →
  WSChatMessage.MsgID chatMsg ≠ "" →
  rows_of (WSChatMessage.MsgID chatMsg) w ≠ [] →
  ∃ w',
    IMServer.handleChatMessage Error dial fromUserID (Some chatMsg) generated
      peerClients w = Some (peerClients, w')
    ∧ db w' = db w ∧ rm w' = rm w
    ∧ events w' = events w ++
        [EvPush fromUserID
           (ack_frame (WSChatMessage.MsgID chatMsg) MsgStatusFailed
              (Error ErrDuplicateKey) (clock w))
           (queue_accepts fromUserID w)].
Proof.
  intros Hinv Hf Hid Hdup. unfold IMServer.handleChatMessage.
  rewrite decide_False by done. unfold bind at 1. unfold UnixMilli.
  pose proof (Save_exec (chat_message fromUserID chatMsg (clock w)) w Hf) as Hsave.
  rewrite decide_True in Hsave.
  2:{ apply dec_stable. intros Hn. by apply Hdup, rows_of_nil_iff. }
  unfold chat_message in Hsave. step Hsave.
  destruct (sendAck_run fromUserID (WSChatMessage.MsgID chatMsg) MsgStatusFailed
              (Error ErrDuplicateKey) w Hinv)
    as (w' & Hack & _ & Hd & Hrm & _ & _ & _ & _ & _ & He & _).
  step Hack. by exists w'.
Qed.

(** X16: a chat frame with a new id for a recipient whom the cache places
    on this node and whose queue has room goes all the way: the row is
    stored and ends in status "delivered" with the time of now, and three
    frames leave the node in this order: the acknowledgement "sent" to the
    sender, the message to the recipient, the status update "delivered" to
    the sender. *)
Theorem handleChatMessage_local_delivery fromUserID chatMsg generated peerClients w :
  hub_inv w → faults w = [] →
  WSChatMessage.MsgID chatMsg ≠ "" →
  rows_of (WSChatMessage.MsgID chatMsg) w = [] →
  fromUserID ≠ WSChatMessage.ToUserID chatMsg →
  cached_here (WSChatMessage.ToUserID chatMsg) w →
  queue_accepts (WSChatMessage.ToUserID chatMsg) w = true →
  ∃ w' accepted,
    IMServer.handleChatMessage Error dial fromUserID (Some chatMsg) generated
      peerClients w = Some (peerClients, w')
    ∧ hub_inv w'
    ∧ length (rows_of (WSChatMessage.MsgID chatMsg) w') = 1%nat
    ∧ status_of (WSChatMessage.MsgID chatMsg) w' = Some MsgStatusDelivered
    ∧ delivered_time_of (WSChatMessage.MsgID chatMsg) w' = Some (clock w)
    ∧ events w' = events w ++
        [EvPush fromUserID
           (ack_frame (WSChatMessage.MsgID chatMsg) MsgStatusSent "" (clock w))
           (queue_accepts fromUserID w);
         EvPush (WSChatMessage.ToUserID chatMsg)
           (IMServer.pushMsg (chat_message fromUserID chatMsg (clock w))) true;
         EvPush fromUserID
           (status_frame (WSChatMessage.MsgID chatMsg) MsgStatusDelivered (clock w))
           accepted].
Proof.
  intros Hinv Hf Hid Hfresh Hne (route & Hroute & Hlt & Hhere) Hroom.
  destruct (handleChatMessage_saved fromUserID chatMsg generated peerClients w
              Hinv Hf Hid Hfresh)
    as (w3 & Hrun & Hinv3 & Hf3 & Hrm3 & Hc3 & Httl3 & Hid3 & Hm3 & _ & _ & He3 & Hq3).
  rewrite Hrun. rewrite routeAndDeliver_local.
  2:{ exists route. by rewrite Hrm3, Hc3, Httl3, Hid3. }
  destruct (pushToLocalUser_accepted (chat_message fromUserID chatMsg (clock w)) w3
              Hinv3 Hf3) as (w' & accepted & Hpush & Hinv' & _ & _ & Hdb & He');
    [simpl; rewrite Hq3 by done; done|].
  rewrite Hpush. exists w', accepted. split; [done|]. split; [done|].
  assert (rows_of (WSChatMessage.MsgID chatMsg) w'
          = [MessageRepository.updates MsgStatusDelivered (clock w)
               (MessageRepository.inserted
                  (MessageRepository.next_id (im_messages (db w))) (clock w)
                  (chat_message fromUserID chatMsg (clock w)))]) as Hrows.
  { unfold rows_of. rewrite Hdb. simpl. rewrite update_where_filter_eq.
    rewrite Hm3, filter_app. fold (rows_of (WSChatMessage.MsgID chatMsg) w).
    rewrite Hfresh, Hc3. simpl. rewrite filter_cons_True by done. done. }
  split; [by rewrite Hrows|].
  split; [unfold status_of; rewrite Hrows; done|].
  split.
  { unfold delivered_time_of. rewrite Hrows. reflexivity. }
  rewrite He', He3, <- app_assoc. simpl. by rewrite Hc3.
Qed.

(** X17: a chat frame with a new id for a recipient for whom no route is
    found is stored and acknowledged and nothing more: the row stays in
    status "sent", it is one of the rows the drain of the recipient will
    select, and the only frame that leaves the node is the acknowledgement
    "sent" to the sender. *)
Theorem handleChatMessage_offline_recipient fromUserID chatMsg generated peerClients w :
  hub_inv w → faults w = [] →
  WSChatMessage.MsgID chatMsg ≠ "" →
  rows_of (WSChatMessage.MsgID chatMsg) w = [] →
  unroutable (WSChatMessage.ToUserID chatMsg) w →
  ∃ w' row,
    IMServer.handleChatMessage Error dial fromUserID (Some chatMsg) generated
      peerClients w = Some (peerClients, w')
    ∧ rows_of (WSChatMessage.MsgID chatMsg) w' = [row]
    ∧ MessageRepository.toModel row
      = as_stored (chat_message fromUserID chatMsg (clock w))
    ∧ MessageRepository.undelivered_where (WSChatMessage.ToUserID chatMsg) row
    ∧ events w' = events w ++
        [EvPush fromUserID
           (ack_frame (WSChatMessage.MsgID chatMsg) MsgStatusSent "" (clock w))
           (queue_accepts fromUserID w)].
Proof.
  intros Hinv Hf Hid Hfresh [Hstale Hnone].
  destruct (handleChatMessage_saved fromUserID chatMsg generated peerClients w
              Hinv Hf Hid Hfresh)
    as (w3 & Hrun & Hinv3 & Hf3 & Hrm3 & Hc3 & Httl3 & Hid3 & Hm3 & Hs3 & Hr3
        & He3 & _).
  rewrite Hrun. rewrite routeAndDeliver_offline; [|done|].
  2:{ split.
      - by rewrite (cache_fresh_same w w3).
      - simpl. unfold route_rows in *. by rewrite Hr3, Hs3. }
  eexists w3, _. split; [done|]. split.
  { unfold rows_of. rewrite Hm3, filter_app.
    fold (rows_of (WSChatMessage.MsgID chatMsg) w). rewrite Hfresh. simpl.
    rewrite filter_cons_True by done. done. }
  split; [done|]. split; [done|]. done.
Qed.
End pipeline.

Lemma handleChatMessage_duplicate_id_witness :
  hub_inv world_sent ∧ faults world_sent = []
  ∧ rows_of "m1" world_sent ≠ []
  ∧ ∃ w', IMServer.handleChatMessage error_text dial_fails 1 (Some chat_m1) "g1" ∅
            world_sent = Some (∅, w')
        ∧ db w' = db world_sent
        ∧ events w' = [EvPush 1 (ack_frame "m1" MsgStatusFailed "Duplicate entry" 5000)
                         false].
Proof.
  assert (rows_of "m1" world_sent ≠ []) as Hdup by (by vm_compute).
  split; [exact hub_inv_world_sent|]. split; [reflexivity|]. split; [exact Hdup|].
  destruct (handleChatMessage_duplicate_id error_text dial_fails 1 chat_m1 "g1" ∅
              world_sent hub_inv_world_sent eq_refl) as (w' & Hrun & Hdb & _ & Hev);
    [done|exact Hdup|].
  exists w'. split; [exact Hrun|]. split; [exact Hdb|exact Hev].
Defined.

Lemma cached_here_world_routed : cached_here 2 world_routed.
Proof. exists (RouteCache.mk "s1" 5). split; [by vm_compute|]. by vm_compute. Qed.

Lemma handleChatMessage_local_delivery_witness :
  hub_inv world_routed ∧ faults world_routed = []
  ∧ rows_of "m1" world_routed = []
  ∧ cached_here 2 world_routed
  ∧ queue_accepts 2 world_routed = true
  ∧ ∃ w', IMServer.handleChatMessage error_text dial_fails 1 (Some chat_m1) "g1" ∅
            world_routed = Some (∅, w')
        ∧ status_of "m1" w' = Some MsgStatusDelivered
        ∧ delivered_time_of "m1" w' = Some 5000.
Proof.
  split; [exact hub_inv_world_routed|]. split; [reflexivity|].
  split; [reflexivity|]. split; [exact cached_here_world_routed|].
  split; [reflexivity|].
  destruct (handleChatMessage_local_delivery error_text dial_fails 1 chat_m1 "g1" ∅
              world_routed hub_inv_world_routed eq_refl)
    as (w' & accepted & Hrun & _ & _ & Hstatus & Htime & _);
    [done|reflexivity|done|exact cached_here_world_routed|reflexivity|].
  exists w'. split; [exact Hrun|]. split; [exact Hstatus|exact Htime].
Defined.

Lemma unroutable_world0 : unroutable 2 world0.
Proof. split; [|reflexivity]. intros (c & Hc & _). by vm_compute in Hc. Qed.

Lemma handleChatMessage_offline_recipient_witness :
  hub_inv world0 ∧ faults world0 = [] ∧ rows_of "m1" world0 = []
  ∧ unroutable 2 world0
  ∧ ∃ w', IMServer.handleChatMessage error_text dial_fails 1 (Some chat_m1) "g1" ∅
            world0 = Some (∅, w')
        ∧ status_of "m1" w' = Some MsgStatusSent
        ∧ events w' = [EvPush 1 (ack_frame "m1" MsgStatusSent "" 5000) false].
Proof.
  split; [exact hub_inv_world0|]. split; [reflexivity|]. split; [reflexivity|].
  split; [exact unroutable_world0|].
  destruct (handleChatMessage_offline_recipient error_text dial_fails 1 chat_m1 "g1" ∅
              world0 hub_inv_world0 eq_refl)
    as (w' & row & Hrun & Hrows & _ & [_ Hsent] & Hev);
    [done|reflexivity|exact unroutable_world0|].
  exists w'. split; [exact Hrun|]. split; [|exact Hev].
  unfold status_of. change (rows_of "m1" w') with (rows_of (WSChatMessage.MsgID chat_m1) w').
  rewrite Hrows. simpl. by rewrite Hsent.
Defined.

(** ** Delivery to another node *)

Section remote.
Variable dial : string → bool.

(** X18: a message for a user whom the lookup places on another node is
    never handed to that node.  The peer clients are found under the
    address of the gateway; when there is none and the dial fails the call
    returns without an error and without a trace, and in every other case
    the forward is a method call on the nil client of the stub package, which
    panics. *)
Theorem routeAndDeliver_remote_never_delivers msg peerClients w gatewayID addr w1 :
  RouteManager.GetUserRoute (Message.ToUserID msg) w
    = Some ((gatewayID, addr, true), w1) →
  gatewayID ≠ ServerID w1 →
  (peerClients !! addr = None → dial addr = false →
     IMServer.routeAndDeliver dial msg peerClients w = Some ((None, peerClients), w1))
  ∧ (is_Some (peerClients !! addr) ∨ dial addr = true →
     IMServer.routeAndDeliver dial msg peerClients w = None).
Proof.
  intros Hroute Hne. unfold IMServer.routeAndDeliver, bind. rewrite Hroute. simpl.
  rewrite decide_False by done. unfold IMServer.forwardToRemoteGateway. split.
  - intros -> ->. done.
  - intros [[client Hc]|Hdial].
    + rewrite Hc. by destruct client as [[]|].
    + destruct (peerClients !! addr) as [[[]|]|]; [done|]. by rewrite Hdial.
Qed.

Lemma discoverPeers_server_lookup serverID peerClients server k :
  is_Some (IMServer.discoverPeers_server dial serverID peerClients server !! k)
  ↔ is_Some (peerClients !! k)
    ∨ (k ≠ serverID ∧ Server.ServerID server = k
       ∧ dial (Server.GRPCAddr server) = true).
Proof.
  unfold IMServer.discoverPeers_server.
  destruct (decide (Server.ServerID server = serverID)) as [Hself|Hpeer].
  { split; [by left|]. intros [?|(? & ? & _)]; [done|congruence]. }
  destruct (peerClients !! Server.ServerID server) as [c|] eqn:Hc.
  { split; [by left|]. intros [?|(_ & <- & _)]; [done|]. by rewrite Hc. }
  destruct (dial (Server.GRPCAddr server)) eqn:Hdial.
  - rewrite lookup_insert_is_Some. split.
    + intros [<-|[_ ?]]; [right; done|by left].
    + intros [Hk|(_ & <- & _)]; [|by left].
      destruct (decide (Server.ServerID server = k)); [by left|by right].
  - split; [by left|]. by intros [?|(_ & _ & ?)].
Qed.

Lemma discoverPeers_fold_lookup serverID servers peerClients k :
  is_Some (foldl (IMServer.discoverPeers_server dial serverID) peerClients servers !! k)
  ↔ is_Some (peerClients !! k)
    ∨ (k ≠ serverID
       ∧ ∃ server, server ∈ servers ∧ Server.ServerID server = k
                   ∧ dial (Server.GRPCAddr server) = true).
Proof.
  revert peerClients. induction servers as [|s servers IH]; intros peerClients; simpl.
  - split; [by left|]. intros [?|(_ & s & Hin & _)]; [done|].
    by apply elem_of_nil in Hin.
  - rewrite IH, discoverPeers_server_lookup. split.
    + intros [[?|(? & ? & ?)]|(? & s' & ? & ? & ?)].
      * by left.
      * right. split; [done|]. exists s. split; [apply elem_of_cons; by left|done].
      * right. split; [done|]. exists s'. split; [apply elem_of_cons; by right|done].
    + intros [?|(? & s' & [->|?]%elem_of_cons & ? & ?)].
      * by left; left.
      * by left; right.
      * right. split; [done|]. by exists s'.
Qed.

(** X19: one round of peer discovery with a working store keeps every
    entry of the peer map and adds one, holding the nil client of the stub
    package, for each live registry row other than the node's own whose
    address can be dialled.  The new entries sit under the server id of the
    row, not under its address. *)
Theorem discoverPeers_tick_by_server_id peerClients w :
  faults w = [] → clock_sane w → servers_keyed w →
  ∃ peerClients',
    IMServer.discoverPeers_tick dial peerClients w = Some (peerClients', w)
    ∧ (∀ k, is_Some (peerClients' !! k)
            ↔ is_Some (peerClients !! k)
              ∨ (k ≠ ServerID w
                 ∧ ∃ row, im_servers (db w) !! k = Some row
                          ∧ ¬ server_dead row w
                          ∧ dial (DBServer.GRPCAddr row) = true))
    ∧ (∀ k client, peerClients' !! k = Some client → client = NewIMServerClient).
Proof.
  intros Hf Hsane Hkeyed. unfold IMServer.discoverPeers_tick, bind.
  rewrite GetActiveServers_exec by done. simpl.
  eexists. split; [reflexivity|]. split.
  - intros k. rewrite discoverPeers_fold_lookup. split.
    + intros [?|(Hk & s & Hin & Hid & Hdial)]; [by left|]. right. split; [done|].
      apply active_rows_mem in Hin as (k' & row & Hrow & Hlive & ->).
      pose proof (Hkeyed _ _ Hrow) as Hk'. simpl in Hid.
      exists row. split; [congruence|done].
    + intros [?|(Hk & row & Hrow & Hlive & Hdial)]; [by left|]. right.
      split; [done|]. exists (server_of_row row).
      split; [apply active_rows_mem; by exists k, row|].
      split; [by apply Hkeyed|done].
  - intros k client _. by destruct client as [[]|].
Qed.
End remote.

Lemma routeAndDeliver_remote_never_delivers_witness :
  RouteManager.GetUserRoute 2 world_crashed
    = Some (("s2", "10.0.0.2:50051", true),
            set_rm (mkCaches {[ 2 := RouteCache.mk "s2" 5000 ]}
                      {[ "s2" := "10.0.0.2:50051" ]}) world_crashed)
  ∧ IMServer.routeAndDeliver dial_fails msg_m1 ∅ world_crashed
    = Some ((None, ∅),
            set_rm (mkCaches {[ 2 := RouteCache.mk "s2" 5000 ]}
                      {[ "s2" := "10.0.0.2:50051" ]}) world_crashed)
  ∧ IMServer.routeAndDeliver dial_works msg_m1 ∅ world_crashed = None.
Proof.
  assert (RouteManager.GetUserRoute (Message.ToUserID msg_m1) world_crashed
          = Some (("s2", "10.0.0.2:50051", true),
                  set_rm (mkCaches {[ 2 := RouteCache.mk "s2" 5000 ]}
                            {[ "s2" := "10.0.0.2:50051" ]}) world_crashed)) as Hroute
    by (by vm_compute).
  split; [exact Hroute|]. split.
  - apply (proj1 (routeAndDeliver_remote_never_delivers dial_fails msg_m1 ∅
                    world_crashed _ _ _ Hroute ltac:(done))); reflexivity.
  - apply (proj2 (routeAndDeliver_remote_never_delivers dial_works msg_m1 ∅
                    world_crashed _ _ _ Hroute ltac:(done))). by right.
Defined.

Lemma clock_sane_world_peers : clock_sane world_peers.
Proof. unfold clock_sane. simpl. lia. Qed.

Lemma servers_keyed_world_peers : servers_keyed world_peers.
Proof.
  intros k row Hrow. simpl in Hrow.
  apply lookup_insert_Some in Hrow as [[<- <-]|[_ Hrow]]; [done|].
  by apply lookup_singleton_Some in Hrow as [<- <-].
Qed.

Lemma discoverPeers_tick_by_server_id_witness :
  faults world_peers = [] ∧ clock_sane world_peers ∧ servers_keyed world_peers
  ∧ ∃ peerClients',
      IMServer.discoverPeers_tick dial_works ∅ world_peers
        = Some (peerClients', world_peers)
      ∧ peerClients' !! "s3" = Some NewIMServerClient
      ∧ peerClients' !! "s1" = None
      ∧ peerClients' !! "10.0.0.3:50051" = None.
Proof.
  split; [reflexivity|]. split; [exact clock_sane_world_peers|].
  split; [exact servers_keyed_world_peers|].
  destruct (discoverPeers_tick_by_server_id dial_works ∅ world_peers eq_refl
              clock_sane_world_peers servers_keyed_world_peers)
    as (peerClients' & Hrun & Hkeys & Hnil).
  exists peerClients'. split; [exact Hrun|]. split; [|split].
  - assert (is_Some (peerClients' !! "s3")) as [client Hclient].
    { apply Hkeys. right. split; [done|].
      exists (DBServer.mk "s3" "10.0.0.3:50051" 4995).
      split; [by vm_compute|]. split; [|reflexivity].
      unfold server_dead. simpl. change (5000000 `div` 1000) with 5000. lia. }
    rewrite Hclient. f_equal. by apply (Hnil "s3").
  - apply eq_None_not_Some. intros Hsome%Hkeys.
    destruct Hsome as [[? Hsome]|[Hself _]]; [by vm_compute in Hsome|done].
  - apply eq_None_not_Some. intros Hsome%Hkeys.
    destruct Hsome as [[? Hsome]|(_ & row & Hrow & _)];
      [by vm_compute in Hsome|by vm_compute in Hrow].
Defined.

(** ** What a forward carries *)

Lemma wrap32_small z : - 2 ^ 31 ≤ z < 2 ^ 31 → wrap32 z = z.
Proof. intros Hz. unfold wrap32. rewrite Z.mod_small; lia. Qed.

Lemma pushToLocalUser_first_event msg w :
  hub_inv w →
  ∃ w' evs,
    IMServer.pushToLocalUser msg w = Some (tt, w')
    ∧ events w' = events w ++
        EvPush (Message.ToUserID msg) (IMServer.pushMsg msg)
          (queue_accepts (Message.ToUserID msg) w) :: evs.
Proof.
  intros Hinv. unfold IMServer.pushToLocalUser.
  destruct (SendToUser_run (Message.ToUserID msg) (IMServer.pushMsg msg) w Hinv)
    as (w1 & Hs & Hinv1 & _ & _ & _ & _ & _ & _ & _ & He1 & _).
  step Hs.
  destruct (queue_accepts (Message.ToUserID msg) w) eqn:Hacc.
  - unfold bind at 1. unfold UnixMilli.
    destruct (UpdateStatus_total (Message.MsgID msg) MsgStatusDelivered (clock w1) w1)
      as (err & w2 & Hu & Hh2 & _ & _ & He2).
    step Hu.
    assert (hub_inv w2) as Hinv2 by (by eapply hub_inv_same_hub).
    destruct (notifyStatusUpdate_run (Message.FromUserID msg) (Message.MsgID msg)
                MsgStatusDelivered (clock w1) w2 Hinv2)
      as (w3 & Hn & _ & _ & _ & _ & _ & _ & accepted & He3).
    eexists w3, _. split; [done|]. rewrite He3, He2, He1, <- app_assoc.
    reflexivity.
  - exists w1, []. by split.
Qed.

(** X20: when the request a node makes of a message is handled by a peer,
    the frame the peer pushes to the recipient is that of the message
    without its file id, with the status "sent" and with the type cut to 32
    bits, and the peer answers "delivered" whether or not the queue took
    the frame.  The frame is the one a local delivery pushes exactly when
    the message has no file id, is in status "sent" and has a type that
    fits 32 bits. *)
Theorem ForwardMessage_of_forward_request msg w :
  hub_inv w →
  ∃ w' evs,
    IMServer.ForwardMessage (MessageToForwardRequest msg) w
      = Some ((ForwardMessageResponse.mk true "", None), w')
    ∧ events w' = events w ++
        EvPush (Message.ToUserID msg) (IMServer.pushMsg (forwarded msg))
          (queue_accepts (Message.ToUserID msg) w) :: evs
    ∧ (IMServer.pushMsg (forwarded msg) = IMServer.pushMsg msg
       ↔ Message.FileID msg = "" ∧ Message.Status msg = MsgStatusSent
         ∧ wrap32 (Message.MsgType msg) = Message.MsgType msg).
Proof.
  intros Hinv. unfold IMServer.ForwardMessage.
  destruct (pushToLocalUser_first_event (forwarded msg) w Hinv)
    as (w' & evs & Hrun & Hev).
  exists w', evs. unfold forwarded in Hrun. simpl. step Hrun.
  split; [done|]. split; [exact Hev|].
  unfold IMServer.pushMsg, forwarded. simpl. split.
  - intros [= ? ? ?]. done.
  - intros (-> & -> & ->). done.
Qed.

Lemma ForwardMessage_of_forward_request_witness :
  hub_inv world_routed
  ∧ ∃ w' evs,
      IMServer.ForwardMessage (MessageToForwardRequest msg_photo) world_routed
      = Some ((ForwardMessageResponse.mk true "", None), w')
      ∧ events w' =
          EvPush 2
            (WSMessage.mk WSMsgTypeChatMsg "m8"
               (DataPush (WSPushMessage.mk "m8" 1 "photo" 2 "" MsgStatusSent 1000 2000))
               2000) true :: evs.
Proof.
  split; [exact hub_inv_world_routed|].
  destruct (ForwardMessage_of_forward_request msg_photo world_routed
              hub_inv_world_routed) as (w' & evs & Hrun & Hev & _).
  exists w', evs. split; [exact Hrun|exact Hev].
Defined.

(** ** Connecting *)

Lemma Hub_Register_run userID conn w :
  hub_inv w →
  ∃ w', Hub.Register userID conn w = Some (length (objects (hub w)), w')
      ∧ hub_inv w'
      ∧ db w' = db w ∧ rm w' = rm w ∧ faults w' = faults w ∧ clock w' = clock w
      ∧ CacheTTL w' = CacheTTL w ∧ ServerID w' = ServerID w
      ∧ clients (hub w') = <[userID := length (objects (hub w))]> (clients (hub w))
      ∧ objects (hub w') !! length (objects (hub w))
        = Some (Client.mk userID conn [] false false)
      ∧ ∀ b c, objects (hub w) !! b = Some c →
          objects (hub w') !! b
          = Some (if decide (clients (hub w) !! userID = Some b)
                  then Client.close_conn (Client.close_send c) else c).
Proof.
  intros Hinv. destruct (clients (hub w) !! userID) as [old|] eqn:Hold.
  - destruct (proj1 Hinv _ _ Hold) as (oc & Hoc & Hu & Hcl).
    assert (old < length (objects (hub w)))%nat as Hlt by (by eapply lookup_lt_Some).
    rewrite (Register_evict userID conn w old oc) by done.
    eexists. split; [reflexivity|].
    split; [by apply hub_inv_Register_evict|]. do 7 (split; [done|]). simpl. split.
    + rewrite list_lookup_insert_ne by lia.
      rewrite lookup_app_r by lia. by rewrite Nat.sub_diag.
    + intros b c Hb. destruct (decide (old = b)) as [<-|Hne].
      * rewrite decide_True by done.
        rewrite list_lookup_insert_eq by (rewrite length_app; lia). congruence.
      * rewrite decide_False by congruence.
        rewrite list_lookup_insert_ne by done. by apply lookup_app_l_Some.
  - rewrite Register_fresh by done. eexists. split; [reflexivity|].
    split; [by apply hub_inv_Register_fresh|]. do 7 (split; [done|]). simpl. split.
    + rewrite lookup_app_r by lia. by rewrite Nat.sub_diag.
    + intros b c Hb. try rewrite decide_False by done.
      by apply lookup_app_l_Some.
Qed.

Lemma RouteManager_Register_exec userID gatewayID w :
  faults w = [] →
  RouteManager.Register userID gatewayID w =
    Some (match im_user_routes (db w) !! userID with
          | Some old =>
              if decide (DBUserRoute.ServerID old = gatewayID
                         ∧ DBUserRoute.LastHeartbeat old = clock w `div` 1000)
              then (Some ErrDuplicateKey, w)
              else
                (None,
                 set_rm (mkCaches
                           (<[userID := RouteCache.mk gatewayID (clock w `div` 1000)]>
                              (userRoutes (rm w)))
                           (gatewayAddrs (rm w)))
                   (set_user_routes
                      (<[userID := DBUserRoute.mk userID gatewayID (clock w `div` 1000)]>
                         (im_user_routes (db w))) w))
          | None =>
              (None,
               set_rm (mkCaches
                         (<[userID := RouteCache.mk gatewayID (clock w `div` 1000)]>
                            (userRoutes (rm w)))
                         (gatewayAddrs (rm w)))
                 (set_user_routes
                    (<[userID := DBUserRoute.mk userID gatewayID (clock w `div` 1000)]>
                       (im_user_routes (db w))) w))
          end).
Proof.
  intros Hf. unfold RouteManager.Register, RouteRepository.RegisterUserRoute, bind,
    Unix, RouteManager.userRoutes_set, ret.
  rewrite (statement_ok w Hf).
  destruct (im_user_routes (db w) !! userID) as [row|] eqn:Hrow; simpl.
  - case_decide; simpl; [|done].
    rewrite (statement_ok w Hf). by rewrite Hrow.
  - rewrite (statement_ok w Hf). by rewrite Hrow.
Qed.

(** Whatever the update and the insert of the route do, after a connect
    with a working store the route row of the user names this node with the
    heartbeat of now. *)
Lemma onUserConnect_run userID conn w :
  hub_inv w → faults w = [] →
  ∃ w', IMServer.onUserConnect userID conn w = Some (length (objects (hub w)), w')
      ∧ hub_inv w' ∧ faults w' = [] ∧ clock w' = clock w
      ∧ CacheTTL w' = CacheTTL w ∧ ServerID w' = ServerID w
      ∧ clients (hub w') = <[userID := length (objects (hub w))]> (clients (hub w))
      ∧ objects (hub w') !! length (objects (hub w))
        = Some (Client.mk userID conn [] false false)
      ∧ (∀ b c, objects (hub w) !! b = Some c →
           objects (hub w') !! b
           = Some (if decide (clients (hub w) !! userID = Some b)
                   then Client.close_conn (Client.close_send c) else c))
      ∧ (∃ route, im_user_routes (db w') !! userID = Some route
                  ∧ DBUserRoute.ServerID route = ServerID w
                  ∧ DBUserRoute.LastHeartbeat route = clock w `div` 1000)
      ∧ (∀ u, u ≠ userID → im_user_routes (db w') !! u = im_user_routes (db w) !! u)
      ∧ im_servers (db w') = im_servers (db w)
      ∧ im_messages (db w') = im_messages (db w).
Proof.
  intros Hinv Hf. unfold IMServer.onUserConnect.
  destruct (Hub_Register_run userID conn w Hinv)
    as (w1 & Hreg & Hinv1 & Hdb & Hrm & Hf1 & Hclock & Httl & Hid & Hcl & Hnew & Hobj).
  step Hreg. unfold bind.
  rewrite RouteManager_Register_exec by congruence.
  rewrite Hdb, Hclock, Hid.
  destruct (im_user_routes (db w) !! userID) as [old|] eqn:Hold;
    [destruct (decide (DBUserRoute.ServerID old = ServerID w
                       ∧ DBUserRoute.LastHeartbeat old = clock w `div` 1000))
       as [[Hs Hb]|Hdiff]|];
    simpl; (eexists; split; [reflexivity|]);
    (split; [first [exact Hinv1 | by apply (hub_inv_same_hub w1)]|]); simpl;
    rewrite ?Hdb; (split; [congruence|]); do 6 (split; [done|]).
  - split; [by exists old|]. by repeat (split; [done|]).
  - split; [eexists; by rewrite lookup_insert_eq|].
    split; [intros u Hu; by rewrite lookup_insert_ne|]. done.
  - split; [eexists; by rewrite lookup_insert_eq|].
    split; [intros u Hu; by rewrite lookup_insert_ne|]. done.
Qed.

Lemma Hub_Unregister_exec userID w a c :
  clients (hub w) !! userID = Some a →
  objects (hub w) !! a = Some c →
  Client.SendClosed c = false →
  ∃ w', Hub.Unregister userID w = Some (tt, w')
      ∧ objects (hub w') = <[a := Client.close_conn (Client.close_send c)]>
                             (objects (hub w))
      ∧ clients (hub w') = delete userID (clients (hub w)).
Proof.
  intros Ha Hc Hcl.
  assert (a < length (objects (hub w)))%nat as Hlt by (by eapply lookup_lt_Some).
  unfold Hub.Unregister, bind, Hub.clients_get, Hub.close_Send, Hub.Conn_Close.
  rewrite Ha, Hc, Hcl. simpl. rewrite list_lookup_insert_eq by done. simpl.
  eexists. split; [reflexivity|]. simpl. by rewrite list_insert_insert_eq.
Qed.

(** X21: a user connects a second time and then the reader of the first
    connection, which the second connect has closed, runs its disconnect
    handling.  That handling goes by the user id: it closes the queue and
    the connection of the client of the second connection, takes the user
    out of the hub and deletes their route, although the second connection
    was never closed by its peer. *)
Theorem reconnect_then_stale_disconnect userID conn1 conn2 w :
  hub_inv w → faults w = [] →
  ∃ a1 w1 a2 w2 w3,
    IMServer.onUserConnect userID conn1 w = Some (a1, w1)
    ∧ IMServer.onUserConnect userID conn2 w1 = Some (a2, w2)
    ∧ IMServer.onUserDisconnect userID w2 = Some (tt, w3)
    ∧ a1 ≠ a2
    ∧ objects (hub w2) !! a1 = Some (Client.mk userID conn1 [] true true)
    ∧ objects (hub w2) !! a2 = Some (Client.mk userID conn2 [] false false)
    ∧ IMServer.IsUserOnline userID w2 = Some (true, w2)
    ∧ objects (hub w3) !! a2 = Some (Client.mk userID conn2 [] true true)
    ∧ IMServer.IsUserOnline userID w3 = Some (false, w3)
    ∧ im_user_routes (db w3) !! userID = None.
Proof.
  intros Hinv Hf.
  destruct (onUserConnect_run userID conn1 w Hinv Hf)
    as (w1 & Hrun1 & Hinv1 & Hf1 & _ & _ & _ & Hcl1 & Hnew1 & _).
  destruct (onUserConnect_run userID conn2 w1 Hinv1 Hf1)
    as (w2 & Hrun2 & Hinv2 & Hf2 & _ & _ & _ & Hcl2 & Hnew2 & Hobj2 & _).
  set (a1 := length (objects (hub w))) in *.
  set (a2 := length (objects (hub w1))) in *.
  assert (a1 < a2)%nat as Hlt by (by eapply lookup_lt_Some).
  assert (clients (hub w2) !! userID = Some a2) as Hin2
    by (rewrite Hcl2; apply lookup_insert_eq).
  destruct (Hub_Unregister_exec userID w2 a2 _ Hin2 Hnew2 eq_refl)
    as (w2' & Hunreg & Hobj3 & Hcl3).
  destruct (Hub_Unregister_frame _ _ _ Hunreg) as (Hdb & Hrm & Hf3 & _).
  exists a1, w1, a2, w2.
  eexists. split; [done|]. split; [done|]. split.
  { unfold IMServer.onUserDisconnect. step Hunreg.
    unfold RouteManager.Unregister, RouteRepository.UnregisterUserRoute,
      RouteManager.userRoutes_delete, bind, ret.
    rewrite (statement_ok w2') by congruence. reflexivity. }
  split; [lia|]. split.
  { rewrite (Hobj2 a1 _ Hnew1). rewrite decide_True; [done|].
    rewrite Hcl1. apply lookup_insert_eq. }
  split; [done|]. split.
  { unfold IMServer.IsUserOnline. rewrite HasClient_exec.
    rewrite bool_decide_eq_true_2; [done|]. by exists a2. }
  split.
  { simpl. rewrite Hobj3. apply list_lookup_insert_eq. by eapply lookup_lt_Some. }
  split.
  { unfold IMServer.IsUserOnline. rewrite HasClient_exec.
    rewrite bool_decide_eq_false_2; [done|].
    intros [a Ha]. simpl in Ha. rewrite Hcl3, lookup_delete_eq in Ha. done. }
  simpl. apply lookup_delete_eq.
Qed.

Lemma reconnect_then_stale_disconnect_witness :
  hub_inv world0 ∧ faults world0 = []
  ∧ ∃ a1 w1 a2 w2 w3,
      IMServer.onUserConnect 2 7 world0 = Some (a1, w1)
      ∧ IMServer.onUserConnect 2 8 w1 = Some (a2, w2)
      ∧ IMServer.onUserDisconnect 2 w2 = Some (tt, w3)
      ∧ objects (hub w3) !! a2 = Some (Client.mk 2 8 [] true true)
      ∧ IMServer.IsUserOnline 2 w3 = Some (false, w3).
Proof.
  split; [exact hub_inv_world0|]. split; [reflexivity|].
  destruct (reconnect_then_stale_disconnect 2 7 8 world0 hub_inv_world0 eq_refl)
    as (a1 & w1 & a2 & w2 & w3 & H1 & H2 & H3 & _ & _ & _ & _ & Hobj & Hoff & _).
  exists a1, w1, a2, w2, w3. by repeat (split; [assumption|]).
Defined.

(** X22: once a user has connected to a node whose registry row exists and
    the store took the route, every node that reads the same tables and
    has nothing fresh in its cache for the user resolves them to the
    connecting node and to the address of its registry row. *)
Theorem onUserConnect_visible_to_peers userID conn row w :
  hub_inv w → faults w = [] →
  im_servers (db w) !! ServerID w = Some row →
  ∃ a w',
    IMServer.onUserConnect userID conn w = Some (a, w')
    ∧ IMServer.IsUserOnline userID w' = Some (true, w')
    ∧ ∀ peer, db peer = db w' → faults peer = [] → ¬ cache_fresh userID peer →
        ∃ peer',
          RouteManager.GetUserRoute userID peer
          = Some ((ServerID w, DBServer.GRPCAddr row, true), peer').
Proof.
  intros Hinv Hf Hrow.
  destruct (onUserConnect_run userID conn w Hinv Hf)
    as (w' & Hrun & _ & _ & _ & _ & _ & Hcl & _ & _
        & (route & Hroute & Hserver & _) & _ & Hservers & _).
  exists (length (objects (hub w))), w'. split; [done|]. split.
  { unfold IMServer.IsUserOnline. rewrite HasClient_exec.
    rewrite bool_decide_eq_true_2; [done|].
    unfold installed. rewrite Hcl, lookup_insert_eq. by eexists. }
  intros peer Hdb Hfp Hstale.
  rewrite GetUserRoute_miss by done. rewrite GetUserRoute_db_exec by done.
  assert (route_rows userID peer = Some (ServerID w, DBServer.GRPCAddr row)) as ->.
  { unfold route_rows. rewrite Hdb, Hroute. simpl.
    by rewrite Hserver, Hservers, Hrow. }
  by eexists.
Qed.

Lemma onUserConnect_visible_to_peers_witness :
  hub_inv world_peers ∧ faults world_peers = []
  ∧ ∃ a w',
      IMServer.onUserConnect 2 7 world_peers = Some (a, w')
      ∧ ∃ peer',
          RouteManager.GetUserRoute 2
            (mkWorld "s3" 30 (mkHub ∅ []) (mkCaches ∅ ∅) (db w') 5001000 [] [])
          = Some (("s1", "10.0.0.1:50051", true), peer').
Proof.
  assert (hub_inv world_peers) as Hinv.
  { apply (hub_inv_same_hub world0); [done|]. exact hub_inv_world0. }
  split; [exact Hinv|]. split; [reflexivity|].
  destruct (onUserConnect_visible_to_peers 2 7
              (DBServer.mk "s1" "10.0.0.1:50051" 4990) world_peers Hinv eq_refl)
    as (a & w' & Hrun & _ & Hpeers); [by vm_compute|].
  exists a, w'. split; [exact Hrun|].
  apply Hpeers; [reflexivity|reflexivity|].
  intros (c & Hc & _). by vm_compute in Hc.
Defined.

(** X23: when the store refuses the route at connect time the error is
    dropped: the user is installed in the hub, but neither the table nor
    the cache of the node learns of it.  If no route was known for the
    user before, the node keeps treating them as offline although they
    are connected to it: a message for them is left undelivered. *)
Theorem onUserConnect_store_failure dial userID conn fs w :
  hub_inv w → faults w = true :: fs →
  ∃ a w',
    IMServer.onUserConnect userID conn w = Some (a, w')
    ∧ IMServer.IsUserOnline userID w' = Some (true, w')
    ∧ db w' = db w ∧ rm w' = rm w ∧ faults w' = fs
    ∧ (unroutable userID w → fs = [] →
       ∀ msg peerClients, Message.ToUserID msg = userID →
         IMServer.routeAndDeliver dial msg peerClients w'
         = Some ((None, peerClients), w')).
Proof.
  intros Hinv Hf.
  destruct (Hub_Register_run userID conn w Hinv)
    as (w1 & Hreg & Hinv1 & Hdb & Hrm & Hf1 & Hclock & Httl & Hid & Hcl & _).
  unfold IMServer.onUserConnect. step Hreg.
  unfold RouteManager.Register, RouteRepository.RegisterUserRoute, bind, Unix,
    statement, ret.
  rewrite Hf1, Hf. simpl.
  eexists _, _. split; [reflexivity|]. split.
  { unfold IMServer.IsUserOnline. rewrite HasClient_exec.
    rewrite bool_decide_eq_true_2; [done|].
    unfold installed. simpl. rewrite Hcl, lookup_insert_eq. by eexists. }
  do 3 (split; [done|]).
  intros [Hstale Hnone] -> msg peerClients Hto.
  apply routeAndDeliver_offline; [done|]. rewrite Hto. split.
  - intros Hfresh. apply Hstale. revert Hfresh. unfold cache_fresh. simpl.
    by rewrite Hrm, Hclock, Httl.
  - unfold route_rows in *. simpl. by rewrite Hdb.
Qed.

Lemma onUserConnect_store_failure_witness :
  hub_inv (set_faults [true] world0) ∧ faults (set_faults [true] world0) = [true]
  ∧ ∃ a w',
      IMServer.onUserConnect 2 7 (set_faults [true] world0) = Some (a, w')
      ∧ IMServer.IsUserOnline 2 w' = Some (true, w')
      ∧ IMServer.routeAndDeliver dial_fails msg_m1 ∅ w' = Some ((None, ∅), w').
Proof.
  assert (hub_inv (set_faults [true] world0)) as Hinv.
  { apply (hub_inv_same_hub world0); [done|]. exact hub_inv_world0. }
  split; [exact Hinv|]. split; [reflexivity|].
  destruct (onUserConnect_store_failure dial_fails 2 7 [] (set_faults [true] world0)
              Hinv eq_refl) as (a & w' & Hrun & Hon & _ & _ & _ & Hoff).
  exists a, w'. split; [exact Hrun|]. split; [exact Hon|].
  apply Hoff; [|reflexivity|reflexivity].
  split; [|reflexivity]. intros (c & Hc & _). by vm_compute in Hc.
Defined.

Lemma updateSession_recipient_row msg w w' :
  faults w = [] → IMServer.updateSession msg w = Some (tt, w') →
  is_Some (unread_of (Message.ToUserID msg) (Message.FromUserID msg)
             SessionTypeSingle w').
Proof.
  intros Hf. unfold IMServer.updateSession, SessionRepository.UpdateSession, bind.
  rewrite (statement_ok w Hf).
  destruct (im_sessions (db w) !! _) as [row|]; simpl;
    rewrite statement_ok by done; simpl;
    match goal with
    | |- context [match ?m !! ?k with _ => _ end] => destruct (m !! k) as [row'|]
    end; simpl; intros [= <-]; unfold unread_of; simpl;
    change (column_default 1 SessionTypeSingle) with SessionTypeSingle;
    rewrite lookup_insert_eq; by eexists.
Qed.

(** ** System messages *)

(** X24: a system message for a recipient for whom no route is found is
    stored under the generated id with an empty file id, a client time of
    zero and status "sent", the recipient's session gets the message, and
    nothing is pushed to anyone: unlike a chat frame, the request gets no
    acknowledgement frame. *)
Theorem SendMessage_offline_recipient dial req generated peerClients w :
  faults w = [] → rows_of generated w = [] →
  unroutable (SendMessageRequest.ToUserID req) w →
  ∃ w' row,
    IMServer.SendMessage dial req generated peerClients w
      = Some ((None, peerClients), w')
    ∧ rows_of generated w' = [row]
    ∧ MessageRepository.toModel row
      = as_stored (system_message req generated (clock w))
    ∧ DBMessage.FileID row = "" ∧ DBMessage.ClientTime row = 0
    ∧ MessageRepository.undelivered_where (SendMessageRequest.ToUserID req) row
    ∧ events w' = events w ∧ hub w' = hub w
    ∧ is_Some (unread_of (SendMessageRequest.ToUserID req)
                 (SendMessageRequest.FromUserID req) SessionTypeSingle w').
Proof.
  intros Hf Hfresh [Hstale Hnone]. unfold IMServer.SendMessage.
  unfold bind at 1. unfold UnixMilli.
  fold (system_message req generated (clock w)).
  set (msg := system_message req generated (clock w)).
  pose proof (Save_exec msg w Hf) as Hsave.
  rewrite decide_False in Hsave by (by apply rows_of_nil_iff).
  step Hsave. set (w1 := set_messages _ w).
  destruct (updateSession_frame msg w1 Hf)
    as (w2 & Hupd & Hf2 & Hh2 & Hrm2 & Hc2 & He2 & Httl2 & Hid2 & Hm2 & Hs2 & Hr2).
  assert (is_Some (unread_of (SendMessageRequest.ToUserID req)
                     (SendMessageRequest.FromUserID req) SessionTypeSingle w2)) as Hsess.
  { by apply (updateSession_recipient_row msg w1 w2). }
  step Hupd. rewrite routeAndDeliver_offline; [|done|].
  2:{ split.
      - by rewrite (cache_fresh_same w w2) by (by rewrite ?Hrm2, ?Hc2, ?Httl2).
      - unfold route_rows in *. by rewrite Hr2, Hs2. }
  eexists w2, _. split; [done|]. split.
  { unfold rows_of. rewrite Hm2. simpl. rewrite filter_app.
    fold (rows_of generated w). rewrite Hfresh. simpl.
    rewrite filter_cons_True by done. done. }
  by repeat (split; [done|]).
Qed.

Lemma SendMessage_offline_recipient_witness :
  faults world0 = [] ∧ rows_of "g1" world0 = [] ∧ unroutable 2 world0
  ∧ ∃ w' row,
      IMServer.SendMessage dial_fails req_welcome "g1" ∅ world0 = Some ((None, ∅), w')
      ∧ rows_of "g1" w' = [row]
      ∧ DBMessage.FileID row = ""
      ∧ events w' = [].
Proof.
  split; [reflexivity|]. split; [reflexivity|]. split; [exact unroutable_world0|].
  destruct (SendMessage_offline_recipient dial_fails req_welcome "g1" ∅ world0
              eq_refl eq_refl unroutable_world0)
    as (w' & row & Hrun & Hrows & _ & Hfile & _ & _ & Hev & _).
  exists w', row. split; [exact Hrun|]. split; [exact Hrows|].
  split; [exact Hfile|exact Hev].
Defined.

(** ** A drain with room *)

Lemma queue_accepts_room userID w :
  hub_inv w → installed userID w →
  (length (queue_of userID w) < SendCap)%nat →
  queue_accepts userID w = true.
Proof.
  intros [Hopen _] [a Ha] Hlen. destruct (Hopen _ _ Ha) as (c & Hc & _).
  unfold queue_accepts, queue_of in *. rewrite Ha, Hc in *. simpl in Hlen.
  by apply bool_decide_eq_true_2.
Qed.

Lemma SendToUser_queue_bound userID data w r w' v :
  hub_inv w → Hub.SendToUser userID data w = Some (r, w') →
  (length (queue_of v w') ≤ length (queue_of v w) + 1)%nat.
Proof.
  intros Hinv Hrun. destruct (decide (v = userID)) as [->|Hne].
  - destruct (SendToUser_run userID data w Hinv)
      as (w'' & Hrun' & _ & _ & _ & _ & _ & _ & _ & _ & _ & Hsame & Happ).
    rewrite Hrun in Hrun'. injection Hrun' as -> ->.
    destruct (queue_accepts userID w) eqn:E.
    + rewrite Happ by done. rewrite length_app. simpl. lia.
    + unfold queue_of. rewrite (Hsame eq_refl). lia.
  - destruct (SendToUser_others _ _ _ _ _ Hinv Hrun v Hne) as [-> _]. lia.
Qed.

Lemma updates_ToUserID status updateTime m :
  DBMessage.ToUserID (MessageRepository.updates status updateTime m)
  = DBMessage.ToUserID m.
Proof. unfold MessageRepository.updates. by repeat case_decide. Qed.

Lemma pushOfflineMessages_loop_room userID messages w :
  hub_inv w → faults w = [] → installed userID w →
  (length (queue_of userID w) + 2 * length messages ≤ SendCap)%nat →
  ∃ w' evs,
    IMServer.pushOfflineMessages_loop userID messages w = Some (tt, w')
    ∧ hub_inv w' ∧ events w' = events w ++ evs
    ∧ chat_pushes userID evs = (λ m, (IMServer.pushMsg m, true)) <$> messages
    ∧ ∀ i r', im_messages (db w') !! i = Some r' →
        ∃ r, im_messages (db w) !! i = Some r
           ∧ DBMessage.MsgID r' = DBMessage.MsgID r
           ∧ DBMessage.ToUserID r' = DBMessage.ToUserID r
           ∧ (DBMessage.MsgID r ∈ Message.MsgID <$> messages →
                DBMessage.Status r' = MsgStatusDelivered)
           ∧ (DBMessage.MsgID r ∉ Message.MsgID <$> messages → r' = r).
Proof.
  revert w. induction messages as [|msg messages IH]; intros w Hinv Hf Hinst Hroom.
  - exists w, []. simpl. unfold ret. split; [done|]. split; [done|].
    split; [by rewrite app_nil_r|]. split; [done|].
    intros i r' Hr'. exists r'. split; [done|]. split; [done|]. split; [done|].
    split; [by intros ?%elem_of_nil|done].
  - cbn [IMServer.pushOfflineMessages_loop]. simpl in Hroom.
    destruct (SendToUser_run userID (IMServer.pushMsg msg) w Hinv)
      as (w1 & Hs & Hinv1 & Hd1 & _ & Hf1 & Hc1 & _ & _ & Hcl1 & He1 & _ & Happ1).
    rewrite (queue_accepts_room userID w) in * by (done || lia).
    specialize (Happ1 eq_refl). step Hs.
    unfold bind at 1. unfold UnixMilli.
    rewrite (bind_Some _ _ _ _ _
               (UpdateStatus_exec (Message.MsgID msg) MsgStatusDelivered (clock w1) w1
                  ltac:(congruence))).
    set (w2 := set_messages _ w1).
    assert (hub_inv w2) as Hinv2 by (by apply (hub_inv_same_hub w1)).
    destruct (SendToUser_run (Message.FromUserID msg)
                (status_frame (Message.MsgID msg) MsgStatusDelivered (clock w1)) w2 Hinv2)
      as (w3 & Hn & Hinv3 & Hd3 & _ & Hf3 & _ & _ & _ & Hcl3 & He3 & _).
    pose proof (SendToUser_queue_bound _ _ _ _ _ userID Hinv2 Hn) as Hbound.
    assert (IMServer.notifyStatusUpdate (Message.FromUserID msg) (Message.MsgID msg)
              MsgStatusDelivered (clock w1) w2 = Some (tt, w3)) as Hnotify.
    { unfold IMServer.notifyStatusUpdate. unfold status_frame in Hn. by step Hn. }
    step Hnotify. unfold bind at 1. unfold Sleep.
    set (w4 := set_clock (clock w3 + 10) w3).
    destruct (IH w4) as (w' & evs & Hrun & Hinv' & He' & Hlog & Hrows).
    { by apply (hub_inv_same_hub w3). }
    { simpl. rewrite Hf3. simpl. congruence. }
    { unfold installed in *. simpl. rewrite Hcl3.
      change (clients (hub w2)) with (clients (hub w1)). by rewrite Hcl1. }
    { assert (queue_of userID w4 = queue_of userID w3) as -> by done.
      assert (queue_of userID w2 = queue_of userID w1) as Hq by done.
      rewrite Hq, Happ1, length_app in Hbound. simpl in Hbound. lia. }
    eexists w', _. split; [exact Hrun|]. split; [done|].
    split.
    { rewrite He'. simpl. rewrite He3. simpl. rewrite He1, <- !app_assoc.
      reflexivity. }
    split.
    { simpl. rewrite decide_True by done.
      rewrite decide_False by (by intros [_ [=]]). by rewrite Hlog. }
    intros i r' Hr'. destruct (Hrows i r' Hr') as (r1 & Hr1 & Hid1 & Hto1 & Hin1 & Hout1).
    assert (im_messages (db w4)
            = MessageRepository.update_where (Message.MsgID msg) MsgStatusDelivered
                (clock w1) (im_messages (db w))) as Hm4.
    { simpl. rewrite Hd3. simpl. by rewrite Hd1. }
    rewrite Hm4 in Hr1. unfold MessageRepository.update_where in Hr1.
    rewrite list_lookup_fmap in Hr1.
    destruct (im_messages (db w) !! i) as [r|] eqn:Hr; [|done].
    simpl in Hr1. injection Hr1 as <-. exists r. split; [done|].
    assert (DBMessage.MsgID
              (if decide (DBMessage.MsgID r = Message.MsgID msg)
               then MessageRepository.updates MsgStatusDelivered (clock w1) r else r)
            = DBMessage.MsgID r) as Hsame
      by (case_decide; [apply updates_MsgID|done]).
    rewrite Hsame in *. split; [done|]. split.
    { rewrite Hto1. case_decide; [apply updates_ToUserID|done]. }
    split.
    + intros [Heq|Hin]%elem_of_cons.
      * destruct (decide (DBMessage.MsgID r ∈ Message.MsgID <$> messages)) as [?|Hn'];
          [by apply Hin1|].
        rewrite (Hout1 Hn'). rewrite decide_True by done. apply updates_Status.
      * by apply Hin1.
    + intros [Hne Hnin]%not_elem_of_cons. rewrite (Hout1 Hnin).
      by rewrite decide_False.
Qed.

(** X25: when at most 100 messages wait for a user who is installed, the
    store works and the queue has room for two frames per message, the
    drain pushes all of them, oldest first, each push accepted, and
    afterwards no message for the user is left in status "sent". *)
Theorem pushOfflineMessages_clears_backlog userID w :
  hub_inv w → faults w = [] → installed userID w →
  (length (filter (MessageRepository.undelivered_where userID) (im_messages (db w)))
   ≤ 100)%nat →
  (length (queue_of userID w)
   + 2 * length (filter (MessageRepository.undelivered_where userID)
                   (im_messages (db w))) ≤ SendCap)%nat →
  ∃ w' evs batch,
    IMServer.pushOfflineMessages userID w = Some (tt, w')
    ∧ MessageRepository.GetUndeliveredMessages userID 100 w = Some (Ok batch, w)
    ∧ events w' = events w ++ evs
    ∧ chat_pushes userID evs = (λ m, (IMServer.pushMsg m, true)) <$> batch
    ∧ filter (MessageRepository.undelivered_where userID) (im_messages (db w')) = [].
Proof.
  intros Hinv Hf Hinst Hfew Hroom.
  set (pending := filter (MessageRepository.undelivered_where userID)
                    (im_messages (db w))) in *.
  set (batch := MessageRepository.toModel <$> order_by_server_time_asc pending).
  assert (order_by_server_time_asc pending ≡ₚ pending) as Hperm
    by apply merge_sort_Permutation.
  assert (length batch = length pending) as Hlen.
  { unfold batch. rewrite length_fmap. by apply Permutation_length. }
  assert (MessageRepository.GetUndeliveredMessages userID 100 w = Some (Ok batch, w))
    as Hquery.
  { rewrite (GetUndeliveredMessages_exec userID 100 w w (statement_ok w Hf)).
    fold pending. rewrite sql_limit_nonneg by lia. rewrite take_ge; [done|].
    rewrite (Permutation_length Hperm). lia. }
  unfold IMServer.pushOfflineMessages. step Hquery.
  destruct (pushOfflineMessages_loop_room userID batch w Hinv Hf Hinst)
    as (w' & evs & Hrun & _ & Hev & Hlog & Hrows); [lia|].
  assert (filter (MessageRepository.undelivered_where userID) (im_messages (db w')) = [])
    as Hclear.
  { apply filter_none. intros r' Hin [Hto Hsent].
    apply list_elem_of_lookup in Hin as [i Hi].
    destruct (Hrows i r' Hi) as (r & Hr & Hid & Hto' & Hdel & Hsame).
    destruct (decide (DBMessage.MsgID r ∈ Message.MsgID <$> batch)) as [Hin|Hnin].
    - rewrite (Hdel Hin) in Hsent. done.
    - rewrite (Hsame Hnin) in *. apply Hnin.
      apply list_elem_of_fmap. exists (MessageRepository.toModel r). split; [done|].
      apply list_elem_of_fmap. exists r. split; [done|]. rewrite Hperm.
      apply list_elem_of_filter. split; [done|].
      by apply (list_elem_of_lookup_2 _ i). }
  case_decide as Hempty.
  - exists w, [], batch. unfold ret. split; [done|]. split; [done|].
    split; [by rewrite app_nil_r|]. split.
    { by destruct batch. }
    apply filter_none. intros r Hin Hund.
    assert (r ∈ pending) as Hp by (by apply list_elem_of_filter).
    destruct pending; [by apply elem_of_nil in Hp|]. simpl in Hlen. lia.
  - by exists w', evs, batch.
Qed.

Lemma hub_inv_world_backlog : hub_inv world_backlog.
Proof. apply (hub_inv_same_hub world_connected); [done|]. exact hub_inv_world_connected. Qed.

Lemma pushOfflineMessages_clears_backlog_witness :
  hub_inv world_backlog ∧ faults world_backlog = [] ∧ installed 2 world_backlog
  ∧ ∃ w' evs,
      IMServer.pushOfflineMessages 2 world_backlog = Some (tt, w')
      ∧ events w' = events world_backlog ++ evs
      ∧ (fst <$> chat_pushes 2 evs)
        = [IMServer.pushMsg (Message.mk "m3" 3 2 0 "hey" MsgTypeText MsgStatusSent ""
                               2600 2600 0 0);
           IMServer.pushMsg (Message.mk "m4" 1 2 0 "bye" MsgTypeText MsgStatusSent ""
                               2900 3000 0 0)]
      ∧ filter (MessageRepository.undelivered_where 2) (im_messages (db w')) = [].
Proof.
  assert (installed 2 world_backlog) as Hinst by (by eexists).
  split; [exact hub_inv_world_backlog|]. split; [reflexivity|]. split; [exact Hinst|].
  destruct (pushOfflineMessages_clears_backlog 2 world_backlog hub_inv_world_backlog
              eq_refl Hinst) as (w' & evs & batch & Hrun & Hquery & Hev & Hlog & Hclear).
  - vm_compute. lia.
  - vm_compute. lia.
  - exists w', evs. split; [exact Hrun|]. split; [exact Hev|]. split; [|exact Hclear].
    rewrite Hlog. vm_compute in Hquery. injection Hquery as <-. reflexivity.
Defined.

(** ** Groups and their members *)

Lemma IsMember_exec groupID userID tables w :
  faults w = [] →
  GroupRepository.IsMember groupID userID tables w
  = Some ((bool_decide (member_of groupID userID tables), None), w).
Proof.
  intros Hf. unfold GroupRepository.IsMember. step (statement_ok w Hf).
  unfold ret. do 3 f_equal. apply bool_decide_ext. unfold member_of.
  set (l := filter _ _). split.
  - intros Hpos. destruct l as [|[k row] l'] eqn:Hl; [simpl in Hpos; lia|].
    assert ((k, row) ∈ l) as Hin by (rewrite Hl; apply elem_of_cons; by left).
    apply list_elem_of_filter in Hin as [Hk Hin]. simpl in Hk. subst k.
    apply elem_of_map_to_list in Hin. by exists row.
  - intros [row Hrow].
    assert (((groupID, userID), row) ∈ l) as Hin.
    { apply list_elem_of_filter. split; [done|]. by apply elem_of_map_to_list. }
    destruct l; [by apply elem_of_nil in Hin|]. simpl. lia.
Qed.

(** X26: adding a member who is not in the group, with a working store,
    makes them a member and touches no other membership; adding them again
    is refused with the duplicate-key error and changes nothing; removing
    them puts the member table back as it was before. *)
Theorem AddMember_membership member tables w :
  faults w = [] →
  ¬ member_of (GroupMember.GroupID member) (GroupMember.UserID member) tables →
  ∃ tables1 tables2,
    GroupRepository.AddMember member tables w = Some ((None, tables1), w)
    ∧ GroupRepository.IsMember (GroupMember.GroupID member)
        (GroupMember.UserID member) tables1 w = Some ((true, None), w)
    ∧ (∀ groupID userID,
         (groupID, userID) ≠ (GroupMember.GroupID member, GroupMember.UserID member) →
         GroupRepository.IsMember groupID userID tables1 w
         = GroupRepository.IsMember groupID userID tables w)
    ∧ GroupRepository.AddMember member tables1 w
      = Some ((Some ErrDuplicateKey, tables1), w)
    ∧ GroupRepository.RemoveMember (GroupMember.GroupID member)
        (GroupMember.UserID member) tables1 w = Some ((None, tables2), w)
    ∧ GroupRepository.IsMember (GroupMember.GroupID member)
        (GroupMember.UserID member) tables2 w = Some ((false, None), w)
    ∧ im_group_members tables2 = im_group_members tables.
Proof.
  intros Hf Hnot.
  assert (im_group_members tables
            !! (GroupMember.GroupID member, GroupMember.UserID member) = None) as Hnone.
  { apply eq_None_not_Some. exact Hnot. }
  unfold GroupRepository.AddMember at 1. unfold bind at 1. unfold UnixMilli.
  step (statement_ok w Hf). rewrite Hnone.
  eexists _, _. split; [reflexivity|]. split.
  { rewrite IsMember_exec by done. rewrite bool_decide_eq_true_2; [done|].
    unfold member_of. simpl. rewrite lookup_insert_eq. by eexists. }
  split.
  { intros groupID userID Hne. rewrite !IsMember_exec by done.
    do 3 f_equal. apply bool_decide_ext. unfold member_of. simpl.
    by rewrite lookup_insert_ne. }
  split.
  { unfold GroupRepository.AddMember, bind, UnixMilli.
    rewrite (statement_ok w Hf). simpl. by rewrite lookup_insert_eq. }
  split.
  { unfold GroupRepository.RemoveMember. step (statement_ok w Hf). reflexivity. }
  split.
  { rewrite IsMember_exec by done. rewrite bool_decide_eq_false_2; [done|].
    unfold member_of. simpl. rewrite lookup_delete_eq. by intros [? [=]]. }
  simpl. rewrite delete_insert_eq. by apply delete_id.
Qed.

Lemma AddMember_membership_witness :
  faults world0 = [] ∧ ¬ member_of 1 6 tables_g1
  ∧ ∃ tables1,
      GroupRepository.AddMember (GroupMember.mk 1 6 0 0) tables_g1 world0
        = Some ((None, tables1), world0)
      ∧ GroupRepository.IsMember 1 6 tables1 world0 = Some ((true, None), world0)
      ∧ GroupRepository.AddMember (GroupMember.mk 1 6 0 0) tables1 world0
        = Some ((Some ErrDuplicateKey, tables1), world0).
Proof.
  assert (¬ member_of 1 6 tables_g1) as Hnot by (intros [? H]; by vm_compute in H).
  split; [reflexivity|]. split; [exact Hnot|].
  destruct (AddMember_membership (GroupMember.mk 1 6 0 0) tables_g1 world0 eq_refl Hnot)
    as (tables1 & tables2 & Hadd & Hin & _ & Hdup & _).
  exists tables1. split; [exact Hadd|]. split; [exact Hin|exact Hdup].
Defined.

(** X27: with a working store the member list of a group holds the member
    rows of that group and of no other, no user twice, and a user is on the
    list exactly when the membership check says so. *)
Theorem GetMembers_lists_members groupID tables w :
  faults w = [] → members_keyed tables →
  ∃ members,
    GroupRepository.GetMembers groupID tables w = Some (Ok members, w)
    ∧ (∀ m, m ∈ members → GroupMember.GroupID m = groupID)
    ∧ (∀ userID,
         (∃ m, m ∈ members ∧ GroupMember.UserID m = userID)
         ↔ GroupRepository.IsMember groupID userID tables w = Some ((true, None), w))
    ∧ NoDup (GroupMember.UserID <$> members).
Proof.
  intros Hf Hkeyed. unfold GroupRepository.GetMembers. step (statement_ok w Hf).
  eexists. split; [reflexivity|].
  set (rows := filter (λ kv : Z * Z * DBGroupMember.t, kv.1.1 = groupID)
                 (map_to_list (im_group_members tables))).
  assert (∀ k row, (k, row) ∈ rows ↔
            im_group_members tables !! k = Some row ∧ k.1 = groupID) as Hrows.
  { intros k row. unfold rows. rewrite list_elem_of_filter, elem_of_map_to_list.
    simpl. tauto. }
  split; [|split].
  - intros m (row & -> & Hin)%list_elem_of_fmap.
    apply list_elem_of_fmap in Hin as ([k row'] & -> & Hin).
    apply Hrows in Hin as [Hrow Hk]. simpl.
    pose proof (Hkeyed _ _ Hrow) as ->. done.
  - intros userID. rewrite IsMember_exec by done. split.
    + intros (m & (row & -> & Hin)%list_elem_of_fmap & Hu).
      apply list_elem_of_fmap in Hin as ([k row'] & -> & Hin).
      apply Hrows in Hin as [Hrow Hk]. simpl in *.
      rewrite bool_decide_eq_true_2; [done|]. exists row'.
      pose proof (Hkeyed _ _ Hrow) as ->. simpl in *. by subst.
    + intros [= Hb]. apply bool_decide_eq_true_1 in Hb as [row Hrow].
      eexists. split.
      * apply list_elem_of_fmap. exists row. split; [reflexivity|].
        apply list_elem_of_fmap. exists ((groupID, userID), row). split; [done|].
        by apply Hrows.
      * simpl. pose proof (Hkeyed _ _ Hrow) as [= _ Hu]. done.
  - rewrite <- !list_fmap_compose. apply NoDup_fmap_2_strong.
    + intros [k1 r1] [k2 r2] [Hr1 Hk1]%Hrows [Hr2 Hk2]%Hrows Heq. simpl in *.
      pose proof (Hkeyed _ _ Hr1) as E1. pose proof (Hkeyed _ _ Hr2) as E2.
      assert (k1 = k2) as <-.
      { rewrite E1, E2 in *. simpl in *. congruence. }
      congruence.
    + apply NoDup_filter, NoDup_map_to_list.
Qed.

Lemma members_keyed_tables_g1 : members_keyed tables_g1.
Proof.
  intros k row Hrow. simpl in Hrow.
  by apply lookup_singleton_Some in Hrow as [<- <-].
Qed.

Lemma GetMembers_lists_members_witness :
  faults world0 = [] ∧ members_keyed tables_g1
  ∧ ∃ members,
      GroupRepository.GetMembers 1 tables_g1 world0 = Some (Ok members, world0)
      ∧ (∃ m, m ∈ members ∧ GroupMember.UserID m = 5)
      ∧ ¬ (∃ m, m ∈ members ∧ GroupMember.UserID m = 6).
Proof.
  split; [reflexivity|]. split; [exact members_keyed_tables_g1|].
  destruct (GetMembers_lists_members 1 tables_g1 world0 eq_refl members_keyed_tables_g1)
    as (members & Hrun & _ & Hmem & _).
  exists members. split; [exact Hrun|]. split.
  - apply Hmem. by vm_compute.
  - intros Hin%Hmem. by vm_compute in Hin.
Defined.

(** X28: creating a group, when the store works and the next id is free,
    stores it under that id with the time of now and hands both back; the
    group then reads back as handed back, the other groups read as before,
    and the member table is untouched: the owner is not made a member. *)
Theorem CreateGroup_then_GetGroup group tables w :
  faults w = [] → im_groups tables !! group_seq tables = None →
  ∃ group' tables',
    GroupRepository.CreateGroup group tables w = Some ((None, group', tables'), w)
    ∧ group' = Group.mk (group_seq tables) (Group.GroupName group)
                 (Group.OwnerID group) (Group.AvatarURL group) (clock w)
    ∧ GroupRepository.GetGroup (Group.GroupID group') tables' w = Some (Ok group', w)
    ∧ (∀ groupID, groupID ≠ group_seq tables →
         GroupRepository.GetGroup groupID tables' w
         = GroupRepository.GetGroup groupID tables w)
    ∧ im_group_members tables' = im_group_members tables
    ∧ group_seq tables < group_seq tables'.
Proof.
  intros Hf Hfree. unfold GroupRepository.CreateGroup. unfold bind at 1.
  unfold UnixMilli. step (statement_ok w Hf). rewrite Hfree.
  eexists _, _. split; [reflexivity|]. split; [reflexivity|]. split.
  { unfold GroupRepository.GetGroup. step (statement_ok w Hf). simpl.
    by rewrite lookup_insert_eq. }
  split.
  { intros groupID Hne. unfold GroupRepository.GetGroup, bind.
    rewrite (statement_ok w Hf). simpl. by rewrite lookup_insert_ne. }
  split; [done|]. simpl. lia.
Qed.

Lemma CreateGroup_then_GetGroup_witness :
  faults world0 = [] ∧ im_groups tables_g1 !! group_seq tables_g1 = None
  ∧ ∃ tables',
      GroupRepository.CreateGroup (Group.mk 0 "chess" 6 "" 0) tables_g1 world0
        = Some ((None, Group.mk 2 "chess" 6 "" 5000, tables'), world0)
      ∧ GroupRepository.GetGroup 2 tables' world0
        = Some (Ok (Group.mk 2 "chess" 6 "" 5000), world0).
Proof.
  split; [reflexivity|]. split; [reflexivity|].
  destruct (CreateGroup_then_GetGroup (Group.mk 0 "chess" 6 "" 0) tables_g1 world0
              eq_refl eq_refl) as (group' & tables' & Hrun & -> & Hget & _).
  exists tables'. split; [exact Hrun|exact Hget].
Defined.

(** ** Read receipts *)

(** X29: a read receipt for a stored message, with a working store, puts
    the message in status "read" with the read time of the server's clock
    and sends one status update "read", stamped with that time, to the
    sender of the message.  A receipt for an unknown id changes nothing
    and sends nothing.  Who sent the receipt plays no part in it, nor do
    the type and the time the receipt carries. *)
Theorem handleReadReceipt_notifies_sender userID receipt w :
  hub_inv w → faults w = [] →
  ∃ w',
    IMServer.handleReadReceipt userID (Some receipt) w = Some (tt, w')
    ∧ match rows_of (WSReceipt.MsgID receipt) w with
      | row :: _ =>
          status_of (WSReceipt.MsgID receipt) w' = Some MsgStatusRead
          ∧ read_time_of (WSReceipt.MsgID receipt) w' = Some (clock w)
          ∧ events w' = events w ++
              [EvPush (DBMessage.FromUserID row)
                 (status_frame (WSReceipt.MsgID receipt) MsgStatusRead (clock w))
                 (queue_accepts (DBMessage.FromUserID row) w)]
      | [] => w' = w
      end
    ∧ ∀ other type_ time,
        IMServer.handleReadReceipt other
          (Some (WSReceipt.mk (WSReceipt.MsgID receipt) type_ time)) w
        = Some (tt, w').
Proof.
  intros Hinv Hf.
  assert (∃ w', IMServer.MarkAsRead_loop (clock w) [WSReceipt.MsgID receipt] w
                = Some (tt, w')
            ∧ match rows_of (WSReceipt.MsgID receipt) w with
              | row :: _ =>
                  status_of (WSReceipt.MsgID receipt) w' = Some MsgStatusRead
                  ∧ read_time_of (WSReceipt.MsgID receipt) w' = Some (clock w)
                  ∧ events w' = events w ++
                      [EvPush (DBMessage.FromUserID row)
                         (status_frame (WSReceipt.MsgID receipt) MsgStatusRead (clock w))
                         (queue_accepts (DBMessage.FromUserID row) w)]
              | [] => w' = w
              end) as (w' & Hrun & Heffect).
  { cbn [IMServer.MarkAsRead_loop].
    rewrite (bind_Some _ _ _ _ _
               (UpdateStatus_exec (WSReceipt.MsgID receipt) MsgStatusRead (clock w) w Hf)).
    set (w1 := set_messages _ w).
    destruct (GetByMsgID_run (WSReceipt.MsgID receipt) w1)
      as (r & w2 & Hget & Hh2 & Hd2 & _ & _ & He2 & Hr).
    destruct (Hr Hf) as [Hf2 ->]. step Hget.
    unfold w1 at 1. rewrite rows_of_UpdateStatus.
    destruct (rows_of (WSReceipt.MsgID receipt) w) as [|row rows] eqn:Hrows; simpl.
    - assert (w1 = w) as Hw1.
      { unfold w1. rewrite (update_where_absent _ _ _ _ Hrows).
        apply set_messages_same. }
      exists w. split; [|done]. revert Hget. rewrite Hw1. unfold rows_of in Hrows.
      unfold MessageRepository.GetByMsgID, bind. rewrite (statement_ok w Hf).
      rewrite Hrows. by intros [= _ ->].
    - assert (hub_inv w2) as Hinv2
        by (apply (hub_inv_same_hub w); [by rewrite Hh2|done]).
      destruct (SendToUser_run (DBMessage.FromUserID row)
                  (status_frame (WSReceipt.MsgID receipt) MsgStatusRead (clock w))
                  w2 Hinv2)
        as (w3 & Hsend & _ & Hd3 & _ & _ & _ & _ & _ & _ & He3 & _).
      exists w3. split.
      { unfold IMServer.notifyStatusUpdate, bind. unfold status_frame in Hsend.
        by rewrite Hsend. }
      assert (rows_of (WSReceipt.MsgID receipt) w3
              = MessageRepository.updates MsgStatusRead (clock w)
                  <$> rows_of (WSReceipt.MsgID receipt) w) as Hrows3.
      { transitivity (rows_of (WSReceipt.MsgID receipt) w1).
        - apply rows_of_same_db. by rewrite Hd3, Hd2.
        - apply rows_of_UpdateStatus. }
      split; [unfold status_of; rewrite Hrows3, Hrows; reflexivity|].
      split.
      { unfold read_time_of. rewrite Hrows3, Hrows. reflexivity. }
      rewrite He3, He2. simpl. do 3 f_equal.
      unfold queue_accepts. by rewrite Hh2. }
  assert (∀ other type_ time,
            IMServer.handleReadReceipt other
              (Some (WSReceipt.mk (WSReceipt.MsgID receipt) type_ time)) w
            = Some (tt, w')) as Hany.
  { intros other type_ time.
    unfold IMServer.handleReadReceipt, IMServer.MarkAsRead, bind, UnixMilli.
    simpl WSReceipt.MsgID. by rewrite Hrun. }
  exists w'. split; [|done]. destruct receipt as [msgID type_ time]. apply Hany.
Qed.

Lemma hub_inv_world_history : hub_inv world_history.
Proof. apply (hub_inv_same_hub world0); [done|]. exact hub_inv_world0. Qed.

Lemma handleReadReceipt_notifies_sender_witness :
  hub_inv world_history ∧ faults world_history = []
  ∧ ∃ w', IMServer.handleReadReceipt 1 (Some (WSReceipt.mk "m3" "read" 0)) world_history
          = Some (tt, w')
        ∧ status_of "m3" w' = Some MsgStatusRead
        ∧ events w' = [EvPush 3 (status_frame "m3" MsgStatusRead 5000) false].
Proof.
  split; [exact hub_inv_world_history|]. split; [reflexivity|].
  destruct (handleReadReceipt_notifies_sender 1 (WSReceipt.mk "m3" "read" 0)
              world_history hub_inv_world_history eq_refl)
    as (w' & Hrun & Heffect & _).
  exists w'. split; [exact Hrun|].
  change (rows_of (WSReceipt.MsgID (WSReceipt.mk "m3" "read" 0)) world_history)
    with [DBMessage.mk 3 "m3" 3 2 0 "hey" MsgTypeText MsgStatusSent "" 2600 2600 0 0 2600]
    in Heffect.
  destruct Heffect as (Hstatus & _ & Hev). split; [exact Hstatus|exact Hev].
Defined.
